(** * Gann wheel / volume-price analysis engine: a shallow embedding

    The analytical core of the repository (gann_wheel.py,
    volume_price_analyzer.py, price_prediction_analyzer.py) embedded as Rocq
    functions, followed by the properties established about them.

    Conventions.
    - A Python / numpy float is an exact rational [Q].  Comparisons are the
      boolean ones on [Q]; results that the code computes by arithmetic are
      compared with [==] (equality of rationals), values that the code merely
      copies are compared with [=].  NaN, infinities and rounding are
      outside the model; a division by zero is 0 as in [Q], and the
      properties assume positive divisors where the code divides.
    - A pandas column is the list of its cells, [iloc[i]] is [nth i].
    - A timestamp is a day number in [Z].
    - Code that can raise returns a [Res]; [try ... except Exception] is
      [try_except]. *)

From Stdlib Require Import String Ascii.
From Stdlib Require Import List ZArith QArith Qabs Qminmax Qround Lqa Lia Bool Sorted
  Permutation.
Import ListNotations.

Local Open Scope string_scope.
Local Open Scope list_scope.
Local Open Scope Q_scope.

(** ** Numbers *)

Definition Qlt_bool (x y : Q) : bool := negb (Qle_bool y x).

(** Python's [int(x)] on a float: truncation towards zero. *)
Definition py_int (x : Q) : Z := Z.quot (Qnum x) (Zpos (Qden x)).

(** [sum(xs)], from the left, starting at 0. *)
Definition Qsum (xs : list Q) : Q := fold_left Qplus xs 0.

(** ** Exceptions *)

Inductive PyExn :=
| ValueError (msg : string)
| KeyError (key : string)
| IndexError
| AttributeError
| TypeError.

(** The outcome of code that may raise. *)
Inductive Res (A : Type) :=
| Ok (a : A)
| Raise (e : PyExn).

Arguments Ok {A} a.
Arguments Raise {A} e.

Definition bind {A B} (r : Res A) (k : A -> Res B) : Res B :=
  match r with
  | Ok a => k a
  | Raise e => Raise e
  end.

Notation "x <- r ;; k" := (bind r (fun x => k))
  (at level 61, r at next level, right associativity).

(** [try: body / except Exception: return fallback]. *)
Definition try_except {A} (body : Res A) (fallback : A) : A :=
  match body with
  | Ok a => a
  | Raise _ => fallback
  end.

(** ** Dicts *)

(** [d.get(key, default)] on a dict with string keys. *)
Fixpoint dict_get {V} (d : list (string * V)) (key : string) (default : V) : V :=
  match d with
  | [] => default
  | (k, v) :: rest => if String.eqb k key then v else dict_get rest key default
  end.

(** ** Tangents *)

(** [math.tan(math.radians(angle))] has no rational value; code that calls it
    is a computation that may ask for the tangent of an angle (in degrees)
    and goes on with the answer. *)
Inductive TanM (A : Type) :=
| Ret (a : A)
| AskTan (angle : Q) (k : Q -> TanM A).

Arguments Ret {A} a.
Arguments AskTan {A} angle k.

Fixpoint tbind {A B} (m : TanM A) (f : A -> TanM B) : TanM B :=
  match m with
  | Ret a => f a
  | AskTan angle k => AskTan angle (fun t => tbind (k t) f)
  end.

Definition math_tan_degrees (angle : Q) : TanM Q := AskTan angle Ret.

(** Running a computation against a tangent function: its value, and the
    angles at which the tangent was evaluated, in order. *)
Fixpoint run {A} (tan : Q -> Q) (m : TanM A) : A :=
  match m with
  | Ret a => a
  | AskTan angle k => run tan (k (tan angle))
  end.

Fixpoint evaluated_at {A} (tan : Q -> Q) (m : TanM A) : list Q :=
  match m with
  | Ret _ => []
  | AskTan angle k => angle :: evaluated_at tan (k (tan angle))
  end.

(** [for x in xs: ...] inside such a computation, collecting the results. *)
Fixpoint tmap {A B} (f : A -> TanM B) (xs : list A) : TanM (list B) :=
  match xs with
  | [] => Ret []
  | x :: rest => tbind (f x) (fun y => tbind (tmap f rest) (fun ys => Ret (y :: ys)))
  end.

(** ** Bars *)

Record Bar := mkBar {
  date : Z;
  Open : Q;
  High : Q;
  Low : Q;
  Close : Q;
  Volume : Q
}.

(** [range(a, b)] for naturals; empty when [b <= a]. *)
Definition range (a b : nat) : list nat := seq a (b - a).

(** The two [all(...)] tests of the pivot scan: bar [i] is compared with the
    [window] bars before it and the [window] bars after it. *)
Definition local_high (xs : list Q) (window i : nat) : bool :=
  forallb (fun j => Qle_bool (nth (i - j) xs 0) (nth i xs 0)) (range 1 (window + 1)) &&
  forallb (fun j => Qle_bool (nth (i + j) xs 0) (nth i xs 0)) (range 1 (window + 1)).

Definition local_low (xs : list Q) (window i : nat) : bool :=
  forallb (fun j => Qle_bool (nth i xs 0) (nth (i - j) xs 0)) (range 1 (window + 1)) &&
  forallb (fun j => Qle_bool (nth i xs 0) (nth (i + j) xs 0)) (range 1 (window + 1)).

Inductive ExtremeType := high | low.

(** What the scan tests at bar [i], as a proposition. *)
Definition around_le (xs : list Q) (window i : nat) : Prop :=
  forall j, (1 <= j <= window)%nat ->
    nth (i - j) xs 0 <= nth i xs 0 /\ nth (i + j) xs 0 <= nth i xs 0.

Definition around_ge (xs : list Q) (window i : nat) : Prop :=
  forall j, (1 <= j <= window)%nat ->
    nth i xs 0 <= nth (i - j) xs 0 /\ nth i xs 0 <= nth (i + j) xs 0.

(** A series that rises strictly up to [peak] and falls strictly after it. *)
Definition rises_then_falls (xs : list Q) (peak : nat) : Prop :=
  (peak < length xs)%nat /\
  (forall i, (i < peak)%nat -> nth i xs 0 < nth (S i) xs 0) /\
  (forall i, (peak <= i)%nat -> (S i < length xs)%nat -> nth (S i) xs 0 < nth i xs 0).

(** ** Tables and result dicts *)

#[local] Set Warnings "-register-all".

(** A value of a result dict. *)
Inductive PyVal :=
| PNone
| PInt (n : Z)
| PNum (q : Q)
| PStr (s : string)
| PDate (d : Z)
| PList (items : list PyVal)
| PDict (entries : list (string * PyVal)).

(** A dict with string keys, in insertion order. *)
Definition Dict := list (string * PyVal).

(** [d[key] = value] for a key that [d] does not hold yet. *)
Definition dict_set (d : Dict) (key : string) (value : PyVal) : Dict :=
  d ++ [(key, value)].

Definition keys (d : Dict) : list string := map fst d.


(** A pandas DataFrame indexed by date: the names of its columns and its
    rows. *)
Record DataFrame := mkDataFrame {
  columns : list string;
  rows : list Bar
}.

(** [data.empty]: one of the two axes has length zero. *)
Definition empty (data : DataFrame) : bool :=
  match columns data, rows data with
  | [], _ => true
  | _, [] => true
  | _, _ => false
  end.

(** [data.sort_index()]: rows in ascending order of date, stable. *)
Fixpoint insert_row (x : Bar) (l : list Bar) : list Bar :=
  match l with
  | [] => [x]
  | y :: rest => if (date x <=? date y)%Z then x :: l else y :: insert_row x rest
  end.

Definition sort_index (data : DataFrame) : DataFrame :=
  mkDataFrame (columns data) (fold_right insert_row [] (rows data)).

(** The [data_range] entry of a result. *)
Definition data_range (data : DataFrame) : PyVal :=
  PDict [("start_date", PDate (hd 0%Z (map date (rows data))));
         ("end_date", PDate (last (map date (rows data)) 0%Z));
         ("total_days", PInt (Z.of_nat (length (rows data))))].

(** ** gann_wheel.py *)

Module GannWheel.

Record Pivot := mkPivot {
  p_date : Z;
  p_price : Q;
  p_type : ExtremeType;
  p_index : nat
}.

Definition high_pivot (data : list Bar) (i : nat) : Pivot :=
  mkPivot (nth i (map date data) 0%Z) (nth i (map High data) 0) high i.

Definition low_pivot (data : list Bar) (i : nat) : Pivot :=
  mkPivot (nth i (map date data) 0%Z) (nth i (map Low data) 0) low i.

(** The body of the [for i in range(window, len(data) - window)] loop,
    threading the two result lists. *)
Fixpoint pivot_loop (data : list Bar) (window : nat) (idxs : list nat)
    (highs lows : list Pivot) : list Pivot * list Pivot :=
  match idxs with
  | [] => (highs, lows)
  | i :: rest =>
      let highs' :=
        if local_high (map High data) window i
        then highs ++ [high_pivot data i] else highs in
      let lows' :=
        if local_low (map Low data) window i
        then lows ++ [low_pivot data i] else lows in
      pivot_loop data window rest highs' lows'
  end.

Definition _find_pivot_points (data : list Bar) (window : nat)
    : list Pivot * list Pivot :=
  pivot_loop data window (range window (length data - window)) [] [].

(** *** Angle lines *)

(** [self.tolerance] and [self.price_angles], with their defaults. *)
Record GannConfig := mkGannConfig {
  tolerance : Q;
  price_angles : list Q
}.

Definition default_gann_config : GannConfig :=
  mkGannConfig 0.02 [15; 30; 45; 60; 75; 90; 105; 120; 135; 150; 165; 180].

Record LinePoint := mkLinePoint {
  lp_date : Z;
  lp_predicted_price : Q;
  lp_actual_price : Q
}.

Record AngleLine := mkAngleLine {
  al_start_date : Z;
  al_start_price : Q;
  al_angle : Q;
  al_point_type : ExtremeType;
  al_slope : Q;
  al_strength : Q;
  al_touches : nat;
  al_line_points : list LinePoint
}.

(** [data.index.get_loc(start_date) if start_date in data.index else 0]. *)
Fixpoint get_loc_or_zero (start_date : Z) (index : list Z) (pos : nat) : nat :=
  match index with
  | [] => 0%nat
  | d :: rest => if (d =? start_date)%Z then pos else get_loc_or_zero start_date rest (S pos)
  end.

Definition angle_line_slope (angle : Q) (point_type : ExtremeType) : TanM Q :=
  if Qeq_bool angle 45 then
    Ret (match point_type with low => 1 | high => -1 end)
  else if Qeq_bool angle 26.25 then
    Ret (match point_type with low => 2 | high => -2 end)
  else if Qeq_bool angle 63.75 then
    Ret (match point_type with low => 0.5 | high => -0.5 end)
  else
    tbind (math_tan_degrees angle)
          (fun t => Ret (match point_type with low => t | high => - t end)).

(** The price of the line [days_diff] bars after its origin. *)
Definition predicted_price (start_price slope : Q) (days_diff : nat) : Q :=
  start_price + slope * inject_Z (Z.of_nat days_diff) * start_price * 0.01.

(** One iteration of [for i in range(start_index + 1, len(data))]; the state
    is [(touches, line_points)]. *)
Definition angle_line_step (cfg : GannConfig) (data : list Bar)
    (start_price slope : Q) (start_index : nat)
    (state : nat * list LinePoint) (i : nat) : nat * list LinePoint :=
  let (touches, line_points) := state in
  let days_diff := (i - start_index)%nat in
  let predicted := predicted_price start_price slope days_diff in
  let actual_high := nth i (map High data) 0 in
  let actual_low := nth i (map Low data) 0 in
  let tolerance_range := predicted * tolerance cfg in
  if Qle_bool actual_low (predicted + tolerance_range) &&
     Qle_bool (predicted - tolerance_range) actual_high
  then (S touches,
        line_points ++ [mkLinePoint (nth i (map date data) 0%Z) predicted
                          ((actual_high + actual_low) / 2)])
  else (touches, line_points).

Definition _calculate_gann_angle_line (cfg : GannConfig) (data : list Bar)
    (start_date : Z) (start_price angle : Q) (point_type : ExtremeType)
    : TanM AngleLine :=
  tbind (angle_line_slope angle point_type) (fun slope =>
  let start_index := get_loc_or_zero start_date (map date data) 0 in
  let (touches, line_points) :=
    fold_left (angle_line_step cfg data start_price slope start_index)
              (range (start_index + 1) (length data)) (0%nat, []) in
  let strength :=
    if (0 <? length data - start_index)%nat
    then inject_Z (Z.of_nat touches) / inject_Z (Z.of_nat (length data - start_index))
    else 0 in
  Ret (mkAngleLine start_date start_price angle point_type slope strength
         touches line_points)).

(** *** Level clustering *)

(** The keys of a price-level dict that the clustering reads. *)
Record Level := mkLevel {
  l_price : Q;
  l_type : string;
  l_strength : Q
}.

(** The dict built by [_merge_level_group]. *)
Record MergedLevel := mkMergedLevel {
  m_price : Q;
  m_type : string;
  m_strength : Q;
  m_count : nat;
  m_original_types : list string
}.

(** [sorted(levels, key=lambda x: x['price'])]: a stable sort, here by
    insertion from the right, a new element going before the first one
    that is not smaller. *)
Fixpoint insert_by_price (x : Level) (l : list Level) : list Level :=
  match l with
  | [] => [x]
  | y :: rest =>
      if Qle_bool (l_price x) (l_price y) then x :: l
      else y :: insert_by_price x rest
  end.

Definition sorted_by_price (levels : list Level) : list Level :=
  fold_right insert_by_price [] levels.


(** [_merge_level_group], in an interpreter that lists a set by [list_set]. *)
Definition _merge_level_group_in (list_set : list string -> list string)
    (group : list Level) : MergedLevel :=
  let avg_price := Qsum (map l_price group) / inject_Z (Z.of_nat (length group)) in
  let total_strength :=
    Qsum (map l_strength group) / inject_Z (Z.of_nat (length group)) in
  let types := list_set (map l_type group) in
  mkMergedLevel
    avg_price
    (match types with [t] => t | _ => "combined" end)
    total_strength
    (length group)
    types.

Definition no_level : Level := mkLevel 0 "" 0.

(** The test that puts [current_level] into the open group. *)
Definition similar (tolerance : Q) (current_level last_in_group : Level) : bool :=
  Qlt_bool (Qabs (l_price current_level - l_price last_in_group)
              / l_price last_in_group) tolerance.

(** The loop over [sorted_levels[1:]] with its two variables, followed by
    the flush of the last group. *)
Fixpoint merge_loop_in (list_set : list string -> list string) (tolerance : Q)
    (rest : list Level) (current_group : list Level)
    (merged_levels : list MergedLevel) : list MergedLevel :=
  match rest with
  | [] => merged_levels ++ [_merge_level_group_in list_set current_group]
  | current_level :: rest' =>
      let last_in_group := last current_group no_level in
      if similar tolerance current_level last_in_group
      then merge_loop_in list_set tolerance rest' (current_group ++ [current_level])
             merged_levels
      else merge_loop_in list_set tolerance rest' [current_level]
             (merged_levels ++ [_merge_level_group_in list_set current_group])
  end.

Definition _merge_similar_levels_in (list_set : list string -> list string)
    (tolerance : Q) (levels : list Level) : list MergedLevel :=
  match sorted_by_price levels with
  | [] => []
  | first :: rest => merge_loop_in list_set tolerance rest [first] []
  end.

(** The same with the distinct types in the order of [nodup], that of their
    last occurrences, which is one of the orders an interpreter can have. *)
Definition _merge_level_group : list Level -> MergedLevel :=
  _merge_level_group_in (nodup string_dec).

Definition merge_loop
    : Q -> list Level -> list Level -> list MergedLevel -> list MergedLevel :=
  merge_loop_in (nodup string_dec).

Definition _merge_similar_levels : Q -> list Level -> list MergedLevel :=
  _merge_similar_levels_in (nodup string_dec).

(** Two levels whose prices differ by at least the tolerance fraction of
    the lower price. *)
Definition apart (tolerance : Q) (a b : Level) : Prop :=
  tolerance * Qmin (l_price a) (l_price b) <= Qabs (l_price a - l_price b).

(** An output record that keeps an input level as it is. *)
Definition keeps (l : Level) (m : MergedLevel) : Prop :=
  (m_price m == l_price l) /\ (m_strength m == l_strength l) /\
  (m_type m = l_type l) /\ (m_count m = 1%nat).

(** Ascending order of price, on levels and on output records. *)
Definition le_price (a b : Level) : Prop := l_price a <= l_price b.


(** *** The analysis pipeline *)

Section AnalyzeStock.

(** The statements inside the [try] of each stage, as functions of the
    table; the last one also reads three entries of the result so far. *)
Variables time_cycles_body price_cycles_body gann_angles_body
          gann_square_body resonance_body key_levels_body : DataFrame -> Res PyVal.
Variable predictions_body : DataFrame -> PyVal -> PyVal -> PyVal -> Res PyVal.

Definition _analyze_time_cycles (data : DataFrame) : PyVal :=
  try_except (time_cycles_body data)
    (PDict [("cycles_found", PList []); ("dominant_cycle", PNone);
            ("next_time_windows", PList [])]).

Definition _analyze_price_cycles (data : DataFrame) : PyVal :=
  try_except (price_cycles_body data)
    (PDict [("price_range", PInt 0); ("price_center", PInt 0);
            ("key_levels", PList []); ("current_position", PDict [])]).

Definition _analyze_gann_angles (data : DataFrame) : PyVal :=
  try_except (gann_angles_body data)
    (PDict [("angle_lines", PList []); ("current_angle_support", PNone);
            ("current_angle_resistance", PNone)]).

Definition _analyze_gann_square (data : DataFrame) : PyVal :=
  try_except (gann_square_body data)
    (PDict [("square_center", PInt 0); ("square_levels", PList []);
            ("current_position", PDict []); ("next_levels", PList [])]).

Definition _analyze_time_price_resonance (data : DataFrame) : PyVal :=
  try_except (resonance_body data)
    (PDict [("resonance_points", PList []); ("strongest_resonance", PNone);
            ("next_resonance_prediction", PNone)]).

Definition _calculate_key_levels (data : DataFrame) : PyVal :=
  try_except (key_levels_body data)
    (PDict [("current_price", PInt 0); ("key_supports", PList []);
            ("key_resistances", PList []); ("strongest_support", PNone);
            ("strongest_resistance", PNone)]).

Definition _generate_predictions (data : DataFrame) (analysis_result : Dict) : PyVal :=
  try_except
    (predictions_body data
       (dict_get analysis_result "time_analysis" (PDict []))
       (dict_get analysis_result "price_analysis" (PDict []))
       (dict_get analysis_result "angle_analysis" (PDict [])))
    (PDict [("current_price", PInt 0); ("current_date", PNone);
            ("combined_prediction", PDict [])]).

(** [now] is the reading of [datetime.now()] taken by the call. *)
Definition analyze_stock (now : Z) (symbol : string) (data : DataFrame) : Res Dict :=
  if empty data then Raise (ValueError "股票数据为空")
  else
    let data := sort_index data in
    let analysis_result :=
      [("symbol", PStr symbol); ("analysis_date", PDate now);
       ("data_range", data_range data)] in
    let analysis_result :=
      dict_set analysis_result "time_analysis" (_analyze_time_cycles data) in
    let analysis_result :=
      dict_set analysis_result "price_analysis" (_analyze_price_cycles data) in
    let analysis_result :=
      dict_set analysis_result "angle_analysis" (_analyze_gann_angles data) in
    let analysis_result :=
      dict_set analysis_result "square_analysis" (_analyze_gann_square data) in
    let analysis_result :=
      dict_set analysis_result "resonance_analysis"
        (_analyze_time_price_resonance data) in
    let analysis_result :=
      dict_set analysis_result "key_levels" (_calculate_key_levels data) in
    let analysis_result :=
      dict_set analysis_result "predictions"
        (_generate_predictions data analysis_result) in
    Ok analysis_result.

End AnalyzeStock.

End GannWheel.

(** ** volume_price_analyzer.py *)

Module VolumePriceAnalyzer.

Record Extreme := mkExtreme {
  e_date : Z;
  e_price : Q;
  e_volume : Q;
  e_type : ExtremeType;
  e_index : nat
}.

Definition extreme_at (data : list Bar) (t : ExtremeType) (i : nat) : Extreme :=
  mkExtreme (nth i (map date data) 0%Z)
            (nth i (map (match t with high => High | low => Low end) data) 0)
            (nth i (map Volume data) 0) t i.

Fixpoint extremes_loop (data : list Bar) (t : ExtremeType) (window : nat)
    (idxs : list nat) (extremes : list Extreme) : list Extreme :=
  match idxs with
  | [] => extremes
  | i :: rest =>
      let hit :=
        match t with
        | high => local_high (map High data) window i
        | low => local_low (map Low data) window i
        end in
      extremes_loop data t window rest
        (if hit then extremes ++ [extreme_at data t i] else extremes)
  end.

Definition _find_price_extremes (data : list Bar) (extreme_type : ExtremeType)
    (window : nat) : list Extreme :=
  extremes_loop data extreme_type window
    (range window (length data - window)) [].

(** The part of the configuration the divergence scan reads
    ([config.get('divergence_threshold', 0.15)]). *)
Record Config := mkConfig {
  divergence_threshold : Q
}.

Definition default_config : Config := mkConfig 0.15.

Inductive DivergenceType := top_divergence | bottom_divergence.

Record Divergence := mkDivergence {
  d_date : Z;
  d_type : DivergenceType;
  d_price : Q;
  d_volume : Q;
  d_previous_price : Q;
  d_previous_volume : Q;
  d_price_change_pct : Q;
  d_volume_change_pct : Q;
  d_strength : Q
}.

(** The record appended when a divergence is flagged; top and bottom
    divergences fill the fields by the same expressions. *)
Definition divergence_record (t : DivergenceType) (current previous : Extreme)
    : Divergence :=
  mkDivergence
    (e_date current) t
    (e_price current) (e_volume current)
    (e_price previous) (e_volume previous)
    ((e_price current - e_price previous) / e_price previous)
    ((e_volume current - e_volume previous) / e_volume previous)
    (Qabs ((e_volume current - e_volume previous) / e_volume previous)).

Definition no_extreme : Extreme := mkExtreme 0 0 0 high 0.

(** One iteration of [for i in range(1, len(price_highs))]. *)
Definition top_divergence_step (cfg : Config) (price_highs : list Extreme)
    (divergences : list Divergence) (i : nat) : list Divergence :=
  let current_high := nth i price_highs no_extreme in
  let previous_high := nth (i - 1) price_highs no_extreme in
  if Qlt_bool (e_price previous_high) (e_price current_high) then
    if Qlt_bool (e_volume current_high)
                (e_volume previous_high * (1 - divergence_threshold cfg))
    then divergences ++ [divergence_record top_divergence current_high previous_high]
    else divergences
  else divergences.

Definition _detect_top_divergence (cfg : Config) (price_highs : list Extreme)
    : list Divergence :=
  fold_left (top_divergence_step cfg price_highs)
            (range 1 (length price_highs)) [].

Definition bottom_divergence_step (cfg : Config) (price_lows : list Extreme)
    (divergences : list Divergence) (i : nat) : list Divergence :=
  let current_low := nth i price_lows no_extreme in
  let previous_low := nth (i - 1) price_lows no_extreme in
  if Qlt_bool (e_price current_low) (e_price previous_low) then
    if Qlt_bool (e_volume previous_low * (1 + divergence_threshold cfg))
                (e_volume current_low)
    then divergences ++ [divergence_record bottom_divergence current_low previous_low]
    else divergences
  else divergences.

Definition _detect_bottom_divergence (cfg : Config) (price_lows : list Extreme)
    : list Divergence :=
  fold_left (bottom_divergence_step cfg price_lows)
            (range 1 (length price_lows)) [].

(** What two consecutive extremes [previous], [current] add to the result
    of the scan: the record, or nothing. *)
Definition top_divergence_between (cfg : Config) (previous current : Extreme)
    : list Divergence :=
  if Qlt_bool (e_price previous) (e_price current) &&
     Qlt_bool (e_volume current) (e_volume previous * (1 - divergence_threshold cfg))
  then [divergence_record top_divergence current previous] else [].

(** *** Divergence analysis *)

(** [divergences.sort(key=lambda x: x['date'])], stable. *)
Fixpoint insert_by_date (x : Divergence) (l : list Divergence) : list Divergence :=
  match l with
  | [] => [x]
  | y :: rest =>
      if (d_date x <=? d_date y)%Z then x :: l
      else y :: insert_by_date x rest
  end.

Definition sorted_by_date (l : list Divergence) : list Divergence :=
  fold_right insert_by_date [] l.

(** [data.index[-k]]: the k-th date from the end, [IndexError] when the
    table has fewer than [k] rows. *)
Definition index_from_end (data : list Bar) (k : nat) : Res Z :=
  if (k <=? length data)%nat && (1 <=? k)%nat
  then Ok (nth (length data - k) (map date data) 0%Z)
  else Raise IndexError.

(** [max(recent, key=lambda x: x['date'])]: the first of the latest ones. *)
Fixpoint latest_of (best : Divergence) (l : list Divergence) : Divergence :=
  match l with
  | [] => best
  | d :: rest => latest_of (if (d_date best <? d_date d)%Z then d else best) rest
  end.

(** The dict returned by [_check_current_divergence_status]; the two keys
    after the first are present only when a recent divergence exists. *)
Record CurrentDivergence := mkCurrentDivergence {
  has_recent_divergence : bool;
  latest_divergence : option Divergence;
  days_since_divergence : option Z
}.

(** Returns [None] (Python's [None]) when there is no divergence at all. *)
Definition _check_current_divergence_status (data : list Bar)
    (divergences : list Divergence) : Res (option CurrentDivergence) :=
  match divergences with
  | [] => Ok None
  | _ =>
      cutoff <- index_from_end data 30 ;;
      match filter (fun d => (cutoff <=? d_date d)%Z) divergences with
      | [] => Ok (Some (mkCurrentDivergence false None None))
      | d :: rest =>
          let latest := latest_of d rest in
          last_date <- index_from_end data 1 ;;
          Ok (Some (mkCurrentDivergence true (Some latest)
                      (Some (last_date - d_date latest)%Z)))
      end
  end.

(** The statistics of [_evaluate_divergence_strength] that both of its
    branches return. *)
Record DivergenceStrength := mkDivergenceStrength {
  avg_strength : Q;
  max_strength : Q;
  divergence_frequency : nat
}.

Definition _evaluate_divergence_strength (divergences : list Divergence)
    : DivergenceStrength :=
  match map d_strength divergences with
  | [] => mkDivergenceStrength 0 0 0
  | s :: strengths =>
      mkDivergenceStrength
        (Qsum (s :: strengths) / inject_Z (Z.of_nat (length (s :: strengths))))
        (fold_left Qmax strengths s)
        (length divergences)
  end.

(** The dict returned by [_analyze_divergence] when nothing raises. *)
Record DivergenceData := mkDivergenceData {
  divergences : list Divergence;
  top_divergences : list Divergence;
  bottom_divergences : list Divergence;
  current_divergence : option CurrentDivergence;
  divergence_strength : DivergenceStrength;
  total_divergences : nat
}.

Definition analyze_divergence_body (cfg : Config) (data : list Bar)
    : Res DivergenceData :=
  let price_highs := _find_price_extremes data high 5 in
  let price_lows := _find_price_extremes data low 5 in
  let top_divergences := _detect_top_divergence cfg price_highs in
  let bottom_divergences := _detect_bottom_divergence cfg price_lows in
  let divergences := sorted_by_date (top_divergences ++ bottom_divergences) in
  current_divergence <- _check_current_divergence_status data divergences ;;
  Ok (mkDivergenceData divergences top_divergences bottom_divergences
        current_divergence (_evaluate_divergence_strength divergences)
        (length divergences)).

(** [_analyze_divergence]; [None] is the empty dict of the [except] branch. *)
Definition _analyze_divergence (cfg : Config) (data : list Bar)
    : option DivergenceData :=
  try_except (d <- analyze_divergence_body cfg data ;; Ok (Some d)) None.

(** *** Comprehensive score *)

(** The sub-dicts of [analysis_result] that the scoring reads, each with the
    keys it reads: [current_consistency] is
    [['consistency_analysis']['current_consistency']],
    [current_coordination_level] is [['current_coordination']['level']] and
    [trend_consistency] is [['trend_consistency']['score']].  An [option] at
    that level is [None] for the empty dict [{}] that a failed stage leaves
    behind. *)
Record RelationData := mkRelationData {
  current_correlation : Q;
  current_consistency : Q
}.

(** [recent_events]: the events of the last 30 days, by their dates. *)
Record AbnormalData := mkAbnormalData {
  recent_events : list Z
}.

Record CoordinationData := mkCoordinationData {
  current_coordination_level : string
}.

Record TrendData := mkTrendData {
  trend_consistency : Q
}.

Record AnalysisResult := mkAnalysisResult {
  volume_price_relation : option RelationData;
  divergence_analysis : option DivergenceData;
  abnormal_volume : option AbnormalData;
  price_volume_coordination : option CoordinationData;
  trend_analysis : option TrendData
}.

Definition _score_volume_price_relation (relation_data : option RelationData) : Q :=
  match relation_data with
  | None => 50
  | Some r =>
      let score := Qabs (current_correlation r) * 50 + current_consistency r * 50 in
      Qmin 100 (Qmax 0 score)
  end.

(** [current_divergence.get(...)] on Python's [None] raises. *)
Definition _score_divergence_risk (divergence_data : option DivergenceData) : Res Q :=
  match divergence_data with
  | None => Ok 0
  | Some dd =>
      match current_divergence dd with
      | None => Raise AttributeError
      | Some cd =>
          if has_recent_divergence cd then
            let days_since :=
              match days_since_divergence cd with Some n => n | None => 30%Z end in
            let risk_score := Qmax 0 (100 - inject_Z days_since * 3) in
            Ok (Qmin 100 risk_score)
          else Ok 20
      end
  end.

Definition _score_volume_health (abnormal_data : option AbnormalData) : Q :=
  match abnormal_data with
  | None => 70
  | Some a =>
      let total_events := length (recent_events a) in
      if (total_events =? 0)%nat then 90
      else if (total_events <=? 2)%nat then 70
      else if (total_events <=? 5)%nat then 50
      else 30
  end.

Definition level_scores : list (string * Q) :=
  [("excellent", 95); ("good", 80); ("fair", 60); ("poor", 40); ("very_poor", 20)].

Definition _score_coordination (coordination_data : option CoordinationData) : Q :=
  match coordination_data with
  | None => 50
  | Some c => dict_get level_scores (current_coordination_level c) 50
  end.

Definition _score_trend_consistency (trend_data : option TrendData) : Q :=
  match trend_data with
  | None => 50
  | Some t => trend_consistency t * 100
  end.

Definition _get_comprehensive_rating (score : Q) : string :=
  if Qle_bool 90 score then "A+"
  else if Qle_bool 80 score then "A"
  else if Qle_bool 70 score then "B+"
  else if Qle_bool 60 score then "B"
  else if Qle_bool 50 score then "C+"
  else if Qle_bool 40 score then "C"
  else if Qle_bool 30 score then "D+"
  else "D".

Record Scores := mkScores {
  relation_score : Q;
  divergence_risk_score : Q;
  volume_health_score : Q;
  coordination_score : Q;
  trend_consistency_score : Q
}.

(** The dict returned by [_calculate_comprehensive_score]; the [except]
    branch returns only the last two keys. *)
Record ComprehensiveScore := mkComprehensiveScore {
  individual_scores : option Scores;
  comprehensive_score : Q;
  rating : string
}.

Definition comprehensive_score_body (analysis_result : AnalysisResult)
    : Res ComprehensiveScore :=
  let relation_score :=
    _score_volume_price_relation (volume_price_relation analysis_result) in
  divergence_score <- _score_divergence_risk (divergence_analysis analysis_result) ;;
  let volume_health_score := _score_volume_health (abnormal_volume analysis_result) in
  let coordination_score :=
    _score_coordination (price_volume_coordination analysis_result) in
  let trend_score := _score_trend_consistency (trend_analysis analysis_result) in
  let comprehensive_score :=
    0 + relation_score * 0.25 + divergence_score * -0.15
      + volume_health_score * 0.20 + coordination_score * 0.20
      + trend_score * 0.20 in
  let comprehensive_score := Qmax 0 (Qmin 100 comprehensive_score) in
  Ok (mkComprehensiveScore
        (Some (mkScores relation_score divergence_score volume_health_score
                 coordination_score trend_score))
        comprehensive_score
        (_get_comprehensive_rating comprehensive_score)).

Definition _calculate_comprehensive_score (analysis_result : AnalysisResult)
    : ComprehensiveScore :=
  try_except (comprehensive_score_body analysis_result)
             (mkComprehensiveScore None 50 "C").

(** *** The analysis pipeline *)

Definition required_columns : list string :=
  ["Open"; "High"; "Low"; "Close"; "Volume"].

(** [repr] of a list of column names, as an f-string prints it. *)
Definition repr_columns (cols : list string) : string :=
  ("[" ++ String.concat ", " (map (fun c => "'" ++ c ++ "'") cols) ++ "]")%string.

Section AnalyzeStock.

(** The statements inside the [try] of each stage, as functions of the
    table; the last two read entries of the result so far: the score reads
    the relation, divergence, abnormal-volume, coordination and trend
    entries, the signals read the relation, divergence, pattern,
    abnormal-volume and score entries.  The bodies of the third and the
    eighth stage are the ones embedded above as [analyze_divergence_body]
    and [comprehensive_score_body], on the keys they read. *)
Variables basic_indicators_body relation_body divergence_body patterns_body
          coordination_body abnormal_body trend_body : DataFrame -> Res PyVal.
Variable score_body : PyVal -> PyVal -> PyVal -> PyVal -> PyVal -> Res PyVal.
Variable signals_body :
  DataFrame -> PyVal -> PyVal -> PyVal -> PyVal -> PyVal -> Res PyVal.

(** A stage whose [except] branch returns the empty dict. *)
Definition stage (body : Res PyVal) : PyVal := try_except body (PDict []).

Definition score_stage (analysis_result : Dict) : PyVal :=
  try_except
    (score_body
       (dict_get analysis_result "volume_price_relation" (PDict []))
       (dict_get analysis_result "divergence_analysis" (PDict []))
       (dict_get analysis_result "abnormal_volume" (PDict []))
       (dict_get analysis_result "price_volume_coordination" (PDict []))
       (dict_get analysis_result "trend_analysis" (PDict [])))
    (PDict [("comprehensive_score", PInt 50); ("rating", PStr "C")]).

Definition signals_stage (data : DataFrame) (analysis_result : Dict) : PyVal :=
  stage
    (signals_body data
       (dict_get analysis_result "volume_price_relation" (PDict []))
       (dict_get analysis_result "divergence_analysis" (PDict []))
       (dict_get analysis_result "volume_patterns" (PDict []))
       (dict_get analysis_result "abnormal_volume" (PDict []))
       (dict_get analysis_result "comprehensive_score" (PDict []))).

(** [now] is the reading of [datetime.now()] taken by the call. *)
Definition analyze_stock (now : Z) (symbol : string) (data : DataFrame) : Res Dict :=
  if empty data then Raise (ValueError "股票数据为空")
  else
    let missing_columns :=
      filter (fun col => negb (existsb (String.eqb col) (columns data)))
             required_columns in
    match missing_columns with
    | _ :: _ =>
        Raise (ValueError ("缺少必要的数据列: " ++ repr_columns missing_columns)%string)
    | [] =>
        let data := sort_index data in
        let analysis_result :=
          [("symbol", PStr symbol); ("analysis_date", PDate now);
           ("data_range", data_range data)] in
        let analysis_result :=
          dict_set analysis_result "basic_indicators"
            (stage (basic_indicators_body data)) in
        let analysis_result :=
          dict_set analysis_result "volume_price_relation"
            (stage (relation_body data)) in
        let analysis_result :=
          dict_set analysis_result "divergence_analysis"
            (stage (divergence_body data)) in
        let analysis_result :=
          dict_set analysis_result "volume_patterns" (stage (patterns_body data)) in
        let analysis_result :=
          dict_set analysis_result "price_volume_coordination"
            (stage (coordination_body data)) in
        let analysis_result :=
          dict_set analysis_result "abnormal_volume" (stage (abnormal_body data)) in
        let analysis_result :=
          dict_set analysis_result "trend_analysis" (stage (trend_body data)) in
        let analysis_result :=
          dict_set analysis_result "comprehensive_score"
            (score_stage analysis_result) in
        let analysis_result :=
          dict_set analysis_result "trading_signals"
            (signals_stage data analysis_result) in
        Ok analysis_result
    end.

End AnalyzeStock.

End VolumePriceAnalyzer.

(** ** price_prediction_analyzer.py *)

Module PricePredictionAnalyzer.

Inductive Direction := up | down.

(** A prediction dict: the keys that carry the forecast.  The descriptive
    entries ([analysis_basis], [calculation_details], ...) are left out. *)
Record Prediction := mkPrediction {
  target_price : Q;
  direction : Direction;
  ptype : string;
  confidence : Z
}.

Definition base_confidence : list (string * Z) :=
  [("gann_wheel_angle", 75%Z); ("volume_breakout", 70%Z); ("fibonacci", 65%Z);
   ("pivot_support", 60%Z); ("pivot_resistance", 60%Z);
   ("support_resistance", 55%Z)].

Definition _calculate_dynamic_confidence (prediction_type : string)
    (strength market_volatility volume_factor technical_alignment : Q) : Z :=
  let base := dict_get base_confidence prediction_type 50%Z in
  let strength_adjustment := (strength - 0.5) * 35 in
  let volatility_adjustment :=
    Qmax (-10) (Qmin 10 ((0.02 - market_volatility) * 200)) in
  let volume_adjustment := Qmax (-5) (Qmin 10 ((volume_factor - 1) * 10)) in
  let alignment_adjustment := (technical_alignment - 0.5) * 25 in
  let final_confidence :=
    inject_Z base + strength_adjustment + volatility_adjustment
      + volume_adjustment + alignment_adjustment in
  Z.max 30 (Z.min 95 (py_int final_confidence)).

(** The statistics of the bar table that enter the forecasts through pandas
    ([std], rolling means), taken as given:
    [daily_volatility] is [data['Close'].pct_change().std()] (0.02 for a
    single bar), [last_to_mean_volume] is the last volume over the mean
    volume (1.0 for a single bar), [annual_volatility] is the annualised
    standard deviation of returns, [avg_volume_n] the last n-bar mean of
    the volume. *)
Record Stats := mkStats {
  daily_volatility : Q;
  last_to_mean_volume : Q;
  annual_volatility : Q;
  avg_volume_5 : Q;
  avg_volume_10 : Q;
  avg_volume_20 : Q;
  avg_volume_60 : Q
}.

Definition no_bar : Bar := mkBar 0 0 0 0 0 0.

(** [data['Close'].iloc[-1]] and [data['Volume'].iloc[-1]]. *)
Definition last_close (data : list Bar) : Q := Close (last data no_bar).
Definition last_volume (data : list Bar) : Q := Volume (last data no_bar).

(** [x in [a, b, ...]] on numbers. *)
Definition one_of (x : Q) (xs : list Q) : bool := existsb (Qeq_bool x) xs.

(** [enumerate(xs)]. *)
Definition enumerate {A} (xs : list A) : list (nat * A) :=
  combine (seq 0 (length xs)) xs.

(** [needle in hay] on strings. *)
Fixpoint contains (needle hay : string) : bool :=
  if prefix needle hay then true
  else match hay with
       | EmptyString => false
       | String _ rest => contains needle rest
       end.

(** [j + 1] printed in an f-string, for the one-digit cases that occur. *)
Definition level_number (j : nat) : string :=
  String (ascii_of_nat (49 + j)) EmptyString.

(** *** Gann wheel levels *)

Definition gann_angles : list Q := [15; 22.5; 30; 45; 60; 67.5; 75; 90].

Definition wheel_levels_at (stats : Stats) (current_price angle : Q)
    : TanM (list Prediction) :=
  tbind (if Qle_bool 90 angle then Ret 10 else math_tan_degrees angle)
  (fun tan_value =>
  let tan_value := Qmin tan_value 10 in
  let up_multiplier := Qmin (tan_value * 0.02) 0.5 in
  let up_target := current_price * (1 + up_multiplier) in
  let down_multiplier := Qmin (tan_value * 0.015) 0.4 in
  let down_target := current_price * (1 - down_multiplier) in
  let strength := if one_of angle [45; 90] then 0.9 else 0.7 in
  let technical_alignment :=
    if one_of angle [45; 90; 180; 270] then 0.8 else 0.6 in
  let up_confidence :=
    _calculate_dynamic_confidence "gann_wheel_angle" strength
      (daily_volatility stats) (last_to_mean_volume stats) technical_alignment in
  let down_confidence :=
    _calculate_dynamic_confidence "gann_wheel_angle" (strength * 0.9)
      (daily_volatility stats) (last_to_mean_volume stats) technical_alignment in
  Ret [mkPrediction up_target up "gann_wheel_angle" up_confidence;
       mkPrediction down_target down "gann_wheel_angle" down_confidence]).

Definition _calculate_detailed_gann_wheel_levels (stats : Stats)
    (current_price : Q) : TanM (list Prediction) :=
  tbind (tmap (wheel_levels_at stats current_price) gann_angles)
        (fun levels => Ret (concat levels)).

(** *** Gann price targets *)

(** An entry of [key_supports] / [key_resistances]: a level dict, or a bare
    number. *)
Inductive KeyLevel :=
| LevelDict (price strength : Q) (type : string)
| LevelNumber (price : Q).

Section GannAngle.

(** [_calculate_gann_angle]: [round(degrees(atan(...)), 1)], taken as given. *)
Variable _calculate_gann_angle : Q -> Q -> Q.

Definition support_target (stats : Stats) (current_price : Q)
    (entry : nat * KeyLevel) : list Prediction :=
  let (i, support) := entry in
  let '(price, strength, level_type) :=
    match support with
    | LevelDict p s t => (p, s, t)
    | LevelNumber p => (p, 0.5, "support")
    end in
  if Qlt_bool 0 price && Qlt_bool price current_price then
    let gann_angle := _calculate_gann_angle current_price price in
    let technical_alignment :=
      if one_of gann_angle [45; 90; 180; 270] then 0.8 else 0.6 in
    let base_strength := Qmax 0.4 (strength - inject_Z (Z.of_nat i) * 0.1) in
    let confidence :=
      _calculate_dynamic_confidence "gann_wheel_angle" base_strength
        (daily_volatility stats) (last_to_mean_volume stats) technical_alignment in
    [mkPrediction price down ("gann_" ++ level_type) confidence]
  else [].

Definition resistance_target (current_price : Q)
    (entry : nat * KeyLevel) : list Prediction :=
  let (i, resistance) := entry in
  let '(price, strength, level_type) :=
    match resistance with
    | LevelDict p s t => (p, s, t)
    | LevelNumber p => (p, 0.5, "resistance")
    end in
  if Qlt_bool 0 price && Qlt_bool current_price price then
    let confidence := Z.min (90 - Z.of_nat i * 5) 95 in
    [mkPrediction price up ("gann_" ++ level_type) confidence]
  else [].

Definition _calculate_gann_price_targets (stats : Stats) (data : list Bar)
    (supports resistances : list KeyLevel) : TanM (list Prediction) :=
  let current_price := last_close data in
  tbind (_calculate_detailed_gann_wheel_levels stats current_price)
  (fun gann_wheel_levels =>
  Ret (flat_map (support_target stats current_price) (enumerate (firstn 8 supports))
       ++ flat_map (resistance_target current_price) (enumerate (firstn 8 resistances))
       ++ gann_wheel_levels)).

(** *** Volume-price targets *)

(** An entry of [current_signals] (a dict with [type] and [strength]). *)
Record Signal := mkSignal {
  sig_type : string;
  sig_strength : Q
}.

Definition divergence_targets (stats : Stats) (current_price current_volume : Q)
    (signal : Signal) : list Prediction :=
  let signal_type := sig_type signal in
  let strength := sig_strength signal in
  let volatility := annual_volatility stats in
  if contains "背离" signal_type then
    if contains "底背离" signal_type then
      map (fun '(j, factor) =>
             let target := current_price * (1 + volatility * factor) in
             let base_strength := Qmax 0.3 (strength - inject_Z (Z.of_nat j) * 0.1) in
             let volume_factor := current_volume / avg_volume_20 stats in
             let technical_alignment :=
               if contains "底背离" signal_type then 0.7 else 0.6 in
             let confidence :=
               _calculate_dynamic_confidence "volume_breakout" base_strength
                 volatility volume_factor technical_alignment in
             mkPrediction target up
               ("volume_divergence_level_" ++ level_number j) confidence)
          (enumerate [0.3; 0.5; 0.8])
    else if contains "顶背离" signal_type then
      map (fun '(j, factor) =>
             let target := current_price * (1 - volatility * factor) in
             let base_strength := Qmax 0.3 (strength - inject_Z (Z.of_nat j) * 0.1) in
             let volume_factor := current_volume / avg_volume_20 stats in
             let technical_alignment :=
               if contains "顶背离" signal_type then 0.6 else 0.5 in
             let confidence :=
               _calculate_dynamic_confidence "volume_breakout" base_strength
                 volatility volume_factor technical_alignment in
             mkPrediction target down
               ("volume_divergence_level_" ++ level_number j) confidence)
          (enumerate [0.25; 0.4; 0.6])
    else []
  else [].

Definition breakout_targets (stats : Stats) (current_price : Q)
    (entry : string * Q) : list Prediction :=
  let (volume_type, ratio) := entry in
  if Qlt_bool 1.5 ratio then
    let multipliers :=
      if contains "急剧" volume_type then [0.2; 0.35; 0.5] else [0.15; 0.25; 0.4] in
    map (fun '(j, multiplier) =>
           let target := current_price * (1 + annual_volatility stats * multiplier) in
           let confidence := Z.min (80 - Z.of_nat j * 10) 85 in
           mkPrediction target up
             ("volume_breakout_" ++ volume_type ++ "_level_" ++ level_number j)
             confidence)
        (enumerate multipliers)
  else [].

(** [data.nlargest(20, 'Volume')]: the 20 bars of largest volume, largest
    first, earlier bars first among equals. *)
Fixpoint insert_by_volume_desc (x : Bar) (l : list Bar) : list Bar :=
  match l with
  | [] => [x]
  | y :: rest =>
      if Qle_bool (Volume y) (Volume x) then x :: l
      else y :: insert_by_volume_desc x rest
  end.

Definition nlargest_volume (n : nat) (data : list Bar) : list Bar :=
  firstn n (fold_right insert_by_volume_desc [] data).

Definition _calculate_detailed_volume_price_levels (data : list Bar)
    : list Prediction :=
  let current_price := last_close data in
  let volume_sorted := nlargest_volume 20 data in
  map (fun '(k, row) =>
         let target := Close row in
         let volume_rank := (Z.of_nat (length volume_sorted) - Z.of_nat k)%Z in
         mkPrediction target
           (if Qlt_bool current_price target then up else down)
           "volume_price_memory"
           (Z.min 90 (70 + volume_rank)))
      (enumerate volume_sorted).

Definition _calculate_volume_price_targets (stats : Stats) (data : list Bar)
    (current_signals : list Signal) : list Prediction :=
  let current_price := last_close data in
  let current_volume := last_volume data in
  let volume_price_levels := _calculate_detailed_volume_price_levels data in
  let volume_ratios :=
    [("放量", current_volume / avg_volume_20 stats);
     ("温和放量", current_volume / avg_volume_10 stats);
     ("急剧放量", current_volume / avg_volume_5 stats)] in
  flat_map (divergence_targets stats current_price current_volume) current_signals
  ++ flat_map (breakout_targets stats current_price) volume_ratios
  ++ volume_price_levels.

(** *** Fibonacci targets *)

(** [data.tail(n)]. *)
Definition tail_rows {A} (n : nat) (data : list A) : list A :=
  skipn (length data - n) data.

(** [series.max()] and [series.min()] of a non-empty column. *)
Definition column_max (xs : list Q) : Q :=
  match xs with [] => 0 | x :: rest => fold_left Qmax rest x end.

Definition column_min (xs : list Q) : Q :=
  match xs with [] => 0 | x :: rest => fold_left Qmin rest x end.

Definition fib_levels : list Q := [0.236; 0.382; 0.5; 0.618; 0.786].

Definition fibonacci_target (high_price low_price current_price level : Q)
    : list Prediction :=
  let price_range := high_price - low_price in
  let retracement_price := high_price - price_range * level in
  if Qlt_bool 0.02 (Qabs (retracement_price - current_price) / current_price) then
    let direction :=
      if Qlt_bool retracement_price current_price then down else up in
    let confidence := if one_of level [0.382; 0.618] then 70%Z else 60%Z in
    [mkPrediction retracement_price direction "fibonacci_retracement" confidence]
  else [].

Definition _calculate_fibonacci_targets (data : list Bar) : list Prediction :=
  let recent_data := tail_rows 60 data in
  let high_price := column_max (map High recent_data) in
  let low_price := column_min (map Low recent_data) in
  let current_price := last_close data in
  flat_map (fibonacci_target high_price low_price current_price) fib_levels.

(** *** Support and resistance targets *)

(** A point of [_calculate_pivot_points]: [pp_strength] is
    [['analysis_basis']['strength']] and [pp_touches] is
    [['calculation_details']['parameters']['touches']], the two nested
    entries that the merging updates; the descriptive entries are left
    out. *)
Record PivotPoint := mkPivotPoint {
  pp_target_price : Q;
  pp_direction : Direction;
  pp_type : string;
  pp_confidence : Z;
  pp_strength : Q;
  pp_touches : nat
}.

(** [series.rolling(window=10, center=True)] at row [i]: the ten values of
    the rows [i - 5] to [i + 4].  Where they are not all there pandas gives
    NaN, which is at no row that the scans below visit. *)
Definition rolling_window (xs : list Q) (i : nat) : list Q :=
  firstn 10 (skipn (i - 5) xs).

(** One iteration of each of the two scans. *)
Definition resistance_point (data : list Bar) (i : nat) : list PivotPoint :=
  let current_price := last_close data in
  if Qeq_bool (nth i (map High data) 0)
              (column_max (rolling_window (map High data) i))
  then
    let target_price := nth i (map High data) 0 in
    [mkPivotPoint target_price
       (if Qlt_bool current_price target_price then up else down)
       "pivot_resistance" 75 0.7 1]
  else [].

Definition support_point (data : list Bar) (i : nat) : list PivotPoint :=
  let current_price := last_close data in
  if Qeq_bool (nth i (map Low data) 0)
              (column_min (rolling_window (map Low data) i))
  then
    let target_price := nth i (map Low data) 0 in
    [mkPivotPoint target_price
       (if Qlt_bool current_price target_price then up else down)
       "pivot_support" 75 0.7 1]
  else [].

(** The inner [for existing in merged_points] loop: [Some] of the updated
    list when a similar point of the same type is found (the first one is
    updated in place and the scan stops), [None] otherwise. *)
Fixpoint absorb_point (merged_points : list PivotPoint) (point : PivotPoint)
    : option (list PivotPoint) :=
  match merged_points with
  | [] => None
  | existing :: rest =>
      if Qlt_bool (Qabs (pp_target_price point - pp_target_price existing)
                     / pp_target_price existing) 0.02 &&
         String.eqb (pp_type point) (pp_type existing)
      then
        Some (mkPivotPoint (pp_target_price existing) (pp_direction existing)
                (pp_type existing)
                (Z.min (pp_confidence existing + 5) 90)
                (Qmin (pp_strength existing + 0.1) 0.95)
                (S (pp_touches existing))
              :: rest)
      else option_map (cons existing) (absorb_point rest point)
  end.

Definition merge_point_step (merged_points : list PivotPoint) (point : PivotPoint)
    : list PivotPoint :=
  match absorb_point merged_points point with
  | Some merged_points' => merged_points'
  | None => merged_points ++ [point]
  end.

(** [merged_points.sort(key=lambda x: x['confidence'], reverse=True)],
    stable. *)
Fixpoint insert_point_by_confidence_desc (x : PivotPoint) (l : list PivotPoint)
    : list PivotPoint :=
  match l with
  | [] => [x]
  | y :: rest =>
      if (pp_confidence y <=? pp_confidence x)%Z then x :: l
      else y :: insert_point_by_confidence_desc x rest
  end.

Definition _calculate_pivot_points (data : list Bar) : list PivotPoint :=
  let window := 10%nat in
  let pivot_points :=
    flat_map (resistance_point data) (range window (length data - window))
    ++ flat_map (support_point data) (range window (length data - window)) in
  let merged_points := fold_left merge_point_step pivot_points [] in
  firstn 10 (fold_right insert_point_by_confidence_desc [] merged_points).

Definition support_resistance_target (stats : Stats) (current_price : Q)
    (point : PivotPoint) : list Prediction :=
  let price := pp_target_price point in
  let point_type := pp_type point in
  (* strength = point['confidence'] *)
  let strength := inject_Z (pp_confidence point) in
  if Qlt_bool 0.015 (Qabs (price - current_price) / current_price) then
    let direction := if Qlt_bool price current_price then down else up in
    (* point.get('touches', 1): the point dict has no such key at its top *)
    let touches := 1%Z in
    let technical_alignment := if (2 <? touches)%Z then 0.6 else 0.4 in
    let confidence :=
      _calculate_dynamic_confidence "support_resistance" strength
        (daily_volatility stats) (last_to_mean_volume stats) technical_alignment in
    [mkPrediction price direction ("pivot_" ++ point_type) confidence]
  else [].

Definition _calculate_support_resistance_targets (stats : Stats)
    (data : list Bar) : list Prediction :=
  let pivot_points := _calculate_pivot_points data in
  flat_map (support_resistance_target stats (last_close data)) pivot_points.

(** *** Merging and ranking *)

(** The inner [for existing in merged] loop: [Some] of the updated list when
    a similar prediction is found (the first one is updated in place and
    the scan stops), [None] otherwise. *)
Fixpoint merge_into (merged : list Prediction) (pred : Prediction)
    : option (list Prediction) :=
  match merged with
  | [] => None
  | existing :: rest =>
      let price_diff := Qabs (target_price pred - target_price existing) in
      let price_pct_diff := price_diff / target_price existing in
      if Qlt_bool price_pct_diff 0.015 then
        Some ((if (confidence existing <? confidence pred)%Z
               then pred else existing) :: rest)
      else option_map (cons existing) (merge_into rest pred)
  end.

Definition merge_step (merged : list Prediction) (pred : Prediction)
    : list Prediction :=
  match merge_into merged pred with
  | Some merged' => merged'
  | None => merged ++ [pred]
  end.

Definition _merge_similar_predictions (predictions : list Prediction)
    : list Prediction :=
  fold_left merge_step predictions [].

(** [sort(key=lambda x: x['confidence'], reverse=True)], stable. *)
Fixpoint insert_by_confidence_desc (x : Prediction) (l : list Prediction)
    : list Prediction :=
  match l with
  | [] => [x]
  | y :: rest =>
      if (confidence y <=? confidence x)%Z then x :: l
      else y :: insert_by_confidence_desc x rest
  end.

Definition sorted_by_confidence_desc (l : list Prediction) : list Prediction :=
  fold_right insert_by_confidence_desc [] l.

Definition _calculate_key_price_levels (stats : Stats) (data : list Bar)
    (supports resistances : list KeyLevel) (current_signals : list Signal)
    : TanM (list Prediction) :=
  tbind (_calculate_gann_price_targets stats data supports resistances)
  (fun gann_predictions =>
  let volume_predictions :=
    _calculate_volume_price_targets stats data current_signals in
  let fib_predictions := _calculate_fibonacci_targets data in
  let sr_predictions := _calculate_support_resistance_targets stats data in
  let predictions :=
    gann_predictions ++ volume_predictions ++ fib_predictions ++ sr_predictions in
  let merged_predictions := _merge_similar_predictions predictions in
  Ret (firstn 12 (sorted_by_confidence_desc merged_predictions))).

End GannAngle.

(** A confidence within the documented range. *)
Definition bounded (p : Prediction) : Prop := (30 <= confidence p <= 95)%Z.

(** Where a model calls [_calculate_dynamic_confidence]: the type key, a
    floor under the strength, and the alignments it can pass. *)
Definition from_formula (prediction_type : string) (floor : Q)
    (market_volatility volume_factor : Q) (alignments : list Q)
    (p : Prediction) : Prop :=
  exists strength alignment,
    floor <= strength /\ In alignment alignments /\
    confidence p =
      _calculate_dynamic_confidence prediction_type strength market_volatility
        volume_factor alignment.

(** A target that is a move of at most [cap_up] up, or at most [cap_down]
    down, from [reference]. *)
Definition capped_move (reference cap_up cap_down : Q) (p : Prediction) : Prop :=
  exists multiplier,
    (direction p = up /\ multiplier <= cap_up /\
     target_price p = reference * (1 + multiplier)) \/
    (direction p = down /\ multiplier <= cap_down /\
     target_price p = reference * (1 - multiplier)).

End PricePredictionAnalyzer.

(** ** Stable sorts *)

(** [sorted(xs, key=key)] and [xs.sort(key=key)]: ascending in the key,
    elements of equal key in their original order.  By insertion from the
    right, a new element going before the first one that is not smaller. *)
Fixpoint insert_by {A} (key : A -> Q) (x : A) (l : list A) : list A :=
  match l with
  | [] => [x]
  | y :: rest =>
      if Qle_bool (key x) (key y) then x :: l else y :: insert_by key x rest
  end.

Definition sorted_by {A} (key : A -> Q) (l : list A) : list A :=
  fold_right (insert_by key) [] l.

(** [xs.sort(key=key, reverse=True)]: descending in the key, elements of
    equal key still in their original order. *)
Fixpoint insert_by_desc {A} (key : A -> Q) (x : A) (l : list A) : list A :=
  match l with
  | [] => [x]
  | y :: rest =>
      if Qle_bool (key y) (key x) then x :: l else y :: insert_by_desc key x rest
  end.

Definition sorted_by_desc {A} (key : A -> Q) (l : list A) : list A :=
  fold_right (insert_by_desc key) [] l.

(** [xs[-n:]]. *)
Definition last_n {A} (n : nat) (xs : list A) : list A :=
  skipn (length xs - n) xs.

(** [series.iloc[-k]] for a table of at least [k] rows. *)
Definition from_end (xs : list Q) (k : nat) : Q := nth (length xs - k) xs 0.

(** [series.mean()]. *)
Definition mean (xs : list Q) : Q := Qsum xs / inject_Z (Z.of_nat (length xs)).

(** ** gann_wheel.py: the stages of the analysis *)

(** The stages run on the sorted table of [analyze_stock], which is not
    empty; they read the columns High, Low and Close. *)
Module GannWheelStages.

Import GannWheel.

(** [data['Close'].iloc[-1]] and [data.index[-1]]. *)
Definition current_close (data : list Bar) : Q := last (map Close data) 0.

Definition current_day (data : list Bar) : Z := last (map date data) 0%Z.

(** [data['High'].max()] and [data['Low'].min()]. *)
Definition highest_high (data : list Bar) : Q :=
  match map High data with [] => 0 | x :: rest => fold_left Qmax rest x end.

Definition lowest_low (data : list Bar) : Q :=
  match map Low data with [] => 0 | x :: rest => fold_left Qmin rest x end.

(** *** Time cycles *)

(** [self.time_cycles], by default. *)
Definition default_time_cycles : list Z :=
  [7; 14; 21; 30; 45; 60; 90; 120; 180; 360]%Z.

Definition no_pivot : Pivot := mkPivot 0 0 high 0.

(** The dict returned by [_analyze_single_time_cycle]; the one returned
    when there is no pivot has no [total_intervals]. *)
Record CycleAnalysis := mkCycleAnalysis {
  ca_cycle : Z;
  ca_strength : Q;
  ca_matches : nat;
  ca_total_intervals : option Z
}.

(** One iteration of [for i in range(1, len(all_points))]. *)
Definition cycle_match_step (cfg : GannConfig) (cycle : Z)
    (all_points : list Pivot) (matches : nat) (i : nat) : nat :=
  let time_diff :=
    (p_date (nth i all_points no_pivot)
     - p_date (nth (i - 1) all_points no_pivot))%Z in
  if Qle_bool (inject_Z (Z.abs (time_diff - cycle))) (inject_Z cycle * tolerance cfg)
  then S matches else matches.

Definition _analyze_single_time_cycle (cfg : GannConfig) (data : list Bar)
    (highs lows : list Pivot) (cycle : Z) : CycleAnalysis :=
  let total_points := (length highs + length lows)%nat in
  if (total_points =? 0)%nat then mkCycleAnalysis cycle 0 0 None
  else
    let all_points := sorted_by (fun x => inject_Z (p_date x)) (highs ++ lows) in
    let matches :=
      fold_left (cycle_match_step cfg cycle all_points)
                (range 1 (length all_points)) 0%nat in
    let strength :=
      inject_Z (Z.of_nat matches)
      / inject_Z (Z.of_nat (Nat.max (total_points - 1) 1)) in
    mkCycleAnalysis cycle strength matches (Some (Z.of_nat total_points - 1)%Z).

Record TimeWindow := mkTimeWindow {
  tw_cycle : Z;
  tw_next_date : Z;
  tw_strength : Q;
  tw_days_ahead : Z
}.

Definition _calculate_next_time_windows (data : list Bar)
    (cycles : list CycleAnalysis) : list TimeWindow :=
  match cycles with
  | [] => []
  | _ =>
      let current_date := current_day data in
      map (fun cycle_info =>
             let cycle := ca_cycle cycle_info in
             mkTimeWindow cycle (current_date + cycle)%Z (ca_strength cycle_info) cycle)
          (firstn 3 cycles)
  end.

Record TimeAnalysis := mkTimeAnalysis {
  cycles_found : list CycleAnalysis;
  dominant_cycle : option CycleAnalysis;
  next_time_windows : list TimeWindow
}.

(** The statements inside the [try] of [_analyze_time_cycles]. *)
Definition analyze_time_cycles_body (cfg : GannConfig) (time_cycles : list Z)
    (data : list Bar) : TimeAnalysis :=
  let (highs, lows) := _find_pivot_points data 5 in
  let time_cycles_found :=
    flat_map (fun cycle =>
                let cycle_analysis :=
                  _analyze_single_time_cycle cfg data highs lows cycle in
                if Qlt_bool 0.3 (ca_strength cycle_analysis)
                then [cycle_analysis] else [])
             time_cycles in
  let time_cycles_found := sorted_by_desc ca_strength time_cycles_found in
  mkTimeAnalysis time_cycles_found (hd_error time_cycles_found)
    (_calculate_next_time_windows data time_cycles_found).

(** *** Price levels *)

Definition _calculate_price_level_strength (cfg : GannConfig) (data : list Bar)
    (level : Q) : Q :=
  let tolerance_range := level * tolerance cfg in
  let touches :=
    fold_left (fun (touches : nat) (row : Bar) =>
                 if Qle_bool (Qabs (High row - level)) tolerance_range
                 then S touches
                 else if Qle_bool (Qabs (Low row - level)) tolerance_range
                 then S touches
                 else touches)
              data 0%nat in
  Qmin (inject_Z (Z.of_nat touches) / inject_Z (Z.of_nat (length data))) 1.

Definition _count_price_touches (cfg : GannConfig) (data : list Bar)
    (level : Q) : nat :=
  let tolerance_range := level * tolerance cfg in
  fold_left (fun (touches : nat) (row : Bar) =>
               if Qle_bool (Low row) (level + tolerance_range) &&
                  Qle_bool (level - tolerance_range) (High row)
               then S touches else touches)
            data 0%nat.

(** An entry of [price_cycles]. *)
Record PriceCycle := mkPriceCycle {
  pc_level : Q;
  pc_type : string;
  pc_ratio : Q;
  pc_strength : Q;
  pc_touches : nat
}.

Record PricePosition := mkPricePosition {
  pos_current_price : Q;
  pos_nearest_support : option PriceCycle;
  pos_nearest_resistance : option PriceCycle;
  pos_support_distance : option Q;
  pos_resistance_distance : option Q
}.

(** One iteration of [for level_info in price_cycles], on the two
    variables of the loop. *)
Definition position_step (current_price : Q)
    (state : option PriceCycle * option PriceCycle) (level_info : PriceCycle)
    : option PriceCycle * option PriceCycle :=
  let (nearest_support, nearest_resistance) := state in
  let level := pc_level level_info in
  if Qlt_bool level current_price &&
     match nearest_support with
     | None => true
     | Some s => Qlt_bool (pc_level s) level
     end
  then (Some level_info, nearest_resistance)
  else if Qlt_bool current_price level &&
          match nearest_resistance with
          | None => true
          | Some r => Qlt_bool level (pc_level r)
          end
  then (nearest_support, Some level_info)
  else state.

Definition _analyze_current_price_position (data : list Bar)
    (price_cycles : list PriceCycle) : PricePosition :=
  let current_price := current_close data in
  let (nearest_support, nearest_resistance) :=
    fold_left (position_step current_price) price_cycles (None, None) in
  mkPricePosition current_price nearest_support nearest_resistance
    (option_map (fun s => (current_price - pc_level s) / current_price)
                nearest_support)
    (option_map (fun r => (pc_level r - current_price) / current_price)
                nearest_resistance).

Definition price_cycle_ratios : list Q :=
  [0.236; 0.382; 0.5; 0.618; 0.786; 1.0; 1.272; 1.618].

(** What one ratio appends to [price_cycles]. *)
Definition price_cycles_at (cfg : GannConfig) (data : list Bar)
    (price_center price_range pct : Q) : list PriceCycle :=
  let level := price_center + (price_range * pct / 2) in
  let level_low := price_center - (price_range * pct / 2) in
  let strength_high := _calculate_price_level_strength cfg data level in
  let strength_low := _calculate_price_level_strength cfg data level_low in
  (if Qlt_bool 0.2 strength_high
   then [mkPriceCycle level "resistance" pct strength_high
           (_count_price_touches cfg data level)]
   else [])
  ++
  (if Qlt_bool 0.2 strength_low
   then [mkPriceCycle level_low "support" pct strength_low
           (_count_price_touches cfg data level_low)]
   else []).

Record PriceAnalysis := mkPriceAnalysis {
  pa_price_range : Q;
  pa_price_center : Q;
  pa_key_levels : list PriceCycle;
  pa_current_position : PricePosition
}.

(** The statements inside the [try] of [_analyze_price_cycles]. *)
Definition analyze_price_cycles_body (cfg : GannConfig) (data : list Bar)
    : PriceAnalysis :=
  let price_range := highest_high data - lowest_low data in
  let price_center := (highest_high data + lowest_low data) / 2 in
  let price_cycles :=
    flat_map (price_cycles_at cfg data price_center price_range)
             price_cycle_ratios in
  let price_cycles := sorted_by_desc pc_strength price_cycles in
  mkPriceAnalysis price_range price_center (firstn 10 price_cycles)
    (_analyze_current_price_position data price_cycles).

(** *** Angle lines at the last bar *)

(** The dict returned by [_find_current_angle_support] and by
    [_find_current_angle_resistance]; [ca_price] is [support_price] in the
    first and [resistance_price] in the second. *)
Record CurrentAngle := mkCurrentAngle {
  cur_line_info : AngleLine;
  cur_price : Q;
  cur_distance : Q;
  cur_distance_pct : Q
}.

(** The price of a line on [current_date], by calendar days. *)
Definition line_price_on (line : AngleLine) (current_date : Z) : Q :=
  let days_diff := (current_date - al_start_date line)%Z in
  al_start_price line
  + (al_slope line * inject_Z days_diff * al_start_price line * 0.01).

(** One iteration of the loop of [_find_current_angle_support].  The state
    is [best_support]; [min_distance] is its distance, infinite while there
    is none. *)
Definition angle_support_step (current_price : Q) (current_date : Z)
    (best_support : option CurrentAngle) (line : AngleLine)
    : option CurrentAngle :=
  match al_point_type line with
  | low =>
      if (al_start_date line <? current_date)%Z then
        let line_price := line_price_on line current_date in
        if Qlt_bool line_price current_price then
          let distance := current_price - line_price in
          if match best_support with
             | None => true
             | Some best => Qlt_bool distance (cur_distance best)
             end
          then Some (mkCurrentAngle line line_price distance
                       (distance / current_price))
          else best_support
        else best_support
      else best_support
  | high => best_support
  end.

Definition _find_current_angle_support (data : list Bar)
    (angle_lines : list AngleLine) : option CurrentAngle :=
  fold_left (angle_support_step (current_close data) (current_day data))
            angle_lines None.

Definition angle_resistance_step (current_price : Q) (current_date : Z)
    (best_resistance : option CurrentAngle) (line : AngleLine)
    : option CurrentAngle :=
  match al_point_type line with
  | high =>
      if (al_start_date line <? current_date)%Z then
        let line_price := line_price_on line current_date in
        if Qlt_bool current_price line_price then
          let distance := line_price - current_price in
          if match best_resistance with
             | None => true
             | Some best => Qlt_bool distance (cur_distance best)
             end
          then Some (mkCurrentAngle line line_price distance
                       (distance / current_price))
          else best_resistance
        else best_resistance
      else best_resistance
  | low => best_resistance
  end.

Definition _find_current_angle_resistance (data : list Bar)
    (angle_lines : list AngleLine) : option CurrentAngle :=
  fold_left (angle_resistance_step (current_close data) (current_day data))
            angle_lines None.

Record AngleAnalysis := mkAngleAnalysis {
  angle_lines : list AngleLine;
  current_angle_support : option CurrentAngle;
  current_angle_resistance : option CurrentAngle
}.

(** The lines drawn from one pivot that are kept. *)
Definition lines_from (cfg : GannConfig) (data : list Bar)
    (point_type : ExtremeType) (point : Pivot) : TanM (list AngleLine) :=
  tbind (tmap (fun angle =>
                 _calculate_gann_angle_line cfg data (p_date point)
                   (p_price point) angle point_type)
              (price_angles cfg))
        (fun lines =>
           Ret (filter (fun angle_line => Qlt_bool 0.3 (al_strength angle_line))
                       lines)).

(** The statements inside the [try] of [_analyze_gann_angles]. *)
Definition analyze_gann_angles_body (cfg : GannConfig) (data : list Bar)
    : TanM AngleAnalysis :=
  let (highs, lows) := _find_pivot_points data 5 in
  tbind (tmap (lines_from cfg data high) (last_n 5 highs)) (fun from_highs =>
  tbind (tmap (lines_from cfg data low) (last_n 5 lows)) (fun from_lows =>
  let angle_lines := concat from_highs ++ concat from_lows in
  let angle_lines := sorted_by_desc al_strength angle_lines in
  Ret (mkAngleAnalysis (firstn 20 angle_lines)
         (_find_current_angle_support data angle_lines)
         (_find_current_angle_resistance data angle_lines)))).

(** *** The Gann square *)

Record SquareLevel := mkSquareLevel {
  sq_price : Q;
  sq_square_level : Z;
  sq_division : Q
}.

Record SquarePosition := mkSquarePosition {
  sp_current_price : Q;
  sp_lower_level : option SquareLevel;
  sp_upper_level : option SquareLevel;
  sp_position_pct : Q;
  sp_square_level : option Z
}.

(** The loop of [_analyze_square_position]; [previous] is
    [square_levels[i-1]], missing at [i = 0].  The loop ends at the first
    level above the price. *)
Fixpoint square_position_loop (current_price : Q) (previous : option SquareLevel)
    (square_levels : list SquareLevel) : SquarePosition :=
  match square_levels with
  | [] => mkSquarePosition current_price None None 0 None
  | level :: rest =>
      if Qlt_bool current_price (sq_price level) then
        match previous with
        | Some lower_level =>
            let upper_level := level in
            let position_pct :=
              (current_price - sq_price lower_level)
              / (sq_price upper_level - sq_price lower_level) in
            mkSquarePosition current_price (Some lower_level) (Some upper_level)
              position_pct (Some (sq_square_level lower_level))
        | None => mkSquarePosition current_price None None 0 None
        end
      else square_position_loop current_price (Some level) rest
  end.

Definition _analyze_square_position (current_price : Q)
    (square_levels : list SquareLevel) : SquarePosition :=
  square_position_loop current_price None square_levels.

Record NextLevel := mkNextLevel {
  nl_price : Q;
  nl_distance : Q;
  nl_distance_pct : Q;
  nl_direction : string;
  nl_square_info : SquareLevel
}.

Definition _calculate_next_square_levels (current_price : Q)
    (square_levels : list SquareLevel) : list NextLevel :=
  let next_levels :=
    flat_map (fun level =>
                let distance := Qabs (sq_price level - current_price) in
                let distance_pct := distance / current_price in
                if Qle_bool 0.01 distance_pct && Qle_bool distance_pct 0.2
                then [mkNextLevel (sq_price level) distance distance_pct
                        (if Qlt_bool current_price (sq_price level)
                         then "up" else "down")
                        level]
                else [])
             square_levels in
  firstn 5 (sorted_by nl_distance next_levels).

Definition _calculate_square_strength (cfg : GannConfig) (data : list Bar)
    (square_levels : list SquareLevel) : Q :=
  let total_levels := length square_levels in
  let total_touches :=
    fold_left (fun (total_touches : nat) level_info =>
                 (total_touches + _count_price_touches cfg data (sq_price level_info))%nat)
              square_levels 0%nat in
  let avg_touches :=
    inject_Z (Z.of_nat total_touches) / inject_Z (Z.of_nat (Nat.max total_levels 1)) in
  Qmin (avg_touches / inject_Z (Z.of_nat (length data))) 1.

Record SquareAnalysis := mkSquareAnalysis {
  square_center : Z;
  square_levels : list SquareLevel;
  sa_current_position : SquarePosition;
  next_levels : list NextLevel;
  square_strength : Q
}.

Record KeyLevels := mkKeyLevels {
  kl_current_price : Q;
  key_supports : list MergedLevel;
  key_resistances : list MergedLevel;
  strongest_support : option MergedLevel;
  strongest_resistance : option MergedLevel
}.

(** [max(points, key=lambda x: x['price'])] and [min(...)]: the first of the
    dearest, respectively of the cheapest. *)
Fixpoint max_by_price (best : Pivot) (points : list Pivot) : Pivot :=
  match points with
  | [] => best
  | x :: rest =>
      max_by_price (if Qlt_bool (p_price best) (p_price x) then x else best) rest
  end.

Fixpoint min_by_price (best : Pivot) (points : list Pivot) : Pivot :=
  match points with
  | [] => best
  | x :: rest =>
      min_by_price (if Qlt_bool (p_price x) (p_price best) then x else best) rest
  end.

Definition divisions : list Q :=
  [0; 0.125; 0.25; 0.375; 0.5; 0.625; 0.75; 0.875; 1.0].

Section Sqrt.

(** [math.sqrt], taken as given. *)
Variable math_sqrt : Q -> Q.

Definition _calculate_gann_square_levels (center : Q) : list SquareLevel :=
  let square_root := math_sqrt center in
  let levels :=
    flat_map (fun i : Z =>
                let base := (square_root + inject_Z i) ^ 2 in
                map (fun div =>
                       let next_square :=
                         if (i =? 0)%Z then (square_root + 1) ^ 2
                         else (square_root + inject_Z i + 1) ^ 2 in
                       let level_price := base + (next_square - base) * div in
                       mkSquareLevel level_price i div)
                    divisions)
             [-2; -1; 0; 1; 2]%Z in
  sorted_by sq_price levels.

(** The statements inside the [try] of [_analyze_gann_square]. *)
Definition analyze_gann_square_body (cfg : GannConfig) (data : list Bar)
    : SquareAnalysis :=
  let current_price := current_close data in
  let square_root := math_sqrt current_price in
  let square_center := (py_int square_root ^ 2)%Z in
  let square_center :=
    if Qlt_bool (Qabs (current_price - inject_Z ((py_int square_root + 1) ^ 2)))
                (Qabs (current_price - inject_Z square_center))
    then ((py_int square_root + 1) ^ 2)%Z else square_center in
  let square_levels := _calculate_gann_square_levels (inject_Z square_center) in
  mkSquareAnalysis square_center square_levels
    (_analyze_square_position current_price square_levels)
    (_calculate_next_square_levels current_price square_levels)
    (_calculate_square_strength cfg data square_levels).

(** *** Key levels *)

Definition _find_historical_key_levels (cfg : GannConfig) (data : list Bar)
    : list Level :=
  let max_price := highest_high data in
  let min_price := lowest_low data in
  let (highs, lows) := _find_pivot_points data 5 in
  [mkLevel max_price "historical_high" 1.0;
   mkLevel min_price "historical_low" 1.0]
  ++ flat_map (fun high =>
                 let strength :=
                   _calculate_price_level_strength cfg data (p_price high) in
                 if Qlt_bool 0.1 strength
                 then [mkLevel (p_price high) "pivot_high" strength] else [])
              (last_n 10 highs)
  ++ flat_map (fun low =>
                 let strength :=
                   _calculate_price_level_strength cfg data (p_price low) in
                 if Qlt_bool 0.1 strength
                 then [mkLevel (p_price low) "pivot_low" strength] else [])
              (last_n 10 lows).

Definition _calculate_gann_price_levels (cfg : GannConfig) (data : list Bar)
    : list Level :=
  let current_price := current_close data in
  let square_levels := _calculate_gann_square_levels current_price in
  flat_map (fun level_info =>
              let strength :=
                _calculate_price_level_strength cfg data (sq_price level_info) in
              if Qlt_bool 0.05 strength
              then [mkLevel (sq_price level_info) "gann_square" strength] else [])
           square_levels.

Definition fib_ratios : list Q := [0.236; 0.382; 0.5; 0.618; 0.786].

Definition _calculate_fibonacci_levels (cfg : GannConfig) (data : list Bar)
    : list Level :=
  let (highs, lows) := _find_pivot_points data 5 in
  match highs, lows with
  | [], _ => []
  | _, [] => []
  | _, _ =>
      let recent_high :=
        if (3 <=? length highs)%nat
        then match last_n 3 highs with
             | [] => no_pivot
             | x :: rest => max_by_price x rest
             end
        else last highs no_pivot in
      let recent_low :=
        if (3 <=? length lows)%nat
        then match last_n 3 lows with
             | [] => no_pivot
             | x :: rest => min_by_price x rest
             end
        else last lows no_pivot in
      let price_range := p_price recent_high - p_price recent_low in
      flat_map (fun ratio =>
                  let retracement_price := p_price recent_high - (price_range * ratio) in
                  let strength :=
                    _calculate_price_level_strength cfg data retracement_price in
                  if Qlt_bool 0.05 strength
                  then [mkLevel retracement_price "fibonacci_retracement" strength]
                  else [])
               fib_ratios
  end.

(** The statements inside the [try] of [_calculate_key_levels], in an
    interpreter that lists a set by [list_set]. *)
Definition calculate_key_levels_body (list_set : list string -> list string)
    (cfg : GannConfig) (data : list Bar) : KeyLevels :=
  let current_price := current_close data in
  let historical_levels := _find_historical_key_levels cfg data in
  let gann_levels := _calculate_gann_price_levels cfg data in
  let fib_levels := _calculate_fibonacci_levels cfg data in
  let all_levels := historical_levels ++ gann_levels ++ fib_levels in
  let unique_levels := _merge_similar_levels_in list_set (tolerance cfg) all_levels in
  let supports :=
    filter (fun level => Qlt_bool (m_price level) current_price) unique_levels in
  let resistances :=
    filter (fun level => Qlt_bool current_price (m_price level)) unique_levels in
  let supports := sorted_by (fun x => current_price - m_price x) supports in
  let resistances := sorted_by (fun x => m_price x - current_price) resistances in
  mkKeyLevels current_price (firstn 5 supports) (firstn 5 resistances)
    (hd_error supports) (hd_error resistances).

(** The levels that [_calculate_key_levels] clusters: [all_levels]. *)
Definition candidate_levels (cfg : GannConfig) (data : list Bar) : list Level :=
  _find_historical_key_levels cfg data ++ _calculate_gann_price_levels cfg data
  ++ _calculate_fibonacci_levels cfg data.

End Sqrt.

(** *** Key levels in the result of [analyze_stock] *)





(** *** Resonance *)

(** An entry of [resonance_points]: the keys read by the prediction. *)
Record ResonancePoint := mkResonancePoint {
  rp_date : Z;
  rp_price : Q;
  rp_total_strength : Q
}.

Definition no_resonance : ResonancePoint := mkResonancePoint 0 0 0.

Record NextResonance := mkNextResonance {
  predicted_date : Z;
  days_ahead : Z;
  predicted_price_up : Q;
  predicted_price_down : Q;
  nr_confidence : Q
}.

Definition _predict_next_resonance (data : list Bar)
    (resonance_points : list ResonancePoint) : option NextResonance :=
  if (length resonance_points <? 2)%nat then None
  else
    let current_date := current_day data in
    let current_price := current_close data in
    let time_intervals :=
      map (fun i =>
             (rp_date (nth (i - 1) resonance_points no_resonance)
              - rp_date (nth i resonance_points no_resonance))%Z)
          (range 1 (length resonance_points)) in
    match time_intervals with
    | [] => None
    | _ =>
        let avg_interval :=
          inject_Z (fold_left Z.add time_intervals 0%Z)
          / inject_Z (Z.of_nat (length time_intervals)) in
        let price_change_pct := 0.1 in
        Some (mkNextResonance
                (current_date + py_int avg_interval)%Z
                (py_int avg_interval)
                (current_price * (1 + price_change_pct))
                (current_price * (1 - price_change_pct))
                (Qmin (inject_Z (Z.of_nat (length resonance_points)) / 10) 1))
    end.

(** *** Predictions *)

(** A prediction dict: the keys that [_combine_predictions] reads.  A
    time-cycle prediction has neither [direction] nor [target_price]. *)
Record GannPrediction := mkGannPrediction {
  gp_type : string;
  gp_direction : option string;
  gp_target_price : option Q;
  gp_strength : Q
}.

Definition _predict_by_time_cycles (time_analysis : TimeAnalysis)
    : list GannPrediction :=
  map (fun window => mkGannPrediction "time_cycle" None None (tw_strength window))
      (next_time_windows time_analysis).

Definition _predict_by_price_cycles (data : list Bar)
    (price_analysis : PriceAnalysis) : list GannPrediction :=
  let current_price := current_close data in
  flat_map (fun level =>
              if String.eqb (pc_type level) "resistance" &&
                 Qlt_bool current_price (pc_level level)
              then [mkGannPrediction "price_target" (Some "up")
                      (Some (pc_level level)) (pc_strength level)]
              else if String.eqb (pc_type level) "support" &&
                      Qlt_bool (pc_level level) current_price
              then [mkGannPrediction "price_target" (Some "down")
                      (Some (pc_level level)) (pc_strength level)]
              else [])
           (firstn 5 (pa_key_levels price_analysis)).

Definition _predict_by_gann_angles (angle_analysis : AngleAnalysis)
    : list GannPrediction :=
  match current_angle_support angle_analysis with
  | Some current_support =>
      [mkGannPrediction "angle_support" (Some "support")
         (Some (cur_price current_support))
         (al_strength (cur_line_info current_support))]
  | None => []
  end
  ++
  match current_angle_resistance angle_analysis with
  | Some current_resistance =>
      [mkGannPrediction "angle_resistance" (Some "resistance")
         (Some (cur_price current_resistance))
         (al_strength (cur_line_info current_resistance))]
  | None => []
  end.

(** The two generator conditions of [_combine_predictions]. *)
Definition counts_up (p : GannPrediction) : bool :=
  match gp_direction p with
  | Some d => existsb (String.eqb d) ["up"; "resistance"]
  | None => false
  end
  || String.eqb (gp_type p) "resistance".

Definition counts_down (p : GannPrediction) : bool :=
  match gp_direction p with
  | Some d => existsb (String.eqb d) ["down"; "support"]
  | None => false
  end
  || String.eqb (gp_type p) "support".

(** [getattr(self, '_current_price', 0)]: no code assigns the attribute. *)
Definition _current_price : Q := 0.

(** One iteration of the loop of the fallback branch, on
    [(up_strength, down_strength)]. *)
Definition price_target_step (current_price : Q) (state : Q * Q)
    (pred : GannPrediction) : Q * Q :=
  let (up_strength, down_strength) := state in
  match gp_target_price pred with
  | Some target_price =>
      if negb (Qeq_bool target_price 0) && Qlt_bool 0 current_price then
        if Qlt_bool current_price target_price
        then (up_strength + gp_strength pred, down_strength)
        else (up_strength, down_strength + gp_strength pred)
      else state
  | None => state
  end.

Record CombinedPrediction := mkCombinedPrediction {
  all_predictions : list GannPrediction;
  strongest_prediction : option GannPrediction;
  overall_trend : string;
  cp_direction : string;
  cp_target_price : option Q;
  trend_strength : Q;
  up_strength : Q;
  down_strength : Q
}.

Definition _combine_predictions (time_pred price_pred angle_pred : list GannPrediction)
    : CombinedPrediction :=
  let all_predictions := time_pred ++ price_pred ++ angle_pred in
  let all_predictions := sorted_by_desc gp_strength all_predictions in
  let strongest_prediction := hd_error all_predictions in
  let up_strength := Qsum (map gp_strength (filter counts_up all_predictions)) in
  let down_strength := Qsum (map gp_strength (filter counts_down all_predictions)) in
  let (up_strength, down_strength) :=
    if Qeq_bool up_strength 0 && Qeq_bool down_strength 0 &&
       negb (length all_predictions =? 0)%nat
    then fold_left (price_target_step _current_price) all_predictions
                   (up_strength, down_strength)
    else (up_strength, down_strength) in
  let (overall_trend, direction) :=
    if Qlt_bool (down_strength * 1.2) up_strength then ("bullish", "上涨")
    else if Qlt_bool (up_strength * 1.2) down_strength then ("bearish", "下跌")
    else ("neutral", "neutral") in
  let target_price :=
    match strongest_prediction with
    | Some p => gp_target_price p
    | None => None
    end in
  mkCombinedPrediction (firstn 10 all_predictions) strongest_prediction
    overall_trend direction target_price (Qmax up_strength down_strength)
    up_strength down_strength.

Definition _calculate_prediction_confidence (combined_prediction : CombinedPrediction)
    : Q :=
  let predictions := all_predictions combined_prediction in
  match predictions with
  | [] => 0.0
  | _ =>
      let total_strength := Qsum (map gp_strength predictions) in
      let avg_strength := total_strength / inject_Z (Z.of_nat (length predictions)) in
      let trend_strength := trend_strength combined_prediction in
      Qmin ((avg_strength + trend_strength) / 2) 1.0
  end.

Record Predictions := mkPredictions {
  pr_current_price : Q;
  pr_current_date : Z;
  time_predictions : list GannPrediction;
  price_predictions : list GannPrediction;
  angle_predictions : list GannPrediction;
  combined_prediction : CombinedPrediction;
  confidence_level : Q
}.

(** The statements inside the [try] of [_generate_predictions], on the
    three entries of [analysis_result] that it reads. *)
Definition generate_predictions_body (data : list Bar)
    (time_analysis : TimeAnalysis) (price_analysis : PriceAnalysis)
    (angle_analysis : AngleAnalysis) : Predictions :=
  let current_price := current_close data in
  let current_date := current_day data in
  let time_predictions := _predict_by_time_cycles time_analysis in
  let price_predictions := _predict_by_price_cycles data price_analysis in
  let angle_predictions := _predict_by_gann_angles angle_analysis in
  let combined_prediction :=
    _combine_predictions time_predictions price_predictions angle_predictions in
  mkPredictions current_price current_date time_predictions price_predictions
    angle_predictions combined_prediction
    (_calculate_prediction_confidence combined_prediction).

(** *** Vocabulary of the properties *)

(** A line drawn from one of the pivots [points], at one of the angles of
    the configuration. *)
Definition drawn_from (cfg : GannConfig) (t : ExtremeType) (points : list Pivot)
    (line : AngleLine) : Prop :=
  al_point_type line = t /\
  In (al_angle line) (price_angles cfg) /\
  exists point, In point points /\
    al_start_date line = p_date point /\ al_start_price line = p_price point.

(** [r] is the dearest of the [levels] below [price], if there is one. *)
Definition greatest_below (price : Q) (levels : list PriceCycle)
    (r : option PriceCycle) : Prop :=
  match r with
  | Some s =>
      In s levels /\ pc_level s < price /\
      forall c, In c levels -> pc_level c < price -> pc_level c <= pc_level s
  | None => forall c, In c levels -> ~ pc_level c < price
  end.

(** [r] is the cheapest of the [levels] above [price], if there is one. *)
Definition least_above (price : Q) (levels : list PriceCycle)
    (r : option PriceCycle) : Prop :=
  match r with
  | Some s =>
      In s levels /\ price < pc_level s /\
      forall c, In c levels -> price < pc_level c -> pc_level s <= pc_level c
  | None => forall c, In c levels -> ~ price < pc_level c
  end.

(** A line drawn from a pivot of type [t] before [day]. *)
Definition drawn_before (t : ExtremeType) (day : Z) (line : AngleLine) : Prop :=
  al_point_type line = t /\ (al_start_date line < day)%Z.

(** [r] is, among the lines from lows that run below [price] on [day], one
    that runs nearest to it. *)
Definition nearest_line_below (price : Q) (day : Z) (lines : list AngleLine)
    (r : option CurrentAngle) : Prop :=
  match r with
  | Some best =>
      In (cur_line_info best) lines /\
      drawn_before low day (cur_line_info best) /\
      cur_price best = line_price_on (cur_line_info best) day /\
      cur_distance best = price - cur_price best /\
      cur_price best < price /\
      forall line, In line lines -> drawn_before low day line ->
        line_price_on line day < price ->
        line_price_on line day <= cur_price best
  | None =>
      forall line, In line lines -> drawn_before low day line ->
        ~ line_price_on line day < price
  end.

Definition nearest_line_above (price : Q) (day : Z) (lines : list AngleLine)
    (r : option CurrentAngle) : Prop :=
  match r with
  | Some best =>
      In (cur_line_info best) lines /\
      drawn_before high day (cur_line_info best) /\
      cur_price best = line_price_on (cur_line_info best) day /\
      cur_distance best = cur_price best - price /\
      price < cur_price best /\
      forall line, In line lines -> drawn_before high day line ->
        price < line_price_on line day ->
        cur_price best <= line_price_on line day
  | None =>
      forall line, In line lines -> drawn_before high day line ->
        ~ price < line_price_on line day
  end.

(** The price lies in the interval of the two levels of a position, or the
    position names no interval and reports 0. *)
Definition within_interval (r : SquarePosition) : Prop :=
  match sp_lower_level r, sp_upper_level r with
  | Some lower, Some upper =>
      sq_price lower <= sp_current_price r < sq_price upper
  | None, None => sp_position_pct r = 0
  | _, _ => False
  end.

End GannWheelStages.

(** ** volume_price_analyzer.py: trend and trading signals *)

Module VolumePriceStages.

Import VolumePriceAnalyzer.

(** [data.index[-1]]. *)
Definition last_day (data : list Bar) : Z := last (map date data) 0%Z.

(** *** Trend *)

Record PriceTrend := mkPriceTrend {
  short_trend : Q;
  medium_trend : Q;
  long_trend : Q;
  short_direction : string;
  price_trend_strength : Q
}.

(** The change of the close over the last [n - 1] bars, 0 on a table of
    fewer than [n] rows. *)
Definition close_change (data : list Bar) (n : nat) : Q :=
  let close := map Close data in
  if (n <=? length data)%nat
  then (from_end close 1 - from_end close n) / from_end close n
  else 0.

Definition _calculate_price_trend (data : list Bar) : PriceTrend :=
  let short_trend := close_change data 6 in
  let medium_trend := close_change data 21 in
  let long_trend := close_change data 61 in
  let short_direction :=
    if Qlt_bool 0.02 short_trend then "up"
    else if Qlt_bool short_trend (-0.02) then "down"
    else "sideways" in
  mkPriceTrend short_trend medium_trend long_trend short_direction
    (Qabs short_trend).

Record VolumeTrend := mkVolumeTrend {
  volume_trend : Q;
  volume_direction : string;
  recent_avg_volume : Q;
  previous_avg_volume : Q
}.

(** [data['Volume'].iloc[-1]] raises on a table without rows. *)
Definition _calculate_volume_trend (data : list Bar) : Res VolumeTrend :=
  let volume := map Volume data in
  recent_volume <-
    (if (5 <=? length data)%nat then Ok (mean (last_n 5 volume))
     else match volume with
          | [] => Raise IndexError
          | _ => Ok (from_end volume 1)
          end) ;;
  let previous_volume :=
    if (10 <=? length data)%nat then mean (firstn 5 (last_n 10 volume))
    else if (5 <? length data)%nat then mean (firstn (length volume - 5) volume)
    else recent_volume in
  let volume_trend :=
    if Qlt_bool 0 previous_volume
    then (recent_volume - previous_volume) / previous_volume else 0 in
  let direction :=
    if Qlt_bool 0.2 volume_trend then "increasing"
    else if Qlt_bool volume_trend (-0.2) then "decreasing"
    else "stable" in
  Ok (mkVolumeTrend volume_trend direction recent_volume previous_volume).

Record TrendConsistency := mkTrendConsistency {
  consistency : string;
  consistency_score : Q;
  tc_price_direction : string;
  tc_volume_direction : string
}.

Definition _analyze_trend_consistency (price_trend : PriceTrend)
    (volume_trend : VolumeTrend) : TrendConsistency :=
  let price_direction := short_direction price_trend in
  let volume_direction := volume_direction volume_trend in
  let (consistency, score) :=
    if String.eqb price_direction "up" && String.eqb volume_direction "increasing"
    then ("highly_consistent", 1.0)
    else if String.eqb price_direction "down" &&
            String.eqb volume_direction "decreasing"
    then ("consistent", 0.8)
    else if String.eqb price_direction "up" &&
            String.eqb volume_direction "decreasing"
    then ("divergent", 0.2)
    else if String.eqb price_direction "down" &&
            String.eqb volume_direction "increasing"
    then ("potentially_reversal", 0.3)
    else ("neutral", 0.5) in
  mkTrendConsistency consistency score price_direction volume_direction.

Record TrendStrength := mkTrendStrength {
  price_strength : Q;
  volume_strength : Q;
  combined_strength : Q;
  strength_level : string
}.

Definition _calculate_trend_strength (data : list Bar) (price_trend : PriceTrend)
    (volume_trend : VolumeTrend) : TrendStrength :=
  let price_strength := Qabs (short_trend price_trend) * 100 in
  let volume_strength := Qmin (Qabs (VolumePriceStages.volume_trend volume_trend)) 1.0 in
  let combined_strength := price_strength * 0.7 + volume_strength * 0.3 in
  let strength_level :=
    if Qlt_bool 3.0 combined_strength then "strong"
    else if Qlt_bool 1.0 combined_strength then "moderate"
    else "weak" in
  mkTrendStrength price_strength volume_strength combined_strength strength_level.

Record TrendSustainability := mkTrendSustainability {
  sustainability : string;
  probability : Q;
  based_on_consistency : Q
}.

Definition _predict_trend_sustainability (data : list Bar)
    (trend_consistency : TrendConsistency) : TrendSustainability :=
  let consistency_score := consistency_score trend_consistency in
  let (sustainability, probability) :=
    if Qlt_bool 0.8 consistency_score then ("high", 0.8)
    else if Qlt_bool 0.5 consistency_score then ("moderate", 0.6)
    else ("low", 0.3) in
  mkTrendSustainability sustainability probability consistency_score.

Definition _determine_overall_trend (price_trend : PriceTrend)
    (volume_trend : VolumeTrend) (trend_consistency : TrendConsistency) : string :=
  let price_direction := short_direction price_trend in
  let consistency := consistency trend_consistency in
  let agrees :=
    existsb (String.eqb consistency) ["highly_consistent"; "consistent"] in
  if String.eqb price_direction "up" && agrees then "strong_uptrend"
  else if String.eqb price_direction "up" then "weak_uptrend"
  else if String.eqb price_direction "down" && agrees then "strong_downtrend"
  else if String.eqb price_direction "down" then "weak_downtrend"
  else "sideways".

Record TrendAnalysis := mkTrendAnalysis {
  ta_price_trend : PriceTrend;
  ta_volume_trend : VolumeTrend;
  ta_trend_consistency : TrendConsistency;
  ta_trend_strength : TrendStrength;
  ta_trend_sustainability : TrendSustainability;
  ta_overall_trend : string
}.

(** The statements inside the [try] of [_analyze_volume_price_trend]. *)
Definition analyze_volume_price_trend_body (data : list Bar) : Res TrendAnalysis :=
  let price_trend := _calculate_price_trend data in
  volume_trend <- _calculate_volume_trend data ;;
  let trend_consistency := _analyze_trend_consistency price_trend volume_trend in
  let trend_strength := _calculate_trend_strength data price_trend volume_trend in
  let trend_sustainability := _predict_trend_sustainability data trend_consistency in
  Ok (mkTrendAnalysis price_trend volume_trend trend_consistency trend_strength
        trend_sustainability
        (_determine_overall_trend price_trend volume_trend trend_consistency)).

(** [_analyze_volume_price_trend]; [None] is the empty dict of the [except]
    branch. *)
Definition _analyze_volume_price_trend (data : list Bar) : option TrendAnalysis :=
  try_except (r <- analyze_volume_price_trend_body data ;; Ok (Some r)) None.

(** What the scoring reads of the trend entry. *)
Definition trend_data_of (trend : option TrendAnalysis) : option TrendData :=
  option_map (fun r => mkTrendData (consistency_score (ta_trend_consistency r))) trend.

(** *** Volume runs *)

(** A pattern dict: the keys shared by the pattern kinds, and [price_change],
    which only some kinds have. *)
Record Pattern := mkPattern {
  start_date : Z;
  end_date : Z;
  pattern_type : string;
  pattern_price_change : option Q;
  pattern_strength : Q
}.

(** [data['Volume'].iloc[i-4:i+1]], for [4 <= i < len(data)]. *)
Definition recent_volumes_at (data : list Bar) (i : nat) : list Q :=
  firstn 5 (skipn (i - 4) (map Volume data)).

Definition day_at (data : list Bar) (i : nat) : Z := nth i (map date data) 0%Z.

Definition decline_at (data : list Bar) (i : nat) : list Pattern :=
  let recent_volumes := recent_volumes_at data i in
  if forallb (fun j => Qle_bool (nth (j + 1) recent_volumes 0) (nth j recent_volumes 0))
             (range 0 4) then
    let decline_ratio :=
      (nth 0 recent_volumes 0 - from_end recent_volumes 1) / nth 0 recent_volumes 0 in
    if Qlt_bool 0.3 decline_ratio
    then [mkPattern (day_at data (i - 4)) (day_at data i) "volume_decline" None
            (Qmin decline_ratio 1.0)]
    else []
  else [].

Definition _identify_volume_decline_pattern (data : list Bar) : list Pattern :=
  flat_map (decline_at data) (range 5 (length data)).

Definition increase_at (data : list Bar) (i : nat) : list Pattern :=
  let recent_volumes := recent_volumes_at data i in
  if forallb (fun j => Qle_bool (nth j recent_volumes 0) (nth (j + 1) recent_volumes 0))
             (range 0 4) then
    let increase_ratio :=
      (from_end recent_volumes 1 - nth 0 recent_volumes 0) / nth 0 recent_volumes 0 in
    if Qlt_bool 0.5 increase_ratio
    then [mkPattern (day_at data (i - 4)) (day_at data i) "volume_increase" None
            (Qmin increase_ratio 2.0)]
    else []
  else [].

Definition _identify_volume_increase_pattern (data : list Bar) : list Pattern :=
  flat_map (increase_at data) (range 5 (length data)).

(** *** Trading signals *)

Record TradingSignal := mkTradingSignal {
  signal_date : Z;
  signal_type : string;
  signal_source : string;
  signal_strength : Q;
  signal_confidence : Q
}.

Definition _generate_relation_signals (data : list Bar)
    (relation_data : option RelationData) : list TradingSignal :=
  match relation_data with
  | None => []
  | Some r =>
      let current_correlation := current_correlation r in
      let consistency := current_consistency r in
      if Qlt_bool 0.6 current_correlation && Qlt_bool 0.7 consistency then
        [mkTradingSignal (last_day data) "buy" "volume_price_relation"
           (Qmin (current_correlation * consistency) 1.0) 0.8]
      else if Qlt_bool current_correlation (-0.4) && Qlt_bool consistency 0.3 then
        [mkTradingSignal (last_day data) "sell" "volume_price_relation"
           (Qmin (Qabs current_correlation * (1 - consistency)) 1.0) 0.7]
      else []
  end.

(** [current_divergence.get(...)] on Python's [None] raises. *)
Definition _generate_divergence_signals (data : list Bar)
    (divergence_data : option DivergenceData) : Res (list TradingSignal) :=
  match divergence_data with
  | None => Ok []
  | Some dd =>
      match current_divergence dd with
      | None => Raise AttributeError
      | Some cd =>
          if has_recent_divergence cd then
            let days_since :=
              match days_since_divergence cd with Some n => n | None => 30%Z end in
            let confidence := Qmax 0.5 (1.0 - inject_Z days_since * 0.05) in
            match latest_divergence cd with
            | Some latest =>
                match d_type latest with
                | top_divergence =>
                    if (days_since <=? 10)%Z then
                      Ok [mkTradingSignal (last_day data) "sell" "top_divergence"
                            (d_strength latest) confidence]
                    else Ok []
                | bottom_divergence =>
                    if (days_since <=? 10)%Z then
                      Ok [mkTradingSignal (last_day data) "buy" "bottom_divergence"
                            (d_strength latest) confidence]
                    else Ok []
                end
            | None => Ok []
            end
          else Ok []
      end
  end.

Definition pattern_signal (pattern : Pattern) : list TradingSignal :=
  let pattern_type := pattern_type pattern in
  let strength := pattern_strength pattern in
  if String.eqb pattern_type "volume_breakout" then
    [mkTradingSignal (start_date pattern) "buy" "volume_breakout" strength 0.8]
  else if String.eqb pattern_type "abnormal_volume_spike" then
    let price_change :=
      match pattern_price_change pattern with Some c => c | None => 0 end in
    if Qlt_bool 0.03 price_change then
      [mkTradingSignal (start_date pattern) "buy" "abnormal_volume_with_price_up"
         strength 0.7]
    else if Qlt_bool price_change (-0.03) then
      [mkTradingSignal (start_date pattern) "sell" "abnormal_volume_with_price_down"
         strength 0.7]
    else []
  else [].

(** [pattern_data] is the [current_patterns] entry, [None] for the empty
    dict of a failed stage. *)
Definition _generate_pattern_signals (data : list Bar)
    (pattern_data : option (list Pattern)) : list TradingSignal :=
  match pattern_data with
  | None => []
  | Some current_patterns => flat_map pattern_signal current_patterns
  end.

(** An abnormal-volume event. *)
Record AbnormalEvent := mkAbnormalEvent {
  event_date : Z;
  event_type : string;
  event_ratio : Q;
  event_price_change : Q
}.

Definition abnormal_signal (event : AbnormalEvent) : list TradingSignal :=
  let volume_ratio := event_ratio event in
  let price_change := event_price_change event in
  if String.eqb (event_type event) "volume_spike" && Qlt_bool 3 volume_ratio then
    if Qlt_bool 0.05 price_change then
      [mkTradingSignal (event_date event) "buy" "massive_volume_spike_up"
         (Qmin (volume_ratio / 3) 1.0) 0.75]
    else if Qlt_bool price_change (-0.05) then
      [mkTradingSignal (event_date event) "sell" "massive_volume_spike_down"
         (Qmin (volume_ratio / 3) 1.0) 0.75]
    else []
  else [].

(** [abnormal_data] is the [recent_events] entry, [None] for the empty dict
    of a failed stage. *)
Definition _generate_abnormal_volume_signals (data : list Bar)
    (abnormal_data : option (list AbnormalEvent)) : list TradingSignal :=
  match abnormal_data with
  | None => []
  | Some recent_events => flat_map abnormal_signal (last_n 3 recent_events)
  end.

Definition same_date_and_type (a b : TradingSignal) : bool :=
  (signal_date a =? signal_date b)%Z && String.eqb (signal_type a) (signal_type b).

(** The inner loop over [filtered_signals]: the first signal of the same
    date and type is replaced when the new one is stronger, and the scan
    stops there. *)
Fixpoint replace_if_stronger (filtered_signals : list TradingSignal)
    (signal : TradingSignal) : list TradingSignal :=
  match filtered_signals with
  | [] => []
  | existing_signal :: rest =>
      if same_date_and_type existing_signal signal then
        (if Qlt_bool (signal_strength existing_signal) (signal_strength signal)
         then signal else existing_signal) :: rest
      else existing_signal :: replace_if_stronger rest signal
  end.

(** One iteration of [for signal in signals], on
    [(seen_combinations, filtered_signals)]. *)
Definition deduplicate_step (state : list (Z * string) * list TradingSignal)
    (signal : TradingSignal) : list (Z * string) * list TradingSignal :=
  let (seen_combinations, filtered_signals) := state in
  let key := (signal_date signal, signal_type signal) in
  if existsb (fun k => (fst k =? fst key)%Z && String.eqb (snd k) (snd key))
             seen_combinations
  then (seen_combinations, replace_if_stronger filtered_signals signal)
  else (seen_combinations ++ [key], filtered_signals ++ [signal]).

(** [_filter_and_optimize_signals] sorts the list it is given in place; the
    first component is that list after the call, the second the list
    returned. *)
Definition _filter_and_optimize_signals (signals : list TradingSignal)
    : list TradingSignal * list TradingSignal :=
  match signals with
  | [] => ([], [])
  | _ =>
      let signals := sorted_by (fun x => inject_Z (signal_date x)) signals in
      let filtered_signals := snd (fold_left deduplicate_step signals ([], [])) in
      let filtered_signals :=
        filter (fun s => Qle_bool 0.5 (signal_confidence s)) filtered_signals in
      let filtered_signals :=
        filter (fun s => Qle_bool 0.3 (signal_strength s)) filtered_signals in
      (signals, filtered_signals)
  end.

Definition signal_score (x : TradingSignal) : Q :=
  signal_strength x * signal_confidence x.

Definition _get_current_strongest_signal (signals : list TradingSignal)
    : option TradingSignal :=
  match signals with
  | [] => None
  | _ =>
      let newest := signal_date (last signals (mkTradingSignal 0 "" "" 0 0)) in
      let recent_signals :=
        filter (fun s => (newest - 5 <=? signal_date s)%Z) signals in
      match recent_signals with
      | [] => None
      | _ => hd_error (sorted_by_desc signal_score recent_signals)
      end
  end.



Record Recommendation := mkRecommendation {
  action : string;
  recommendation_confidence : Q;
  risk_level : string
}.

(** The recommendation: [action], [confidence] and [risk_level]; the texts
    built from the description and the comprehensive score are left out. *)
Definition _generate_recommendation (current_signal : option TradingSignal)
    : Recommendation :=
  match current_signal with
  | None => mkRecommendation "hold" 0.5 "medium"
  | Some current_signal =>
      let signal_strength := signal_strength current_signal in
      let signal_confidence := signal_confidence current_signal in
      let (action, risk_level) :=
        if String.eqb (signal_type current_signal) "buy" then
          if Qlt_bool 0.8 signal_strength && Qlt_bool 0.8 signal_confidence
          then ("strong_buy", "low")
          else if Qlt_bool 0.6 signal_strength then ("buy", "medium")
          else ("weak_buy", "medium_high")
        else
          if Qlt_bool 0.8 signal_strength && Qlt_bool 0.8 signal_confidence
          then ("strong_sell", "low")
          else if Qlt_bool 0.6 signal_strength then ("sell", "medium")
          else ("weak_sell", "medium_high") in
      mkRecommendation action signal_confidence risk_level
  end.

Record TradingSignals := mkTradingSignals {
  all_signals : list TradingSignal;
  filtered_signals : list TradingSignal;
  current_signal : option TradingSignal;
  recommendation : Recommendation
}.

(** The statements inside the [try] of [_generate_trading_signals], on the
    entries of [analysis_result] that the generators read. *)
Definition generate_trading_signals_body (data : list Bar)
    (relation_data : option RelationData) (divergence_data : option DivergenceData)
    (pattern_data : option (list Pattern))
    (abnormal_data : option (list AbnormalEvent)) : Res TradingSignals :=
  let relation_signals := _generate_relation_signals data relation_data in
  divergence_signals <- _generate_divergence_signals data divergence_data ;;
  let pattern_signals := _generate_pattern_signals data pattern_data in
  let abnormal_signals := _generate_abnormal_volume_signals data abnormal_data in
  let signals :=
    relation_signals ++ divergence_signals ++ pattern_signals ++ abnormal_signals in
  let (signals, filtered_signals) := _filter_and_optimize_signals signals in
  let current_signal := _get_current_strongest_signal filtered_signals in
  Ok (mkTradingSignals signals filtered_signals current_signal
        (_generate_recommendation current_signal)).

(** [_generate_trading_signals]; [None] is the empty dict of the [except]
    branch. *)
Definition _generate_trading_signals (data : list Bar)
    (relation_data : option RelationData) (divergence_data : option DivergenceData)
    (pattern_data : option (list Pattern))
    (abnormal_data : option (list AbnormalEvent)) : option TradingSignals :=
  try_except
    (r <- generate_trading_signals_body data relation_data divergence_data
            pattern_data abnormal_data ;;
     Ok (Some r))
    None.

(** *** Vocabulary of the properties *)

(** What a recorded divergence says of the two extremes it compares: a
    higher high on a volume below the threshold share of the previous one,
    or a lower low on a volume above it. *)
Definition as_detected (cfg : Config) (d : Divergence) : Prop :=
  match d_type d with
  | top_divergence =>
      d_previous_price d < d_price d /\
      d_volume d < d_previous_volume d * (1 - divergence_threshold cfg)
  | bottom_divergence =>
      d_price d < d_previous_price d /\
      d_previous_volume d * (1 + divergence_threshold cfg) < d_volume d
  end.

(** The date and type of a signal, the key by which signals are
    deduplicated. *)
Definition signal_key (s : TradingSignal) : Z * string :=
  (signal_date s, signal_type s).

(** [s] survives the thresholds of the filter. *)
Definition passes_thresholds (s : TradingSignal) : Prop :=
  0.5 <= signal_confidence s /\ 0.3 <= signal_strength s.

(** No signal of [signals] with the date and type of [s] is stronger. *)
Definition strongest_of_its_kind (signals : list TradingSignal) (s : TradingSignal)
    : Prop :=
  forall t, In t signals -> same_date_and_type t s = true ->
    signal_strength t <= signal_strength s.

End VolumePriceStages.

(** ** price_prediction_analyzer.py: the report *)

Module PredictionReport.

Import PricePredictionAnalyzer.

(** [validity_days] of [_calculate_time_sensitivity]; [volatility] is the
    [volatility] entry of the market metrics. *)
Definition validity_days (volatility : Q) (confidence : Z) : Z :=
  let validity_days :=
    if Qlt_bool 0.4 volatility then 3%Z
    else if Qlt_bool 0.25 volatility then 7%Z
    else 14%Z in
  if (80 <? confidence)%Z then py_int (inject_Z validity_days * 1.5)
  else if (confidence <? 60)%Z then py_int (inject_Z validity_days * 0.7)
  else validity_days.

End PredictionReport.

(** ** Vocabulary of the pipeline properties *)

Definition gann_keys : list string :=
  ["symbol"; "analysis_date"; "data_range"; "time_analysis"; "price_analysis";
   "angle_analysis"; "square_analysis"; "resonance_analysis"; "key_levels";
   "predictions"].

Definition volume_price_keys : list string :=
  ["symbol"; "analysis_date"; "data_range"; "basic_indicators";
   "volume_price_relation"; "divergence_analysis"; "volume_patterns";
   "price_volume_coordination"; "abnormal_volume"; "trend_analysis";
   "comprehensive_score"; "trading_signals"].








(** Every required column is among the columns of the table. *)
Definition has_required_columns (data : DataFrame) : bool :=
  forallb (fun col => existsb (String.eqb col) (columns data))
          VolumePriceAnalyzer.required_columns.

(** ** Sample series *)

Module Scenarios.

(** A bar on day [d] whose high is [h], low is [l] and volume is [v]. *)
Definition bar (d : Z) (h l v : Q) : Bar := mkBar d l h l l v.

(** Bars on consecutive days from day [d], one per [(high, low, volume)]. *)
Fixpoint bars_from (d : Z) (rows : list (Q * Q * Q)) : list Bar :=
  match rows with
  | [] => []
  | (h, l, v) :: rest => bar d h l v :: bars_from (d + 1) rest
  end.

(** Two highs, the second one higher, both with zero volume. *)
Definition silent_high_1 : VolumePriceAnalyzer.Extreme :=
  VolumePriceAnalyzer.mkExtreme 10 10 0 high 10.

Definition silent_high_2 : VolumePriceAnalyzer.Extreme :=
  VolumePriceAnalyzer.mkExtreme 20 11 0 high 20.

(** Two highs, the second one higher on 84% of the volume. *)
Definition loud_high : VolumePriceAnalyzer.Extreme :=
  VolumePriceAnalyzer.mkExtreme 10 10 1000 high 10.

Definition quieter_high : VolumePriceAnalyzer.Extreme :=
  VolumePriceAnalyzer.mkExtreme 20 11 840 high 20.

(** Sixty bars, days 0 to 59.  The highs climb to 100 at bar 30, fall
    back, and the last bar prints 200, a new 60-bar high, on half of the
    volume of bar 30. *)
Definition late_high_row (i : nat) : Q * Q * Q :=
  let k := inject_Z (Z.of_nat i) in
  if (i =? 59)%nat then (200, 1, 500)
  else if (i =? 30)%nat then (100, 1, 1000)
  else if (i <? 30)%nat then (70 + k, 1, 800)
  else (130 - k, 1, 800).

Definition late_high60 : list Bar := bars_from 0 (map late_high_row (seq 0 60)).

(** Sixty bars with two detected highs: 100 at bar 30 and 110 at bar 45,
    the second on half of the volume of the first. *)
Definition two_peaks_row (i : nat) : Q * Q * Q :=
  let k := inject_Z (Z.of_nat i) in
  if (i =? 30)%nat then (100, 1, 1000)
  else if (i =? 45)%nat then (110, 1, 500)
  else if (i <? 30)%nat then (70 + k, 1, 800)
  else if (i <? 38)%nat then (130 - k, 1, 800)
  else if (i <? 45)%nat then (65 + k, 1, 800)
  else (155 - k, 1, 800).

Definition two_peaks60 : list Bar := bars_from 0 (map two_peaks_row (seq 0 60)).

(** Two levels far apart, the dearer one first. *)
Definition unsorted_levels : list GannWheel.Level :=
  [GannWheel.mkLevel 10 "pivot_high" 1; GannWheel.mkLevel 5 "pivot_low" 1].

Definition three_levels : list GannWheel.Level :=
  [GannWheel.mkLevel 5 "pivot_low" 1;
   GannWheel.mkLevel 10 "pivot_high" (1 # 2);
   GannWheel.mkLevel 11 "gann_square" (1 # 4)].

(** Two levels at one price, as the highest high and a pivot high at it
    are. *)
Definition twin_levels : list GannWheel.Level :=
  [GannWheel.mkLevel 10 "historical_high" 1; GannWheel.mkLevel 10 "pivot_high" 1].

(** Four levels, two of them (100 and 101) within 2% of each other. *)
Definition four_levels : list GannWheel.Level :=
  [GannWheel.mkLevel 100 "pivot_high" 1;
   GannWheel.mkLevel 104 "gann_square" (1 # 2);
   GannWheel.mkLevel 50 "historical_low" 1;
   GannWheel.mkLevel 101 "fibonacci_retracement" (1 # 4)].

(** Twelve identical bars. *)
Definition flat12 : list Bar :=
  bars_from 0 (map (fun _ => (10, 10, 1000)) (seq 0 12)).

(** Two three-bar tables that differ in range, level and volume; both
    close at their low. *)
Definition calm_table : list Bar :=
  [mkBar 0 150 200 100 150 1000; mkBar 1 150 160 140 150 1000;
   mkBar 2 120 130 100 100 1000].

Definition wild_table : list Bar :=
  [mkBar 0 500 1000 400 500 10; mkBar 1 500 600 10 20 9000;
   mkBar 2 20 30 10 10 500000].

(** Sixty-six bars: the price falls from 105 to a low of 100 on day 5 and
    then gains one point, one percent of that low, every day. *)
Definition ramp_after_low : list Bar :=
  bars_from 0 (map (fun i => let k := inject_Z (Z.of_nat i) in
                             if (i <? 5)%nat then (105 - k, 105 - k, 1000)
                             else (95 + k, 95 + k, 1000)) (seq 0 66)).

(** Twelve bars of which only the closing price was kept. *)
Definition close_only : DataFrame := mkDataFrame ["Close"] flat12.




(** Five bars whose highs climb to a peak at index 2 and fall back. *)
Definition tent5 : list Bar :=
  bars_from 0 [(1, 1, 10); (2, 1, 10); (3, 1, 10); (2, 1, 10); (1, 1, 10)].

(** A strong and consistent positive relation of price and volume. *)
Definition close_relation : VolumePriceAnalyzer.RelationData :=
  VolumePriceAnalyzer.mkRelationData 0.9 0.9.

(** The statistics of a quiet market and of a nervous one. *)
Definition quiet_stats : PricePredictionAnalyzer.Stats :=
  PricePredictionAnalyzer.mkStats 0.02 1 0.3 1000 1000 1000 1000.

Definition nervous_stats : PricePredictionAnalyzer.Stats :=
  PricePredictionAnalyzer.mkStats 0.09 (1 # 2) 0.8 10 10 10 10.

(** An interpreter that lists a set in the order of [nodup], and one that
    lists it the other way round. *)
Definition in_order : list string -> list string := nodup string_dec.

Definition in_reverse (xs : list string) : list string :=
  rev (nodup string_dec xs).



(** A stand-in for the square root: 10 everywhere, the root of 100. *)
Definition root_of_100 : Q -> Q := fun _ => 10.

End Scenarios.

(* ================================================================== *)
(** * Properties *)

Module Import GW := GannWheel.
Module Import VP := VolumePriceAnalyzer.
Module Import PP := PricePredictionAnalyzer.

(** Goals of the form [Forall P [x; y; ...]], element by element. *)
Ltac each_element :=
  repeat first [apply Forall_nil | apply Forall_cons].

(** ** Arithmetic helpers *)

Lemma Qlt_bool_iff (x y : Q) : Qlt_bool x y = true <-> x < y.
Proof.
  unfold Qlt_bool. rewrite negb_true_iff.
  split; intro H.
  - apply Qnot_le_lt. intro Hle. apply Qle_bool_iff in Hle. congruence.
  - destruct (Qle_bool y x) eqn:E; [|reflexivity].
    apply Qle_bool_iff in E. exfalso. apply (Qlt_not_le _ _ H E).
Qed.

Lemma Qle_bool_false_iff (x y : Q) : Qle_bool x y = false <-> y < x.
Proof.
  rewrite <- Qlt_bool_iff. unfold Qlt_bool. rewrite negb_true_iff. tauto.
Qed.

(** ** The pivot scan *)

Lemma in_range (a b i : nat) : In i (range a b) <-> (a <= i < b)%nat.
Proof. unfold range. rewrite in_seq. lia. Qed.

Lemma filter_none {A} (P : A -> bool) (l : list A) :
  (forall y, In y l -> P y = false) -> filter P l = [].
Proof.
  induction l as [|a l IH]; simpl; intros H; [reflexivity|].
  rewrite (H a) by now left. apply IH. intros y Hy. apply H. now right.
Qed.

Lemma filter_range_single (P : nat -> bool) (a b x : nat) :
  (a <= x < b)%nat -> P x = true ->
  (forall y, (a <= y < b)%nat -> y <> x -> P y = false) ->
  filter P (range a b) = [x].
Proof.
  intros Hx Px Hothers. unfold range.
  replace (b - a)%nat with ((x - a) + (1 + (b - x - 1)))%nat by lia.
  rewrite seq_app, filter_app. replace (a + (x - a))%nat with x by lia.
  rewrite seq_app, filter_app. simpl seq at 2. simpl filter at 2. rewrite Px.
  rewrite !filter_none; [reflexivity| |].
  - intros y Hy. apply in_seq in Hy. apply Hothers; lia.
  - intros y Hy. apply in_seq in Hy. apply Hothers; lia.
Qed.



Lemma local_high_iff (xs : list Q) (window i : nat) :
  local_high xs window i = true <-> around_le xs window i.
Proof.
  unfold local_high, around_le. rewrite andb_true_iff, !forallb_forall.
  split.
  - intros [Hb Ha] j Hj. split.
    + apply Qle_bool_iff, Hb, in_range. lia.
    + apply Qle_bool_iff, Ha, in_range. lia.
  - intros H. split; intros j Hj; apply in_range in Hj;
      apply Qle_bool_iff; apply H; lia.
Qed.

Lemma local_low_iff (xs : list Q) (window i : nat) :
  local_low xs window i = true <-> around_ge xs window i.
Proof.
  unfold local_low, around_ge. rewrite andb_true_iff, !forallb_forall.
  split.
  - intros [Hb Ha] j Hj. split.
    + apply Qle_bool_iff, Hb, in_range. lia.
    + apply Qle_bool_iff, Ha, in_range. lia.
  - intros H. split; intros j Hj; apply in_range in Hj;
      apply Qle_bool_iff; apply H; lia.
Qed.

Lemma pivot_loop_filter (data : list Bar) (window : nat) (idxs : list nat)
    (highs lows : list GannWheel.Pivot) :
  GannWheel.pivot_loop data window idxs highs lows =
    (highs ++ map (GannWheel.high_pivot data)
                  (filter (local_high (map High data) window) idxs),
     lows ++ map (GannWheel.low_pivot data)
                 (filter (local_low (map Low data) window) idxs)).
Proof.
  revert highs lows. induction idxs as [|i rest IH]; intros highs lows; simpl.
  - now rewrite !app_nil_r.
  - rewrite IH.
    destruct (local_high (map High data) window i),
             (local_low (map Low data) window i); simpl;
      now rewrite <- ?app_assoc.
Qed.

Lemma find_pivot_points_filter (data : list Bar) (window : nat) :
  GannWheel._find_pivot_points data window =
    (map (GannWheel.high_pivot data)
         (filter (local_high (map High data) window)
                 (range window (length data - window))),
     map (GannWheel.low_pivot data)
         (filter (local_low (map Low data) window)
                 (range window (length data - window)))).
Proof. unfold GannWheel._find_pivot_points. now rewrite pivot_loop_filter. Qed.

Lemma extremes_loop_filter (data : list Bar) (t : ExtremeType) (window : nat)
    (idxs : list nat) (acc : list VolumePriceAnalyzer.Extreme) :
  VolumePriceAnalyzer.extremes_loop data t window idxs acc =
    acc ++ map (VolumePriceAnalyzer.extreme_at data t)
               (filter (match t with
                        | high => local_high (map High data) window
                        | low => local_low (map Low data) window
                        end) idxs).
Proof.
  revert acc. induction idxs as [|i rest IH]; intros acc; simpl.
  - now rewrite app_nil_r.
  - rewrite IH. destruct t;
      [destruct (local_high (map High data) window i)
      |destruct (local_low (map Low data) window i)]; simpl;
      now rewrite <- ?app_assoc.
Qed.

Lemma find_price_extremes_filter (data : list Bar) (t : ExtremeType) (window : nat) :
  VolumePriceAnalyzer._find_price_extremes data t window =
    map (VolumePriceAnalyzer.extreme_at data t)
        (filter (match t with
                 | high => local_high (map High data) window
                 | low => local_low (map Low data) window
                 end) (range window (length data - window))).
Proof. unfold VolumePriceAnalyzer._find_price_extremes. now rewrite extremes_loop_filter. Qed.

Lemma high_indices (data : list Bar) (idxs : list nat) :
  map GannWheel.p_index (map (GannWheel.high_pivot data) idxs) = idxs.
Proof. rewrite map_map. simpl. apply map_id. Qed.

Lemma low_indices (data : list Bar) (idxs : list nat) :
  map GannWheel.p_index (map (GannWheel.low_pivot data) idxs) = idxs.
Proof. rewrite map_map. simpl. apply map_id. Qed.

Lemma extreme_indices (data : list Bar) (t : ExtremeType) (idxs : list nat) :
  map VolumePriceAnalyzer.e_index (map (VolumePriceAnalyzer.extreme_at data t) idxs) = idxs.
Proof. rewrite map_map. simpl. apply map_id. Qed.


Lemma rises_le (xs : list Q) (peak : nat) :
  rises_then_falls xs peak ->
  forall i j, (i <= j <= peak)%nat -> nth i xs 0 <= nth j xs 0.
Proof.
  intros (_ & Hup & _) i j. induction j as [|j IH]; intros Hij.
  - replace i with 0%nat by lia. apply Qle_refl.
  - destruct (Nat.eq_dec i (S j)) as [->|Hne]; [apply Qle_refl|].
    apply Qle_trans with (nth j xs 0); [apply IH; lia|].
    apply Qlt_le_weak, Hup. lia.
Qed.

Lemma falls_le (xs : list Q) (peak : nat) :
  rises_then_falls xs peak ->
  forall i j, (peak <= i <= j)%nat -> (j < length xs)%nat -> nth j xs 0 <= nth i xs 0.
Proof.
  intros (_ & _ & Hdown) i j. induction j as [|j IH]; intros Hij Hj.
  - replace i with 0%nat by lia. apply Qle_refl.
  - destruct (Nat.eq_dec i (S j)) as [->|Hne]; [apply Qle_refl|].
    apply Qle_trans with (nth j xs 0); [|apply IH; lia].
    apply Qlt_le_weak, Hdown; lia.
Qed.

Lemma peak_only_local_high (xs : list Q) (window peak : nat) :
  (1 <= window)%nat -> (window <= peak)%nat -> (peak + window < length xs)%nat ->
  rises_then_falls xs peak ->
  filter (local_high xs window) (range window (length xs - window)) = [peak].
Proof.
  intros Hw Hlo Hhi Hshape.
  apply filter_range_single; [lia| |].
  - apply local_high_iff. intros j Hj. split.
    + apply (rises_le xs peak Hshape). lia.
    + apply (falls_le xs peak Hshape); lia.
  - intros y Hy Hne.
    destruct (local_high xs window y) eqn:E; [|reflexivity].
    apply local_high_iff in E. destruct (E 1%nat ltac:(lia)) as [Hb Ha].
    destruct Hshape as (_ & Hup & Hdown). exfalso.
    destruct (Nat.lt_ge_cases y peak) as [Hlt|Hge].
    + specialize (Hup y Hlt). replace (y + 1)%nat with (S y) in Ha by lia.
      apply (Qlt_not_le _ _ Hup Ha).
    + specialize (Hdown (y - 1)%nat ltac:(lia) ltac:(lia)).
      replace (S (y - 1)) with y in Hdown by lia.
      apply (Qlt_not_le _ _ Hdown Hb).
Qed.

(** C2, as amended.  The pivot scan returns bar [i] as a high pivot exactly
    when [window <= i <= len(data) - window - 1] and its High is [>=] each of
    the [window] Highs on both sides; symmetrically for lows with Low and
    [<=]; the same holds of [_find_price_extremes].  Hence no bar within
    [window] bars of either end is ever returned.  For a series that rises
    strictly to a peak and falls strictly after it, exactly one high pivot is
    returned, at the peak, provided [window >= 1] and the peak lies at least
    [window] bars from both ends. *)
Theorem pivot_finder_characterisation (data : list Bar) (window : nat) :
  let highs := fst (GannWheel._find_pivot_points data window) in
  let lows := snd (GannWheel._find_pivot_points data window) in
  let vp_highs := VolumePriceAnalyzer._find_price_extremes data high window in
  let vp_lows := VolumePriceAnalyzer._find_price_extremes data low window in
  (forall i, In i (map GannWheel.p_index highs) <->
     (window <= i)%nat /\ (i + window + 1 <= length data)%nat /\
     around_le (map High data) window i) /\
  (forall i, In i (map GannWheel.p_index lows) <->
     (window <= i)%nat /\ (i + window + 1 <= length data)%nat /\
     around_ge (map Low data) window i) /\
  (forall i, In i (map VolumePriceAnalyzer.e_index vp_highs) <->
     (window <= i)%nat /\ (i + window + 1 <= length data)%nat /\
     around_le (map High data) window i) /\
  (forall i, In i (map VolumePriceAnalyzer.e_index vp_lows) <->
     (window <= i)%nat /\ (i + window + 1 <= length data)%nat /\
     around_ge (map Low data) window i) /\
  (forall i, (i < window)%nat \/ (length data <= i + window)%nat ->
     ~ In i (map GannWheel.p_index highs) /\
     ~ In i (map GannWheel.p_index lows) /\
     ~ In i (map VolumePriceAnalyzer.e_index vp_highs) /\
     ~ In i (map VolumePriceAnalyzer.e_index vp_lows)) /\
  (forall peak, (1 <= window)%nat -> (window <= peak)%nat ->
     (peak + window < length data)%nat ->
     rises_then_falls (map High data) peak ->
     highs = [GannWheel.high_pivot data peak] /\
     vp_highs = [VolumePriceAnalyzer.extreme_at data high peak]).
Proof.
  cbv zeta. rewrite find_pivot_points_filter, !find_price_extremes_filter.
  cbn [fst snd]. rewrite high_indices, low_indices, !extreme_indices.
  assert (Hh : forall i,
    In i (filter (local_high (map High data) window)
            (range window (length data - window))) <->
    (window <= i)%nat /\ (i + window + 1 <= length data)%nat /\
    around_le (map High data) window i).
  { intros i. rewrite filter_In, in_range, local_high_iff. intuition lia. }
  assert (Hl : forall i,
    In i (filter (local_low (map Low data) window)
            (range window (length data - window))) <->
    (window <= i)%nat /\ (i + window + 1 <= length data)%nat /\
    around_ge (map Low data) window i).
  { intros i. rewrite filter_In, in_range, local_low_iff. intuition lia. }
  split; [exact Hh|]. split; [exact Hl|]. split; [exact Hh|]. split; [exact Hl|].
  split.
  - intros i Hi. repeat split; intros Hin;
      first [apply Hh in Hin | apply Hl in Hin]; lia.
  - intros peak Hw Hlo Hhi Hshape.
    pose proof (peak_only_local_high (map High data) window peak) as Hp.
    rewrite length_map in Hp. rewrite Hp; auto.
Qed.

Lemma tent5_rises_then_falls : rises_then_falls (map High Scenarios.tent5) 2.
Proof.
  repeat split.
  - simpl. lia.
  - intros [|[|i]] Hi; simpl; try lia; reflexivity.
  - intros [|[|[|[|i]]]] Hi Hlen; simpl in *; try lia; reflexivity.
Qed.

(** C2, witness: the five-bar tent scanned with window 1. *)
Lemma pivot_finder_characterisation_witness :
  fst (GannWheel._find_pivot_points Scenarios.tent5 1) =
    [GannWheel.high_pivot Scenarios.tent5 2] /\
  VolumePriceAnalyzer._find_price_extremes Scenarios.tent5 high 1 =
    [VolumePriceAnalyzer.extreme_at Scenarios.tent5 high 2].
Proof.
  apply (pivot_finder_characterisation Scenarios.tent5 1).
  - lia.
  - lia.
  - simpl. lia.
  - exact tent5_rises_then_falls.
Defined.

(** C2, counterexample to the unqualified peak statement: the same tent
    scanned with the default window 5 has its peak within 5 bars of the ends,
    and no high pivot is returned at all. *)
Lemma pivot_peak_near_boundary_not_found :
  rises_then_falls (map High Scenarios.tent5) 2 /\
  fst (GannWheel._find_pivot_points Scenarios.tent5 5) = [] /\
  VolumePriceAnalyzer._find_price_extremes Scenarios.tent5 high 5 = [].
Proof.
  split; [exact tent5_rises_then_falls|]. split; reflexivity.
Qed.

(** ** Divergence detection *)


Lemma top_divergence_step_app (cfg : Config) (l : list Extreme)
    (acc : list Divergence) (i : nat) :
  top_divergence_step cfg l acc i =
    acc ++ top_divergence_between cfg (nth (i - 1) l no_extreme) (nth i l no_extreme).
Proof.
  unfold top_divergence_step, top_divergence_between.
  destruct (Qlt_bool _ _); simpl; [|now rewrite app_nil_r].
  destruct (Qlt_bool _ _); simpl; [reflexivity|now rewrite app_nil_r].
Qed.

Lemma top_divergence_fold (cfg : Config) (l : list Extreme) (idxs : list nat)
    (acc : list Divergence) :
  fold_left (top_divergence_step cfg l) idxs acc =
    acc ++ flat_map (fun i => top_divergence_between cfg
                                (nth (i - 1) l no_extreme) (nth i l no_extreme)) idxs.
Proof.
  revert acc. induction idxs as [|i rest IH]; intros acc; simpl.
  - now rewrite app_nil_r.
  - rewrite IH, top_divergence_step_app. now rewrite app_assoc.
Qed.

Lemma flat_map_ext_on {A B} (f g : A -> list B) (l : list A) :
  (forall x, In x l -> f x = g x) -> flat_map f l = flat_map g l.
Proof.
  induction l as [|a l IH]; simpl; intros H; [reflexivity|].
  rewrite (H a) by now left. f_equal. apply IH. intros x Hx. apply H. now right.
Qed.

Lemma detect_top_single (cfg : Config) (h : Extreme) :
  _detect_top_divergence cfg [h] = [].
Proof. reflexivity. Qed.

Lemma detect_top_cons2 (cfg : Config) (h1 h2 : Extreme) (rest : list Extreme) :
  _detect_top_divergence cfg (h1 :: h2 :: rest) =
    top_divergence_between cfg h1 h2 ++ _detect_top_divergence cfg (h2 :: rest).
Proof.
  unfold _detect_top_divergence, range. rewrite !top_divergence_fold. simpl.
  rewrite Nat.sub_0_r. f_equal.
  rewrite <- seq_shift, flat_map_concat_map, map_map, <- flat_map_concat_map.
  apply flat_map_ext_on. intros i Hi. apply in_seq in Hi.
  destruct i as [|i]; [lia|]. simpl. now rewrite Nat.sub_0_r.
Qed.

Lemma detect_top_app (cfg : Config) (pre post : list Extreme) (h1 h2 : Extreme) :
  _detect_top_divergence cfg (pre ++ h1 :: h2 :: post) =
    _detect_top_divergence cfg (pre ++ [h1]) ++
    top_divergence_between cfg h1 h2 ++
    _detect_top_divergence cfg (h2 :: post).
Proof.
  induction pre as [|a pre IH].
  - change ([] ++ h1 :: h2 :: post) with (h1 :: h2 :: post).
    change ([] ++ [h1]) with [h1].
    now rewrite detect_top_cons2, detect_top_single.
  - destruct pre as [|b pre].
    + change ([a] ++ h1 :: h2 :: post) with (a :: h1 :: h2 :: post).
      change ([a] ++ [h1]) with [a; h1].
      change ([] ++ h1 :: h2 :: post) with (h1 :: h2 :: post) in IH.
      rewrite (detect_top_cons2 cfg a h1 (h2 :: post)), IH.
      rewrite (detect_top_cons2 cfg a h1 []).
      change ([] ++ [h1]) with [h1]. rewrite !detect_top_single.
      now rewrite <- !app_assoc.
    + change ((a :: b :: pre) ++ h1 :: h2 :: post)
        with (a :: b :: (pre ++ h1 :: h2 :: post)).
      change ((a :: b :: pre) ++ [h1]) with (a :: b :: (pre ++ [h1])).
      change ((b :: pre) ++ h1 :: h2 :: post)
        with (b :: (pre ++ h1 :: h2 :: post)) in IH.
      change ((b :: pre) ++ [h1]) with (b :: (pre ++ [h1])) in IH.
      rewrite (detect_top_cons2 cfg a b), IH.
      rewrite (detect_top_cons2 cfg a b (pre ++ [h1])).
      now rewrite <- !app_assoc.
Qed.

(** C3, as amended.  For two consecutive detected highs [h1], [h2] with
    [h2] strictly higher in price: the pair flags no top divergence when the
    volume at [h2] is at least [(1 - threshold)] times the volume at [h1];
    it flags exactly one, dated at [h2], when the volume at [h1] is positive
    and the volume at [h2] equals [(1 - threshold - 0.01)] times it. *)
Theorem top_divergence_directionality (cfg : Config)
    (pre post : list Extreme) (h1 h2 : Extreme) :
  e_price h1 < e_price h2 ->
  (e_volume h1 * (1 - divergence_threshold cfg) <= e_volume h2 ->
     _detect_top_divergence cfg (pre ++ h1 :: h2 :: post) =
       _detect_top_divergence cfg (pre ++ [h1]) ++
       _detect_top_divergence cfg (h2 :: post)) /\
  (0 < e_volume h1 ->
   e_volume h2 == e_volume h1 * (1 - divergence_threshold cfg - 0.01) ->
     _detect_top_divergence cfg (pre ++ h1 :: h2 :: post) =
       _detect_top_divergence cfg (pre ++ [h1]) ++
       [divergence_record top_divergence h2 h1] ++
       _detect_top_divergence cfg (h2 :: post)).
Proof.
  intros Hprice. rewrite detect_top_app. unfold top_divergence_between.
  apply Qlt_bool_iff in Hprice. rewrite Hprice. simpl andb. split.
  - intros Hvol.
    destruct (Qlt_bool (e_volume h2) _) eqn:E; [|reflexivity].
    apply Qlt_bool_iff in E. exfalso. apply (Qlt_not_le _ _ E Hvol).
  - intros Hpos Hvol.
    assert (E : Qlt_bool (e_volume h2)
                  (e_volume h1 * (1 - divergence_threshold cfg)) = true).
    { apply Qlt_bool_iff. rewrite Hvol. nra. }
    now rewrite E.
Qed.

(** C3, witness: highs at prices 10 and 11 on volumes 1000 and 840. *)
Lemma top_divergence_directionality_witness :
  _detect_top_divergence default_config
      ([] ++ Scenarios.loud_high :: Scenarios.quieter_high :: []) =
    _detect_top_divergence default_config ([] ++ [Scenarios.loud_high]) ++
    [divergence_record top_divergence Scenarios.quieter_high Scenarios.loud_high] ++
    _detect_top_divergence default_config (Scenarios.quieter_high :: []).
Proof.
  apply (top_divergence_directionality default_config [] []
           Scenarios.loud_high Scenarios.quieter_high).
  - reflexivity.
  - reflexivity.
  - reflexivity.
Defined.

(** C3, counterexample to the second half as stated: when the first high
    trades on zero volume, [(1 - threshold - 0.01)] times that volume is zero
    as well, and nothing is flagged. *)
Lemma top_divergence_zero_volume_not_flagged :
  e_price Scenarios.silent_high_1 < e_price Scenarios.silent_high_2 /\
  e_volume Scenarios.silent_high_2 ==
    e_volume Scenarios.silent_high_1 * (1 - divergence_threshold default_config - 0.01) /\
  _detect_top_divergence default_config
    [Scenarios.silent_high_1; Scenarios.silent_high_2] = [].
Proof. repeat split. Qed.


Lemma detect_top_inv (cfg : Config) (l : list Extreme) (d : Divergence) :
  In d (_detect_top_divergence cfg l) ->
  exists previous current,
    In current l /\ d = divergence_record top_divergence current previous.
Proof.
  unfold _detect_top_divergence. rewrite top_divergence_fold. simpl.
  intros Hin. apply in_flat_map in Hin. destruct Hin as (i & Hi & Hd).
  apply in_range in Hi. unfold top_divergence_between in Hd.
  destruct (_ && _); simpl in Hd; [|contradiction].
  destruct Hd as [<-|[]].
  exists (nth (i - 1) l no_extreme), (nth i l no_extreme).
  split; [apply nth_In; lia|reflexivity].
Qed.

Lemma find_price_extremes_inv (data : list Bar) (t : ExtremeType) (window : nat)
    (e : Extreme) :
  In e (_find_price_extremes data t window) ->
  exists i, (window <= i)%nat /\ (i + window + 1 <= length data)%nat /\
            e = extreme_at data t i.
Proof.
  rewrite find_price_extremes_filter. intros Hin.
  apply in_map_iff in Hin. destruct Hin as (i & <- & Hi).
  apply filter_In in Hi. destruct Hi as [Hi _]. apply in_range in Hi.
  exists i. repeat split; lia.
Qed.

Lemma insert_by_date_In (x d : Divergence) (l : list Divergence) :
  In d (insert_by_date x l) <-> d = x \/ In d l.
Proof.
  induction l as [|y l IH]; cbn; [intuition|].
  destruct (d_date x <=? d_date y)%Z; cbn; [intuition|]. rewrite IH. intuition.
Qed.

Lemma sorted_by_date_In (d : Divergence) (l : list Divergence) :
  In d (sorted_by_date l) <-> In d l.
Proof.
  induction l as [|x l IH]; cbn; [tauto|].
  rewrite insert_by_date_In. unfold sorted_by_date in IH. rewrite IH. intuition.
Qed.

(** With thirty rows or more, both [data.index[-30]] and [data.index[-1]]
    exist and the status check returns. *)
Lemma check_current_divergence_status_returns (data : list Bar)
    (found : list Divergence) :
  (30 <= length data)%nat ->
  exists status, _check_current_divergence_status data found = Ok status.
Proof.
  intros Hlen. unfold _check_current_divergence_status, index_from_end.
  destruct found as [|d rest]; [eexists; reflexivity|].
  assert (E30 : ((30 <=? length data)%nat && (1 <=? 30)%nat) = true).
  { apply andb_true_iff. split; [now apply Nat.leb_le|reflexivity]. }
  assert (E1 : ((1 <=? length data)%nat && (1 <=? 1)%nat) = true).
  { apply andb_true_iff. split; [apply Nat.leb_le; lia|reflexivity]. }
  rewrite E30. cbn [bind].
  destruct (filter _ (d :: rest)); [eexists; reflexivity|].
  rewrite E1. cbn [bind]. eexists; reflexivity.
Qed.

Lemma analyze_divergence_returns (cfg : Config) (data : list Bar) :
  (30 <= length data)%nat ->
  exists dd,
    _analyze_divergence cfg data = Some dd /\
    top_divergences dd =
      _detect_top_divergence cfg (_find_price_extremes data high 5) /\
    divergences dd =
      sorted_by_date
        (_detect_top_divergence cfg (_find_price_extremes data high 5) ++
         _detect_bottom_divergence cfg (_find_price_extremes data low 5)).
Proof.
  intros Hlen. unfold _analyze_divergence, analyze_divergence_body.
  destruct (check_current_divergence_status_returns data
              (sorted_by_date
                 (_detect_top_divergence cfg (_find_price_extremes data high 5) ++
                  _detect_bottom_divergence cfg (_find_price_extremes data low 5)))
              Hlen) as [status E].
  rewrite E. cbn. eexists. split; [reflexivity|]. split; reflexivity.
Qed.

(** C4, as amended.  On a 60-bar series the divergence analysis returns a
    result, and the top divergences it records are those of the highs
    detected with window 5: every one of them is dated at a bar between 5
    and 54, the window keeping the last bars, bar 59 included, out of the
    detected highs, so with distinct dates none is dated at bar 59.  With a
    divergence threshold below one half, where two consecutive detected
    highs have the second higher in price on exactly half of the (positive)
    volume of the first, the analysis records a top divergence dated at the
    second high with strength 0.5, among its top divergences and among its
    divergences. *)
Theorem top_divergence_sixty_bars (cfg : Config) (data : list Bar) :
  length data = 60%nat ->
  exists dd,
    _analyze_divergence cfg data = Some dd /\
    top_divergences dd =
      _detect_top_divergence cfg (_find_price_extremes data high 5) /\
    (forall d, In d (top_divergences dd) ->
       d_type d = top_divergence /\ In d (divergences dd) /\
       exists i, (5 <= i <= 54)%nat /\ d_date d = nth i (map date data) 0%Z) /\
    ((forall i, (i < 59)%nat ->
        (nth i (map date data) 0 < nth 59 (map date data) 0)%Z) ->
     forall d, In d (top_divergences dd) -> d_date d <> nth 59 (map date data) 0%Z) /\
    (forall pre post h1 h2,
       _find_price_extremes data high 5 = pre ++ h1 :: h2 :: post ->
       divergence_threshold cfg < 1 # 2 ->
       e_price h1 < e_price h2 ->
       0 < e_volume h1 ->
       e_volume h2 == e_volume h1 / 2 ->
       exists d, In d (top_divergences dd) /\ In d (divergences dd) /\
                 d_type d = top_divergence /\
                 d_date d = e_date h2 /\ d_strength d == 1 # 2).
Proof.
  intros Hlen.
  destruct (analyze_divergence_returns cfg data ltac:(lia)) as (dd & Hdd & Htops & Hall).
  exists dd. split; [exact Hdd|]. split; [exact Htops|].
  rewrite Htops, Hall.
  set (tops := _detect_top_divergence cfg (_find_price_extremes data high 5)).
  set (bottoms := _detect_bottom_divergence cfg (_find_price_extremes data low 5)).
  assert (Hkept : forall d, In d tops -> In d (sorted_by_date (tops ++ bottoms))).
  { intros d Hd. apply sorted_by_date_In, in_or_app. now left. }
  assert (Hdated : forall d, In d tops ->
     d_type d = top_divergence /\ In d (sorted_by_date (tops ++ bottoms)) /\
     exists i, (5 <= i <= 54)%nat /\ d_date d = nth i (map date data) 0%Z).
  { intros d Hd. split; [|split; [now apply Hkept|]].
    - apply detect_top_inv in Hd. destruct Hd as (previous & current & _ & ->).
      reflexivity.
    - apply detect_top_inv in Hd. destruct Hd as (previous & current & Hcur & ->).
      apply find_price_extremes_inv in Hcur. destruct Hcur as (i & Hlo & Hhi & ->).
      exists i. split; [lia|reflexivity]. }
  split; [exact Hdated|]. split.
  - intros Hdates d Hd Heq. destruct (Hdated d Hd) as (_ & _ & i & Hi & Hdate).
    specialize (Hdates i ltac:(lia)). lia.
  - intros pre post h1 h2 Hsplit Hthr Hprice Hpos Hvol.
    exists (divergence_record top_divergence h2 h1).
    assert (Hin : In (divergence_record top_divergence h2 h1) tops).
    { unfold tops. rewrite Hsplit, detect_top_app.
      apply in_or_app. right. apply in_or_app. left.
      unfold top_divergence_between.
      apply Qlt_bool_iff in Hprice. rewrite Hprice.
      assert (E : Qlt_bool (e_volume h2)
                    (e_volume h1 * (1 - divergence_threshold cfg)) = true).
      { apply Qlt_bool_iff. rewrite Hvol.
        assert (Hhalf : e_volume h1 / 2 == e_volume h1 * (1 # 2)) by field.
        rewrite Hhalf. nra. }
      rewrite E. now left. }
    split; [exact Hin|]. split; [now apply Hkept|].
    split; [reflexivity|]. split; [reflexivity|].
    unfold divergence_record. cbn [d_strength]. rewrite Hvol.
    assert (Hq : (e_volume h1 / 2 - e_volume h1) / e_volume h1 == - (1 # 2)).
    { field. lra. }
    rewrite Hq. reflexivity.
Qed.

(** C4, witness: highs at bars 30 and 45, the second on half the volume. *)
Lemma top_divergence_sixty_bars_witness :
  exists dd d,
    _analyze_divergence default_config Scenarios.two_peaks60 = Some dd /\
    In d (top_divergences dd) /\ In d (divergences dd) /\
    d_type d = top_divergence /\
    d_date d = e_date (extreme_at Scenarios.two_peaks60 high 45) /\
    d_strength d == 1 # 2.
Proof.
  destruct (top_divergence_sixty_bars default_config Scenarios.two_peaks60
              eq_refl) as (dd & Hdd & _ & _ & _ & Hrecorded).
  destruct (Hrecorded [] []
              (extreme_at Scenarios.two_peaks60 high 30)
              (extreme_at Scenarios.two_peaks60 high 45))
    as (d & H1 & H2 & H3 & H4 & H5).
  - vm_compute. reflexivity.
  - reflexivity.
  - reflexivity.
  - reflexivity.
  - reflexivity.
  - exists dd, d. repeat split; assumption.
Defined.

(** C4, counterexample: bar 59 prints a new 60-bar high on exactly half of
    the volume of the prior high at bar 30, and no top divergence is
    recorded: bar 30 is the only detected high. *)
Lemma last_bar_high_records_no_divergence :
  length Scenarios.late_high60 = 60%nat /\
  (forall i, (i < 59)%nat ->
     nth i (map High Scenarios.late_high60) 0 <
     nth 59 (map High Scenarios.late_high60) 0) /\
  (forall i, (i < 59)%nat ->
     nth i (map High Scenarios.late_high60) 0 <=
     nth 30 (map High Scenarios.late_high60) 0) /\
  nth 59 (map Volume Scenarios.late_high60) 0 ==
    nth 30 (map Volume Scenarios.late_high60) 0 / 2 /\
  _find_price_extremes Scenarios.late_high60 high 5 =
    [extreme_at Scenarios.late_high60 high 30] /\
  _detect_top_divergence default_config
    (_find_price_extremes Scenarios.late_high60 high 5) = [] /\
  option_map top_divergences
    (_analyze_divergence default_config Scenarios.late_high60) = Some [] /\
  option_map divergences
    (_analyze_divergence default_config Scenarios.late_high60) = Some [].
Proof.
  assert (Hall : forallb (fun i =>
            Qlt_bool (nth i (map High Scenarios.late_high60) 0)
                     (nth 59 (map High Scenarios.late_high60) 0) &&
            Qle_bool (nth i (map High Scenarios.late_high60) 0)
                     (nth 30 (map High Scenarios.late_high60) 0))
          (seq 0 59) = true) by (vm_compute; reflexivity).
  rewrite forallb_forall in Hall.
  split; [reflexivity|]. split; [|split; [|split; [|split; [|split; [|split]]]]].
  - intros i Hi. specialize (Hall i ltac:(apply in_seq; lia)).
    apply andb_true_iff in Hall. now apply Qlt_bool_iff.
  - intros i Hi. specialize (Hall i ltac:(apply in_seq; lia)).
    apply andb_true_iff in Hall. now apply Qle_bool_iff.
  - vm_compute. reflexivity.
  - vm_compute. reflexivity.
  - vm_compute. reflexivity.
  - vm_compute. reflexivity.
  - vm_compute. reflexivity.
Qed.

(** The two-peak series through the whole divergence analysis: one top
    divergence, dated day 45, fourteen days before the last bar, and the
    risk score that follows from it. *)
Example two_peaks_divergence_analysis :
  option_map (fun dd => map d_date (top_divergences dd))
    (_analyze_divergence default_config Scenarios.two_peaks60) = Some [45%Z] /\
  option_map (fun dd => option_map days_since_divergence (current_divergence dd))
    (_analyze_divergence default_config Scenarios.two_peaks60) =
    Some (Some (Some 14%Z)) /\
  _score_divergence_risk (_analyze_divergence default_config Scenarios.two_peaks60) =
    Ok (Qmin 100 (Qmax 0 (100 - inject_Z 14 * 3))).
Proof. repeat split; vm_compute; reflexivity. Qed.

(** ** Level clustering *)



Lemma insert_by_price_In (x y : Level) (l : list Level) :
  In y (insert_by_price x l) <-> y = x \/ In y l.
Proof.
  induction l as [|z l IH]; simpl.
  - intuition.
  - destruct (Qle_bool (l_price x) (l_price z)); simpl; [intuition|].
    rewrite IH. intuition.
Qed.

Lemma sorted_by_price_In (y : Level) (levels : list Level) :
  In y (sorted_by_price levels) <-> In y levels.
Proof.
  induction levels as [|x l IH]; simpl; [tauto|].
  rewrite insert_by_price_In, IH. intuition.
Qed.

Lemma insert_by_price_Forall (P : Level -> Prop) (x : Level) (l : list Level) :
  P x -> Forall P l -> Forall P (insert_by_price x l).
Proof.
  intros Hx Hl. apply Forall_forall. intros y Hy.
  apply insert_by_price_In in Hy. destruct Hy as [->|Hy]; [assumption|].
  rewrite Forall_forall in Hl. now apply Hl.
Qed.

Lemma insert_by_price_sorted (x : Level) (l : list Level) :
  StronglySorted le_price l -> StronglySorted le_price (insert_by_price x l).
Proof.
  induction 1 as [|y l Hs IH Hy]; simpl.
  - constructor; constructor.
  - destruct (Qle_bool (l_price x) (l_price y)) eqn:E.
    + apply Qle_bool_iff in E. constructor; [now constructor|].
      constructor; [exact E|].
      eapply Forall_impl; [|exact Hy]. intros z Hz. unfold le_price in *.
      eapply Qle_trans; eassumption.
    + apply Qle_bool_false_iff in E. constructor; [exact IH|].
      apply insert_by_price_Forall; [|exact Hy].
      unfold le_price. now apply Qlt_le_weak.
Qed.

Lemma sorted_by_price_sorted (levels : list Level) :
  StronglySorted le_price (sorted_by_price levels).
Proof.
  induction levels as [|x l IH]; simpl; [constructor|].
  now apply insert_by_price_sorted.
Qed.

Lemma sorted_by_price_fixed (levels : list Level) :
  StronglySorted le_price levels -> sorted_by_price levels = levels.
Proof.
  induction 1 as [|x l Hs IH Hx]; simpl; [reflexivity|].
  rewrite IH. destruct l as [|y l]; [reflexivity|]. simpl.
  apply Forall_inv in Hx. apply Qle_bool_iff in Hx. now rewrite Hx.
Qed.

Lemma apart_sym (tolerance : Q) (a b : Level) :
  apart tolerance a b -> apart tolerance b a.
Proof.
  unfold apart. intros H.
  rewrite Q.min_comm, (Qabs_Qminus (l_price b) (l_price a)). exact H.
Qed.

Lemma insert_by_price_pairs (R : Level -> Level -> Prop) (x : Level) (l : list Level) :
  (forall a b, R a b -> R b a) ->
  Forall (R x) l -> ForallOrdPairs R l -> ForallOrdPairs R (insert_by_price x l).
Proof.
  intros Hsym Hx Hl. induction Hl as [|y l Hy Hl IH]; simpl.
  - constructor; constructor.
  - destruct (Qle_bool (l_price x) (l_price y)).
    + constructor; [exact Hx|now constructor].
    + constructor.
      * apply insert_by_price_Forall; [apply Hsym; now apply Forall_inv in Hx|exact Hy].
      * apply IH. now apply Forall_inv_tail in Hx.
Qed.

Lemma sorted_by_price_pairs (R : Level -> Level -> Prop) (levels : list Level) :
  (forall a b, R a b -> R b a) ->
  ForallOrdPairs R levels -> ForallOrdPairs R (sorted_by_price levels).
Proof.
  intros Hsym. induction 1 as [|x l Hx Hl IH]; simpl; [constructor|].
  apply insert_by_price_pairs; [exact Hsym| |exact IH].
  apply Forall_forall. intros y Hy. apply (proj1 (sorted_by_price_In _ _)) in Hy.
  rewrite Forall_forall in Hx. now apply Hx.
Qed.

Lemma apart_not_similar (tolerance : Q) (previous current : Level) :
  0 < l_price previous -> l_price previous <= l_price current ->
  apart tolerance previous current ->
  similar tolerance current previous = false.
Proof.
  unfold apart, similar. intros Hpos Hle Hapart.
  destruct (Qlt_bool _ _) eqn:E; [|reflexivity].
  apply Qlt_bool_iff in E. exfalso.
  rewrite (Q.min_l _ _ Hle), Qabs_Qminus in Hapart.
  apply (Qlt_not_le _ _ E). apply Qle_shift_div_l; assumption.
Qed.


Lemma merge_loop_cons (tolerance : Q) (current : Level) (rest group : list Level)
    (merged : list MergedLevel) :
  merge_loop tolerance (current :: rest) group merged =
    if similar tolerance current (last group no_level)
    then merge_loop tolerance rest (group ++ [current]) merged
    else merge_loop tolerance rest [current] (merged ++ [_merge_level_group group]).
Proof. reflexivity. Qed.

Lemma merge_similar_levels_loop (tolerance : Q) (levels : list Level) :
  _merge_similar_levels tolerance levels =
    match sorted_by_price levels with
    | [] => []
    | first :: rest => merge_loop tolerance rest [first] []
    end.
Proof. reflexivity. Qed.

Lemma merge_loop_apart (tolerance : Q) (rest : list Level) (previous : Level)
    (merged : list MergedLevel) :
  Forall (fun l => 0 < l_price l) (previous :: rest) ->
  StronglySorted le_price (previous :: rest) ->
  ForallOrdPairs (apart tolerance) (previous :: rest) ->
  merge_loop tolerance rest [previous] merged =
    merged ++ map (fun l => _merge_level_group [l]) (previous :: rest).
Proof.
  revert previous merged.
  induction rest as [|current rest IH]; intros previous merged Hpos Hsorted Hapart.
  - reflexivity.
  - rewrite merge_loop_cons. cbn [last].
    inversion Hpos as [|? ? Hp Hpos']; subst.
    inversion Hsorted as [|? ? Hs Hle]; subst.
    inversion Hapart as [|? ? Ha Hapart']; subst.
    rewrite apart_not_similar;
      [|exact Hp|exact (Forall_inv Hle)|exact (Forall_inv Ha)].
    rewrite IH by assumption.
    rewrite <- app_assoc. reflexivity.
Qed.

Lemma merge_single_keeps (l : Level) : keeps l (_merge_level_group [l]).
Proof.
  unfold keeps, _merge_level_group, _merge_level_group_in, Qsum. cbn.
  destruct (l_price l) as [pn pd], (l_strength l) as [sn sd].
  repeat split; unfold Qeq; cbn; lia.
Qed.

Lemma Forall2_map_r {A B} (R : A -> B -> Prop) (f : A -> B) (l : list A) :
  (forall x, R x (f x)) -> Forall2 R l (map f l).
Proof. intros H. induction l; simpl; constructor; auto. Qed.

(** With positive prices and all pairs apart, every group is a singleton. *)
Lemma merge_similar_levels_singletons (tolerance : Q) (levels : list Level) :
  Forall (fun l => 0 < l_price l) levels ->
  ForallOrdPairs (apart tolerance) levels ->
  Forall2 keeps (sorted_by_price levels) (_merge_similar_levels tolerance levels).
Proof.
  intros Hpos Hapart. rewrite merge_similar_levels_loop.
  pose proof (sorted_by_price_sorted levels) as Hsorted.
  pose proof (sorted_by_price_pairs _ levels (apart_sym tolerance) Hapart) as Hpairs.
  assert (Hpos' : Forall (fun l => 0 < l_price l) (sorted_by_price levels)).
  { apply Forall_forall. intros y Hy. apply (proj1 (sorted_by_price_In _ _)) in Hy.
    rewrite Forall_forall in Hpos. now apply Hpos. }
  destruct (sorted_by_price levels) as [|first rest]; [constructor|].
  rewrite merge_loop_apart by assumption.
  apply Forall2_map_r. apply merge_single_keeps.
Qed.

(** C5, as amended.  For a level list with positive prices in which no two
    levels' prices differ by less than the tolerance fraction of the lower
    price, every group is a singleton: [_merge_similar_levels] returns the
    levels in ascending order of price, one record per level, each keeping
    the level's price, strength and type, with count 1.  When the input is
    already in ascending order of price the output is the input list,
    record by record. *)
Theorem merge_similar_levels_clustered (tolerance : Q) (levels : list Level) :
  Forall (fun l => 0 < l_price l) levels ->
  ForallOrdPairs (apart tolerance) levels ->
  Forall2 keeps (sorted_by_price levels) (_merge_similar_levels tolerance levels) /\
  (StronglySorted le_price levels ->
   Forall2 keeps levels (_merge_similar_levels tolerance levels)).
Proof.
  intros Hpos Hapart.
  pose proof (merge_similar_levels_singletons tolerance levels Hpos Hapart) as Hmain.
  split; [exact Hmain|].
  intros Hsorted. now rewrite (sorted_by_price_fixed levels Hsorted) in Hmain.
Qed.

Lemma three_levels_positive :
  Forall (fun l => 0 < l_price l) Scenarios.three_levels.
Proof. repeat constructor. Qed.

Lemma three_levels_apart :
  ForallOrdPairs (apart 0.02) Scenarios.three_levels.
Proof.
  repeat first [apply FOP_nil | apply Forall_nil | apply FOP_cons | apply Forall_cons];
    unfold apart; cbn; unfold Qle; cbn; lia.
Qed.

(** C5, witness: levels at 5, 10 and 11 under the 2% tolerance. *)
Lemma merge_similar_levels_clustered_witness :
  Forall2 keeps (sorted_by_price Scenarios.three_levels)
          (_merge_similar_levels 0.02 Scenarios.three_levels).
Proof.
  exact (proj1 (merge_similar_levels_clustered 0.02 Scenarios.three_levels
                  three_levels_positive three_levels_apart)).
Defined.

(** C5, counterexample to "the same list unchanged": two levels far apart,
    given with the dearer one first, come back in the opposite order. *)
Lemma merge_similar_levels_reorders :
  Forall (fun l => 0 < l_price l) Scenarios.unsorted_levels /\
  ForallOrdPairs (apart 0.02) Scenarios.unsorted_levels /\
  ~ Forall2 keeps Scenarios.unsorted_levels
      (_merge_similar_levels 0.02 Scenarios.unsorted_levels).
Proof.
  split; [repeat constructor|]. split.
  - repeat first [apply FOP_nil | apply Forall_nil | apply FOP_cons | apply Forall_cons].
    unfold apart; cbn; unfold Qle; cbn; lia.
  - intros H. inversion H as [|? ? ? ? Hk _]; subst.
    destruct Hk as (Hprice & _). cbn in Hprice. discriminate Hprice.
Qed.

(** *** Means of a group lie between its extreme prices *)

Lemma inject_nat_succ (n : nat) :
  inject_Z (Z.of_nat (S n)) == inject_Z (Z.of_nat n) + 1.
Proof. rewrite Nat2Z.inj_succ. unfold Z.succ. now rewrite inject_Z_plus. Qed.

Lemma inject_nat_pos (n : nat) : 0 < inject_Z (Z.of_nat (S n)).
Proof. change 0 with (inject_Z 0). rewrite <- Zlt_Qlt. lia. Qed.

Lemma fold_Qplus_bounds (xs : list Q) (a b acc : Q) :
  (forall x, In x xs -> a <= x <= b) ->
  acc + inject_Z (Z.of_nat (length xs)) * a <= fold_left Qplus xs acc /\
  fold_left Qplus xs acc <= acc + inject_Z (Z.of_nat (length xs)) * b.
Proof.
  revert acc. induction xs as [|x xs IH]; intros acc Hb.
  - simpl. split; ring_simplify; apply Qle_refl.
  - cbn [fold_left length]. rewrite inject_nat_succ.
    destruct (Hb x ltac:(now left)) as [Hax Hxb].
    destruct (IH (acc + x) (fun y Hy => Hb y (or_intror Hy))) as [Hlo Hhi].
    split; lra.
Qed.

Lemma mean_bounds (xs : list Q) (a b : Q) :
  xs <> [] -> (forall x, In x xs -> a <= x <= b) ->
  a <= Qsum xs / inject_Z (Z.of_nat (length xs)) /\
  Qsum xs / inject_Z (Z.of_nat (length xs)) <= b.
Proof.
  intros Hne Hb. destruct xs as [|x xs]; [congruence|].
  pose proof (inject_nat_pos (length xs)) as Hn.
  destruct (fold_Qplus_bounds (x :: xs) a b 0 Hb) as [Hlo Hhi].
  fold (Qsum (x :: xs)) in Hlo, Hhi. change (length (x :: xs)) with (S (length xs)) in *.
  split.
  - apply Qle_shift_div_l; [exact Hn|]. lra.
  - apply Qle_shift_div_r; [exact Hn|]. lra.
Qed.





Lemma StronglySorted_snoc {A} (R : A -> A -> Prop) (l : list A) (x : A) :
  StronglySorted R l -> Forall (fun y => R y x) l -> StronglySorted R (l ++ [x]).
Proof.
  induction 1 as [|y l Hs IH Hy]; intros Hx; simpl.
  - constructor; constructor.
  - constructor.
    + apply IH. now apply Forall_inv_tail in Hx.
    + apply Forall_app. split; [exact Hy|].
      constructor; [now apply Forall_inv in Hx|constructor].
Qed.





Example four_levels_merged :
  map m_price (_merge_similar_levels 0.02 Scenarios.four_levels) =
    [(0 + 50) / 1; (0 + 100 + 101) / 2; (0 + 104) / 1] /\
  map m_type (_merge_similar_levels 0.02 Scenarios.four_levels) =
    ["historical_low"; "combined"; "gann_square"]%string.
Proof. split; reflexivity. Qed.


(** ** Comprehensive score *)

Lemma clamp_bounds (x : Q) : 0 <= Qmax 0 (Qmin 100 x) <= 100.
Proof.
  split.
  - apply Q.le_max_l.
  - apply Q.max_lub; [discriminate|apply Q.le_min_l].
Qed.

(** The score is within [0, 100] on the computed path and on the fallback. *)
Lemma comprehensive_score_bounds (analysis_result : AnalysisResult) :
  0 <= comprehensive_score (_calculate_comprehensive_score analysis_result) <= 100.
Proof.
  unfold _calculate_comprehensive_score, comprehensive_score_body.
  destruct (_score_divergence_risk _); cbn.
  - apply clamp_bounds.
  - split; discriminate.
Qed.

(** When no sub-score raises, the rating is the one the cutoffs give. *)
Lemma rating_follows_cutoffs_when_computed (analysis_result : AnalysisResult)
    (result : ComprehensiveScore) :
  comprehensive_score_body analysis_result = Ok result ->
  _calculate_comprehensive_score analysis_result = result /\
  rating result = _get_comprehensive_rating (comprehensive_score result).
Proof.
  unfold _calculate_comprehensive_score. intros H. rewrite H. split; [reflexivity|].
  unfold comprehensive_score_body in H.
  destruct (_score_divergence_risk _); cbn in H; [|discriminate].
  injection H as <-. reflexivity.
Qed.

(** A table in which no divergence is found leaves [current_divergence] at
    Python's [None]. *)
Lemma no_divergence_no_status (cfg : Config) (data : list Bar) :
  _detect_top_divergence cfg (_find_price_extremes data high 5) = [] ->
  _detect_bottom_divergence cfg (_find_price_extremes data low 5) = [] ->
  exists dd, _analyze_divergence cfg data = Some dd /\ current_divergence dd = None.
Proof.
  intros Htop Hbottom.
  unfold _analyze_divergence, analyze_divergence_body.
  rewrite Htop, Hbottom. cbn. eexists. split; reflexivity.
Qed.

Lemma score_falls_back_without_status (relation : option RelationData)
    (dd : DivergenceData) (abnormal : option AbnormalData)
    (coordination : option CoordinationData) (trend : option TrendData) :
  current_divergence dd = None ->
  _calculate_comprehensive_score
    (mkAnalysisResult relation (Some dd) abnormal coordination trend) =
  mkComprehensiveScore None 50 "C".
Proof.
  intros H. unfold _calculate_comprehensive_score, comprehensive_score_body.
  cbn. rewrite H. reflexivity.
Qed.

(** C6, the code at a failing input.  Twelve identical bars hold no
    divergence; [_analyze_divergence] then reports [current_divergence] as
    [None], [_score_divergence_risk] raises on it, and the score falls back
    to 50 with rating "C", whatever the other stages returned; the cutoffs
    give "C+" for a score of 50. *)
Theorem degraded_score_rating_off_cutoffs (relation : option RelationData)
    (abnormal : option AbnormalData) (coordination : option CoordinationData)
    (trend : option TrendData) :
  let result :=
    _calculate_comprehensive_score
      (mkAnalysisResult relation
         (_analyze_divergence default_config Scenarios.flat12)
         abnormal coordination trend) in
  individual_scores result = None /\
  comprehensive_score result = 50 /\
  rating result = "C"%string /\
  _get_comprehensive_rating (comprehensive_score result) = "C+"%string.
Proof.
  destruct (no_divergence_no_status default_config Scenarios.flat12)
    as (dd & Hdd & Hnone); [reflexivity|reflexivity|].
  cbv zeta. rewrite Hdd, (score_falls_back_without_status _ dd _ _ _ Hnone).
  repeat split.
Qed.

(** ** Tangent computations *)

Lemma run_tbind {A B} (tan : Q -> Q) (m : TanM A) (f : A -> TanM B) :
  run tan (tbind m f) = run tan (f (run tan m)).
Proof. induction m as [a|angle k IH]; simpl; [reflexivity|apply IH]. Qed.

Lemma evaluated_at_tbind {A B} (tan : Q -> Q) (m : TanM A) (f : A -> TanM B) :
  evaluated_at tan (tbind m f) =
    evaluated_at tan m ++ evaluated_at tan (f (run tan m)).
Proof.
  induction m as [a|angle k IH]; simpl; [reflexivity|]. now rewrite IH.
Qed.

Lemma run_tmap {A B} (tan : Q -> Q) (f : A -> TanM B) (xs : list A) :
  run tan (tmap f xs) = map (fun x => run tan (f x)) xs.
Proof.
  induction xs as [|x xs IH]; simpl; [reflexivity|].
  now rewrite run_tbind, run_tbind, IH.
Qed.

Lemma evaluated_at_tmap {A B} (tan : Q -> Q) (f : A -> TanM B) (xs : list A) :
  evaluated_at tan (tmap f xs) = flat_map (fun x => evaluated_at tan (f x)) xs.
Proof.
  induction xs as [|x xs IH]; simpl; [reflexivity|].
  rewrite evaluated_at_tbind, evaluated_at_tbind, IH. simpl.
  now rewrite app_nil_r.
Qed.

(** ** Prediction confidence *)




Lemma dynamic_confidence_bounds (prediction_type : string)
    (strength market_volatility volume_factor technical_alignment : Q) :
  (30 <= _calculate_dynamic_confidence prediction_type strength
           market_volatility volume_factor technical_alignment <= 95)%Z.
Proof. unfold _calculate_dynamic_confidence. lia. Qed.

Lemma enumerate_In {A} (xs : list A) (i : nat) (x : A) :
  In (i, x) (enumerate xs) -> (i < length xs)%nat /\ In x xs.
Proof.
  unfold enumerate. intros H. split.
  - apply in_combine_l in H. apply in_seq in H. lia.
  - now apply in_combine_r in H.
Qed.

Lemma Forall_flat_map {A B} (P : B -> Prop) (f : A -> list B) (xs : list A) :
  (forall x, In x xs -> Forall P (f x)) -> Forall P (flat_map f xs).
Proof.
  intros H. apply Forall_forall. intros y Hy.
  apply in_flat_map in Hy. destruct Hy as (x & Hx & Hy).
  specialize (H x Hx). rewrite Forall_forall in H. now apply H.
Qed.

Lemma Forall_map_in {A B} (P : B -> Prop) (f : A -> B) (xs : list A) :
  (forall x, In x xs -> P (f x)) -> Forall P (map f xs).
Proof.
  intros H. apply Forall_forall. intros y Hy.
  apply in_map_iff in Hy. destruct Hy as (x & <- & Hx). now apply H.
Qed.

Lemma wheel_levels_at_bounded (tan : Q -> Q) (stats : Stats) (current_price angle : Q) :
  Forall bounded (run tan (wheel_levels_at stats current_price angle)).
Proof.
  unfold wheel_levels_at. rewrite run_tbind. cbn [run].
  each_element; apply dynamic_confidence_bounds.
Qed.

Lemma wheel_levels_bounded (tan : Q -> Q) (stats : Stats) (current_price : Q) :
  Forall bounded (run tan (_calculate_detailed_gann_wheel_levels stats current_price)).
Proof.
  unfold _calculate_detailed_gann_wheel_levels. rewrite run_tbind, run_tmap.
  cbn [run]. rewrite <- flat_map_concat_map.
  apply Forall_flat_map. intros angle _. apply wheel_levels_at_bounded.
Qed.

Lemma support_target_bounded (gann_angle : Q -> Q -> Q) (stats : Stats)
    (current_price : Q) (entry : nat * KeyLevel) :
  Forall bounded (support_target gann_angle stats current_price entry).
Proof.
  unfold support_target. destruct entry as [i [p s t|p]];
    destruct (_ && _); each_element; apply dynamic_confidence_bounds.
Qed.

Lemma resistance_target_bounded (current_price : Q) (i : nat) (level : KeyLevel) :
  (i < 8)%nat -> Forall bounded (resistance_target current_price (i, level)).
Proof.
  intros Hi. unfold resistance_target. destruct level as [p s t|p];
    destruct (_ && _); each_element; unfold bounded; cbn [confidence]; lia.
Qed.

Lemma gann_price_targets_bounded (gann_angle : Q -> Q -> Q) (tan : Q -> Q)
    (stats : Stats) (data : list Bar) (supports resistances : list KeyLevel) :
  Forall bounded
    (run tan (_calculate_gann_price_targets gann_angle stats data supports resistances)).
Proof.
  unfold _calculate_gann_price_targets. rewrite run_tbind. cbn [run].
  apply Forall_app. split; [|apply Forall_app; split].
  - apply Forall_flat_map. intros entry _. apply support_target_bounded.
  - apply Forall_flat_map. intros [i level] Hin.
    apply enumerate_In in Hin. destruct Hin as [Hi _].
    apply resistance_target_bounded.
    pose proof (firstn_le_length 8 resistances). lia.
  - apply wheel_levels_bounded.
Qed.

Example dynamic_confidence_values :
  _calculate_dynamic_confidence "gann_wheel_angle" 0.9 0.02 1 0.8 = 95%Z /\
  _calculate_dynamic_confidence "support_resistance" 0.5 0.05 0.5 0.4 = 41%Z /\
  _calculate_dynamic_confidence "unknown" 0 1 0 0 = 30%Z /\
  py_int (- (3 # 2)) = (-1)%Z /\ py_int (7 # 2) = 3%Z.
Proof. repeat split. Qed.


Lemma support_target_from_formula (gann_angle : Q -> Q -> Q) (stats : Stats)
    (current_price : Q) (entry : nat * KeyLevel) :
  Forall (from_formula "gann_wheel_angle" 0.4 (daily_volatility stats)
            (last_to_mean_volume stats) [0.8; 0.6])
         (support_target gann_angle stats current_price entry).
Proof.
  unfold support_target. destruct entry as [i [p s t|p]];
    destruct (_ && _); each_element;
    (eexists; eexists; split; [apply Q.le_max_l|split; [|reflexivity]];
     destruct (one_of _ _); cbn; auto).
Qed.

Lemma wheel_levels_at_from_formula (tan : Q -> Q) (stats : Stats)
    (current_price angle : Q) :
  Forall (from_formula "gann_wheel_angle" 0.63 (daily_volatility stats)
            (last_to_mean_volume stats) [0.8; 0.6])
         (run tan (wheel_levels_at stats current_price angle)).
Proof.
  unfold wheel_levels_at. rewrite run_tbind. cbn [run]. each_element;
    (eexists; eexists; split; [|split; [|reflexivity]];
     [destruct (one_of angle [45; 90]); unfold Qle; cbn; lia
     |destruct (one_of angle [45; 90; 180; 270]); cbn; auto]).
Qed.

Lemma divergence_targets_from_formula (stats : Stats)
    (current_price current_volume : Q) (signal : Signal) :
  Forall (from_formula "volume_breakout" 0.3 (annual_volatility stats)
            (current_volume / avg_volume_20 stats) [0.7; 0.6])
         (divergence_targets stats current_price current_volume signal).
Proof.
  unfold divergence_targets.
  destruct (contains "背离" _); [|constructor].
  destruct (contains "底背离" _) eqn:Ebottom.
  - apply Forall_map_in. intros [j factor] _.
    eexists. eexists. split; [apply Q.le_max_l|split; [|reflexivity]].
    cbn. auto.
  - destruct (contains "顶背离" _) eqn:Etop; [|constructor].
    apply Forall_map_in. intros [j factor] _.
    eexists. eexists. split; [apply Q.le_max_l|split; [|reflexivity]].
    cbn. auto.
Qed.

Lemma divergence_targets_bounded (stats : Stats) (current_price current_volume : Q)
    (signal : Signal) :
  Forall bounded (divergence_targets stats current_price current_volume signal).
Proof.
  unfold divergence_targets.
  destruct (contains "背离" _); [|constructor].
  destruct (contains "底背离" _).
  - apply Forall_map_in. intros [j factor] _. apply dynamic_confidence_bounds.
  - destruct (contains "顶背离" _); [|constructor].
    apply Forall_map_in. intros [j factor] _. apply dynamic_confidence_bounds.
Qed.

Lemma breakout_targets_bounded (stats : Stats) (current_price : Q)
    (entry : string * Q) :
  Forall bounded (breakout_targets stats current_price entry).
Proof.
  unfold breakout_targets. destruct entry as [volume_type ratio].
  destruct (Qlt_bool _ _); [|constructor].
  apply Forall_map_in. intros [j multiplier] Hin.
  apply enumerate_In in Hin. destruct Hin as [Hj _].
  assert (Hj3 : (j < 3)%nat) by (destruct (contains _ _); simpl in Hj; lia).
  unfold bounded. cbn [confidence]. lia.
Qed.

Lemma volume_price_levels_bounded (data : list Bar) :
  Forall bounded (_calculate_detailed_volume_price_levels data).
Proof.
  unfold _calculate_detailed_volume_price_levels.
  apply Forall_map_in. intros [k row] Hin.
  apply enumerate_In in Hin. destruct Hin as [Hk _].
  pose proof (firstn_le_length 20 (fold_right insert_by_volume_desc [] data)) as Hn.
  unfold nlargest_volume in *. unfold bounded. cbn [confidence]. lia.
Qed.

Lemma volume_price_targets_bounded (stats : Stats) (data : list Bar)
    (current_signals : list Signal) :
  Forall bounded (_calculate_volume_price_targets stats data current_signals).
Proof.
  unfold _calculate_volume_price_targets.
  apply Forall_app. split; [|apply Forall_app; split].
  - apply Forall_flat_map. intros s _. apply divergence_targets_bounded.
  - apply Forall_flat_map. intros e _. apply breakout_targets_bounded.
  - apply volume_price_levels_bounded.
Qed.

Lemma fibonacci_targets_constant (data : list Bar) (p : Prediction) :
  In p (_calculate_fibonacci_targets data) ->
  confidence p = 70%Z \/ confidence p = 60%Z.
Proof.
  unfold _calculate_fibonacci_targets. intros Hin.
  apply in_flat_map in Hin. destruct Hin as (level & _ & Hin).
  unfold fibonacci_target in Hin.
  destruct (Qlt_bool 0.02 _); [|contradiction].
  destruct Hin as [<-|[]]. cbn [confidence].
  destruct (one_of level [0.382; 0.618]); auto.
Qed.

Lemma fibonacci_targets_bounded (data : list Bar) :
  Forall bounded (_calculate_fibonacci_targets data).
Proof.
  apply Forall_forall. intros p Hp.
  destruct (fibonacci_targets_constant data p Hp) as [E|E];
    unfold bounded; rewrite E; lia.
Qed.

Lemma Forall_firstn {A} (P : A -> Prop) (n : nat) (l : list A) :
  Forall P l -> Forall P (firstn n l).
Proof.
  intros H. revert n. induction H as [|x l Hx Hl IH]; intros [|n]; simpl;
    constructor; auto.
Qed.

(** The confidence of a pivot point starts at 75 and gains 5 with every
    point merged into it, up to 90. *)
Lemma absorb_point_confidence (merged merged' : list PivotPoint) (point : PivotPoint) :
  Forall (fun x => (75 <= pp_confidence x <= 90)%Z) merged ->
  absorb_point merged point = Some merged' ->
  Forall (fun x => (75 <= pp_confidence x <= 90)%Z) merged'.
Proof.
  revert merged'. induction merged as [|existing rest IH]; intros merged' Hm E;
    cbn [absorb_point] in E; [discriminate|].
  inversion Hm as [|? ? He Hrest]; subst.
  destruct (_ && _).
  - injection E as <-. constructor; [cbn [pp_confidence]; lia|exact Hrest].
  - destruct (absorb_point rest point) as [rest'|]; [|discriminate].
    injection E as <-. constructor; [exact He|]. now apply IH.
Qed.

Lemma insert_point_by_confidence_desc_Forall (P : PivotPoint -> Prop)
    (x : PivotPoint) (l : list PivotPoint) :
  P x -> Forall P l -> Forall P (insert_point_by_confidence_desc x l).
Proof.
  intros Hx Hl. induction Hl as [|y l Hy Hl IH]; cbn; [now constructor|].
  destruct (pp_confidence y <=? pp_confidence x)%Z; repeat constructor; assumption.
Qed.

Lemma pivot_points_confidence (data : list Bar) :
  Forall (fun x => (75 <= pp_confidence x <= 90)%Z) (_calculate_pivot_points data).
Proof.
  unfold _calculate_pivot_points. apply Forall_firstn.
  set (scanned := flat_map (resistance_point data) _ ++ flat_map (support_point data) _).
  assert (Hscanned : Forall (fun x => (75 <= pp_confidence x <= 90)%Z) scanned).
  { apply Forall_app. split; apply Forall_flat_map; intros i _.
    - unfold resistance_point. destruct (Qeq_bool _ _); repeat constructor; cbn; lia.
    - unfold support_point. destruct (Qeq_bool _ _); repeat constructor; cbn; lia. }
  assert (Hmerged : forall acc,
            Forall (fun x => (75 <= pp_confidence x <= 90)%Z) acc ->
            Forall (fun x => (75 <= pp_confidence x <= 90)%Z)
                   (fold_left merge_point_step scanned acc)).
  { induction Hscanned as [|x l Hx Hl IH]; intros acc Hacc; cbn [fold_left];
      [exact Hacc|].
    apply IH. unfold merge_point_step.
    destruct (absorb_point acc x) as [acc'|] eqn:E.
    - now apply (absorb_point_confidence acc acc' x).
    - apply Forall_app. split; [exact Hacc|now constructor]. }
  specialize (Hmerged [] (Forall_nil _)).
  induction Hmerged as [|x l Hx Hl IH]; cbn [fold_right]; [constructor|].
  now apply insert_point_by_confidence_desc_Forall.
Qed.

(** Fed a strength of 75 or more, the formula is at its cap: the strength
    adjustment alone is above 2600. *)
Lemma dynamic_confidence_saturated (strength : Z) (market_volatility volume_factor : Q) :
  (75 <= strength)%Z ->
  _calculate_dynamic_confidence "support_resistance" (inject_Z strength)
    market_volatility volume_factor 0.4 = 95%Z.
Proof.
  intros Hs. unfold _calculate_dynamic_confidence.
  change (dict_get base_confidence "support_resistance" 50%Z) with 55%Z.
  set (volatility_adjustment := Qmax (-10) _).
  set (volume_adjustment := Qmax (-5) _).
  assert (Hv : -10 <= volatility_adjustment) by apply Q.le_max_l.
  assert (Hw : -5 <= volume_adjustment) by apply Q.le_max_l.
  assert (Hq : 75 <= inject_Z strength).
  { change 75 with (inject_Z 75). now rewrite <- Zle_Qle. }
  set (final := inject_Z 55 + _ + _ + _ + _).
  assert (Hfinal : 95 <= final).
  { unfold final. change (inject_Z 55) with 55. lra. }
  clearbody final. destruct final as [n d].
  assert (Hint : (95 <= py_int (n # d))%Z).
  { unfold py_int. unfold Qle in Hfinal. cbn [Qnum Qden] in *.
    apply Z.quot_le_lower_bound; lia. }
  lia.
Qed.

Lemma support_resistance_targets_dynamic (stats : Stats) (data : list Bar)
    (p : Prediction) :
  In p (_calculate_support_resistance_targets stats data) ->
  exists point, In point (_calculate_pivot_points data) /\
    confidence p =
      _calculate_dynamic_confidence "support_resistance"
        (inject_Z (pp_confidence point))
        (daily_volatility stats) (last_to_mean_volume stats) 0.4.
Proof.
  unfold _calculate_support_resistance_targets. intros Hin.
  apply in_flat_map in Hin. destruct Hin as (point & Hpoint & Hin).
  unfold support_resistance_target in Hin.
  destruct (Qlt_bool 0.015 _); [|contradiction].
  destruct Hin as [<-|[]]. exists point. split; [exact Hpoint|reflexivity].
Qed.

Lemma support_resistance_targets_saturated (stats : Stats) (data : list Bar)
    (p : Prediction) :
  In p (_calculate_support_resistance_targets stats data) -> confidence p = 95%Z.
Proof.
  intros Hp. destruct (support_resistance_targets_dynamic _ _ _ Hp) as (point & Hin & ->).
  apply dynamic_confidence_saturated.
  pose proof (pivot_points_confidence data) as Hall.
  rewrite Forall_forall in Hall. now apply Hall.
Qed.

Lemma support_resistance_targets_bounded (stats : Stats) (data : list Bar) :
  Forall bounded (_calculate_support_resistance_targets stats data).
Proof.
  apply Forall_forall. intros p Hp.
  destruct (support_resistance_targets_dynamic _ _ _ Hp) as (point & _ & E).
  unfold bounded. rewrite E. apply dynamic_confidence_bounds.
Qed.

Lemma merge_into_Forall (P : Prediction -> Prop) (merged merged' : list Prediction)
    (pred : Prediction) :
  P pred -> Forall P merged -> merge_into merged pred = Some merged' ->
  Forall P merged'.
Proof.
  intros Hp. revert merged'.
  induction merged as [|existing rest IH]; intros merged' Hm E; simpl in E.
  - discriminate.
  - inversion Hm as [|? ? He Hrest]; subst.
    destruct (Qlt_bool _ _).
    + injection E as <-. constructor; [|exact Hrest].
      destruct (confidence existing <? confidence pred)%Z; assumption.
    + destruct (merge_into rest pred) as [rest'|]; [|discriminate].
      injection E as <-. constructor; [exact He|]. now apply IH.
Qed.

Lemma merge_similar_predictions_Forall (P : Prediction -> Prop)
    (predictions : list Prediction) :
  Forall P predictions -> Forall P (_merge_similar_predictions predictions).
Proof.
  unfold _merge_similar_predictions.
  assert (H : forall acc, Forall P acc -> Forall P predictions ->
                Forall P (fold_left merge_step predictions acc)).
  { induction predictions as [|pred rest IH]; intros acc Hacc Hp; simpl.
    - exact Hacc.
    - inversion Hp; subst. apply IH; [|assumption].
      unfold merge_step. destruct (merge_into acc pred) as [merged'|] eqn:E.
      + apply (merge_into_Forall P acc merged' pred); assumption.
      + apply Forall_app. split; [exact Hacc|now constructor]. }
  intros Hp. apply H; [constructor|exact Hp].
Qed.

Lemma sorted_by_confidence_Forall (P : Prediction -> Prop) (l : list Prediction) :
  Forall P l -> Forall P (sorted_by_confidence_desc l).
Proof.
  induction 1 as [|x l Hx Hl IH]; simpl; [constructor|].
  clear Hl. induction IH as [|y s Hy Hs IHs]; simpl.
  - now constructor.
  - destruct (_ <=? _)%Z; repeat constructor; assumption.
Qed.

(** Every prediction of the synthesizer, from each of its four candidate
    models and in the merged and ranked output, carries an integer
    confidence between 30 and 95.  Gann support targets, Gann wheel-angle
    targets, volume-divergence targets and pivot support/resistance targets
    take theirs from [_calculate_dynamic_confidence]; Fibonacci targets
    carry the constant 70 or 60. *)
Lemma prediction_confidence_bounds (gann_angle : Q -> Q -> Q) (tan : Q -> Q)
    (stats : Stats) (data : list Bar) (supports resistances : list KeyLevel)
    (current_signals : list Signal) :
  Forall bounded
    (run tan (_calculate_key_price_levels gann_angle stats data supports
                resistances current_signals)) /\
  Forall bounded
    (run tan (_calculate_gann_price_targets gann_angle stats data supports
                resistances)) /\
  Forall bounded (_calculate_volume_price_targets stats data current_signals) /\
  Forall bounded (_calculate_fibonacci_targets data) /\
  Forall bounded (_calculate_support_resistance_targets stats data) /\
  Forall (from_formula "gann_wheel_angle" 0.4 (daily_volatility stats)
            (last_to_mean_volume stats) [0.8; 0.6])
         (flat_map (support_target gann_angle stats (last_close data))
                   (enumerate (firstn 8 supports))) /\
  Forall (from_formula "gann_wheel_angle" 0.63 (daily_volatility stats)
            (last_to_mean_volume stats) [0.8; 0.6])
         (run tan (_calculate_detailed_gann_wheel_levels stats (last_close data))) /\
  Forall (from_formula "volume_breakout" 0.3 (annual_volatility stats)
            (last_volume data / avg_volume_20 stats) [0.7; 0.6])
         (flat_map (divergence_targets stats (last_close data) (last_volume data))
                   current_signals).
Proof.
  pose proof (gann_price_targets_bounded gann_angle tan stats data supports
                resistances) as Hgann.
  pose proof (volume_price_targets_bounded stats data current_signals) as Hvol.
  pose proof (fibonacci_targets_bounded data) as Hfib.
  pose proof (support_resistance_targets_bounded stats data) as Hsr.
  split; [|split; [exact Hgann|split; [exact Hvol|split; [exact Hfib|
           split; [exact Hsr|split; [|split]]]]]].
  - unfold _calculate_key_price_levels. rewrite run_tbind.
    set (gann_predictions :=
           run tan (_calculate_gann_price_targets gann_angle stats data supports
                      resistances)) in *.
    cbn [run].
    apply Forall_firstn, sorted_by_confidence_Forall,
      merge_similar_predictions_Forall.
    apply Forall_app; split; [exact Hgann|].
    apply Forall_app; split; [exact Hvol|].
    apply Forall_app; split; [exact Hfib|exact Hsr].
  - apply Forall_flat_map. intros entry _. apply support_target_from_formula.
  - unfold _calculate_detailed_gann_wheel_levels. rewrite run_tbind, run_tmap.
    cbn [run]. rewrite <- flat_map_concat_map.
    apply Forall_flat_map. intros angle _. apply wheel_levels_at_from_formula.
  - apply Forall_flat_map. intros signal _. apply divergence_targets_from_formula.
Qed.

(** C7, the code at failing inputs.  The Fibonacci targets carry the
    literals 70 and 60, whatever the table: tables that differ in range,
    level and volume give the same confidences, while the formula, which has
    a base entry for the type "fibonacci", gives 65 at its neutral
    arguments.  The pivot targets do go through the formula, but with the
    confidence of the pivot point (75 to 90, a percentage) in the place of
    the strength (0 to 1): every one of them carries the cap 95, in a quiet
    market as in a nervous one, where the formula at the recorded strength
    0.7 gives 59. *)
Theorem static_confidence_of_fibonacci_and_pivot_targets :
  (forall data p, In p (_calculate_fibonacci_targets data) ->
     confidence p = 70%Z \/ confidence p = 60%Z) /\
  (forall stats data p, In p (_calculate_support_resistance_targets stats data) ->
     confidence p = 95%Z) /\
  map confidence (_calculate_fibonacci_targets Scenarios.calm_table) =
    [60; 70; 60; 70; 60]%Z /\
  map confidence (_calculate_fibonacci_targets Scenarios.wild_table) =
    [60; 70; 60; 70; 60]%Z /\
  map confidence (_calculate_fibonacci_targets Scenarios.two_peaks60) =
    [60; 70; 60; 70; 60]%Z /\
  _calculate_dynamic_confidence "fibonacci" 0.5 0.02 1 0.5 = 65%Z /\
  map (fun point => (pp_type point, pp_confidence point))
      (_calculate_pivot_points Scenarios.two_peaks60) =
    [("pivot_support"%string, 90%Z); ("pivot_resistance"%string, 75%Z);
     ("pivot_resistance"%string, 75%Z)] /\
  map confidence
      (_calculate_support_resistance_targets Scenarios.quiet_stats
         Scenarios.two_peaks60) = [95; 95]%Z /\
  map confidence
      (_calculate_support_resistance_targets Scenarios.nervous_stats
         Scenarios.two_peaks60) = [95; 95]%Z /\
  _calculate_dynamic_confidence "support_resistance" 0.7 0.02 1 0.4 = 59%Z.
Proof.
  split; [exact fibonacci_targets_constant|].
  split; [exact support_resistance_targets_saturated|].
  split; [reflexivity|]. split; [reflexivity|].
  split; [vm_compute; reflexivity|]. split; [reflexivity|].
  split; [vm_compute; reflexivity|]. split; [vm_compute; reflexivity|].
  split; [vm_compute; reflexivity|]. reflexivity.
Qed.

(** ** Tangents and projections *)

Lemma wheel_levels_at_evaluated (tan : Q -> Q) (stats : Stats) (current_price angle : Q) :
  evaluated_at tan (wheel_levels_at stats current_price angle) =
    if Qle_bool 90 angle then [] else [angle].
Proof.
  unfold wheel_levels_at. rewrite evaluated_at_tbind.
  destruct (Qle_bool 90 angle); reflexivity.
Qed.

Lemma wheel_levels_evaluated (tan : Q -> Q) (stats : Stats) (current_price : Q) :
  evaluated_at tan (_calculate_detailed_gann_wheel_levels stats current_price) =
    [15; 22.5; 30; 45; 60; 67.5; 75].
Proof.
  unfold _calculate_detailed_gann_wheel_levels.
  rewrite evaluated_at_tbind, evaluated_at_tmap. cbn [evaluated_at].
  rewrite app_nil_r. unfold gann_angles. cbn [flat_map].
  rewrite !wheel_levels_at_evaluated. reflexivity.
Qed.


Lemma wheel_levels_at_capped (tan : Q -> Q) (stats : Stats) (current_price angle : Q) :
  Forall (capped_move current_price 0.5 0.4)
         (run tan (wheel_levels_at stats current_price angle)).
Proof.
  unfold wheel_levels_at. rewrite run_tbind. cbn [run]. each_element.
  - eexists. left. split; [reflexivity|]. split; [apply Q.le_min_r|reflexivity].
  - eexists. right. split; [reflexivity|]. split; [apply Q.le_min_r|reflexivity].
Qed.

Lemma angle_line_points_linear (cfg : GannConfig) (data : list Bar)
    (start_price slope : Q) (start_index : nat) (idxs : list nat)
    (state : nat * list LinePoint) :
  Forall (fun lp => exists n, lp_predicted_price lp = predicted_price start_price slope n)
         (snd state) ->
  Forall (fun lp => exists n, lp_predicted_price lp = predicted_price start_price slope n)
         (snd (fold_left (angle_line_step cfg data start_price slope start_index)
                         idxs state)).
Proof.
  revert state. induction idxs as [|i rest IH]; intros state Hstate; simpl.
  - exact Hstate.
  - apply IH. destruct state as [touches line_points]. unfold angle_line_step.
    destruct (_ && _); [|exact Hstate]. cbn [snd] in *.
    apply Forall_app. split; [exact Hstate|].
    constructor; [|constructor]. now exists (i - start_index)%nat.
Qed.

(** C9, as amended.  The Gann-wheel projection of the synthesizer never
    evaluates the tangent at 90 degrees or beyond (it evaluates it at 15,
    22.5, 30, 45, 60, 67.5 and 75 and uses the fixed value 10 at 90), and
    each of its targets is a move of at most +50% up or -40% down from the
    current price.  The points of a GannWheel angle line lie on the
    unclamped line [start_price * (1 + slope * days / 100)]. *)
Theorem wheel_projection_guarded_and_capped (tan : Q -> Q) (stats : Stats)
    (current_price : Q) (cfg : GannConfig) (data : list Bar) (start_date : Z)
    (start_price angle : Q) (point_type : ExtremeType) :
  let asked :=
    evaluated_at tan (_calculate_detailed_gann_wheel_levels stats current_price) in
  let line :=
    run tan (_calculate_gann_angle_line cfg data start_date start_price angle
               point_type) in
  Forall (fun a => a < 90) asked /\
  Forall (fun a => ~ a == 90 /\ ~ a == 270) asked /\
  Forall (capped_move current_price 0.5 0.4)
         (run tan (_calculate_detailed_gann_wheel_levels stats current_price)) /\
  Forall (fun lp => exists days,
            lp_predicted_price lp =
              start_price + al_slope line * inject_Z (Z.of_nat days) * start_price * 0.01)
         (al_line_points line).
Proof.
  cbv zeta. rewrite wheel_levels_evaluated.
  split; [each_element; reflexivity|].
  split; [each_element; split; intros E; discriminate E|].
  split.
  - unfold _calculate_detailed_gann_wheel_levels. rewrite run_tbind, run_tmap.
    cbn [run]. rewrite <- flat_map_concat_map.
    apply Forall_flat_map. intros a _. apply wheel_levels_at_capped.
  - unfold _calculate_gann_angle_line. rewrite run_tbind.
    set (slope := run tan (angle_line_slope angle point_type)).
    pose proof (angle_line_points_linear cfg data start_price slope
                  (get_loc_or_zero start_date (map date data) 0)
                  (range (get_loc_or_zero start_date (map date data) 0 + 1)
                         (length data))
                  (0%nat, []) (Forall_nil _)) as Hlin.
    destruct (fold_left _ _ _) as [touches line_points].
    cbn [run al_line_points al_slope snd] in *. exact Hlin.
Qed.

(** C9, counterexample to the clamp on angle lines: bar 5 of the sample
    series is a pivot low at 100; the 45-degree line (one of the default
    angles) drawn from it is touched by every later bar and reaches 160 on
    day 65, 60% above its reference price. *)
Lemma angle_line_projection_unclamped :
  let line :=
    run (fun _ => 0)
        (_calculate_gann_angle_line default_gann_config Scenarios.ramp_after_low
           5 100 45 low) in
  In 45 (price_angles default_gann_config) /\
  In (mkPivot 5 100 low 5)
     (snd (_find_pivot_points Scenarios.ramp_after_low 5)) /\
  al_touches line = 60%nat /\
  exists lp, In lp (al_line_points line) /\
    lp_date lp = 65%Z /\
    lp_predicted_price lp == 160 /\
    al_start_price line * (1 + 0.5) < lp_predicted_price lp.
Proof.
  cbv zeta. split; [cbn; tauto|].
  split; [vm_compute; left; reflexivity|].
  split; [vm_compute; reflexivity|].
  exists (mkLinePoint 65 (predicted_price 100 1 60) ((160 + 160) / 2)).
  split; [|split; [reflexivity|split; reflexivity]].
  vm_compute. do 59 right. left. reflexivity.
Qed.

(** The angle line itself evaluates the tangent at whatever angle it is
    given, unless the angle is 45, 26.25 or 63.75. *)
Lemma angle_line_evaluates_tangent (tan : Q -> Q) (cfg : GannConfig)
    (data : list Bar) (start_date : Z) (start_price : Q) (point_type : ExtremeType) :
  evaluated_at tan (_calculate_gann_angle_line cfg data start_date start_price
                      45 point_type) = [] /\
  evaluated_at tan (_calculate_gann_angle_line cfg data start_date start_price
                      90 point_type) = [90].
Proof.
  unfold _calculate_gann_angle_line. rewrite !evaluated_at_tbind. split.
  - cbn [angle_line_slope Qeq_bool]. destruct point_type;
      destruct (fold_left _ _ _); reflexivity.
  - destruct (fold_left _ _ _). destruct point_type; reflexivity.
Qed.

(** ** The analysis pipelines *)




Section Pipelines.

Variables tc pc ga gs rs kl : DataFrame -> Res PyVal.
Variable pr : DataFrame -> PyVal -> PyVal -> PyVal -> Res PyVal.

Variables bi rel dv pat co ab tr : DataFrame -> Res PyVal.
Variable sc : PyVal -> PyVal -> PyVal -> PyVal -> PyVal -> Res PyVal.
Variable sg : DataFrame -> PyVal -> PyVal -> PyVal -> PyVal -> PyVal -> Res PyVal.

Let gann := GannWheel.analyze_stock tc pc ga gs rs kl pr.
Let volume_price := VolumePriceAnalyzer.analyze_stock bi rel dv pat co ab tr sc sg.

(** The Gann pipeline raises exactly on an empty table, and otherwise
    returns a dict with every key. *)
Lemma gann_analyze_stock_outcome (now : Z) (symbol : string) (data : DataFrame) :
  (empty data = true /\ exists e, gann now symbol data = Raise e) \/
  (empty data = false /\
   exists result, gann now symbol data = Ok result /\ keys result = gann_keys).
Proof.
  unfold gann, GannWheel.analyze_stock.
  destruct (empty data); [left|right]; split; try reflexivity; eexists;
    [reflexivity|split; reflexivity].
Qed.


Lemma missing_columns_nil (data : DataFrame) :
  filter (fun col => negb (existsb (String.eqb col) (columns data)))
         VolumePriceAnalyzer.required_columns = [] <->
  has_required_columns data = true.
Proof.
  unfold has_required_columns. rewrite forallb_forall. split.
  - intros Hnil col Hcol.
    destruct (existsb (String.eqb col) (columns data)) eqn:E; [reflexivity|].
    assert (Hin : In col (filter (fun col => negb (existsb (String.eqb col)
                                                      (columns data)))
                            VolumePriceAnalyzer.required_columns)).
    { apply filter_In. split; [exact Hcol|now rewrite E]. }
    rewrite Hnil in Hin. destruct Hin.
  - intros Hall. apply filter_none. intros col Hcol. now rewrite (Hall col Hcol).
Qed.

(** The volume-price pipeline raises exactly on an empty table or a table
    that lacks a required column, and otherwise returns a dict with every
    key. *)
Lemma volume_price_analyze_stock_outcome (now : Z) (symbol : string)
    (data : DataFrame) :
  ((empty data = true \/ has_required_columns data = false) /\
   exists e, volume_price now symbol data = Raise e) \/
  (empty data = false /\ has_required_columns data = true /\
   exists result, volume_price now symbol data = Ok result /\
                  keys result = volume_price_keys).
Proof.
  unfold volume_price, VolumePriceAnalyzer.analyze_stock.
  destruct (empty data).
  - left. split; [now left|eexists; reflexivity].
  - destruct (filter _ VolumePriceAnalyzer.required_columns) as [|c missing] eqn:E.
    + right. apply missing_columns_nil in E. repeat split; [exact E|].
      eexists. split; reflexivity.
    + left. split; [|eexists; reflexivity]. right.
      destruct (has_required_columns data) eqn:H; [|reflexivity].
      apply missing_columns_nil in H. congruence.
Qed.

(** A stage whose body raises leaves its default in the result; the stages
    after it still run. *)
Lemma gann_stage_failure_contained (now : Z) (symbol : string) (data : DataFrame)
    (e : PyExn) :
  empty data = false ->
  tc (sort_index data) = Raise e ->
  exists result, gann now symbol data = Ok result /\
    keys result = gann_keys /\
    nth 3 result (""%string, PNone) =
      ("time_analysis"%string,
       PDict [("cycles_found"%string, PList []); ("dominant_cycle"%string, PNone);
              ("next_time_windows"%string, PList [])]).
Proof.
  intros Hne Hraise. unfold gann, GannWheel.analyze_stock. rewrite Hne.
  eexists. split; [reflexivity|]. split; [reflexivity|].
  cbn. unfold GannWheel._analyze_time_cycles. now rewrite Hraise.
Qed.

(** C8, the code at a failing input.  On a table of twelve rows that holds
    only the column Close, the Gann pipeline raises nothing and returns a
    dict with all its keys, whatever its stages do; the volume-price
    pipeline raises the input error on the same table. *)
Theorem gann_accepts_table_without_columns (now : Z) (symbol : string) :
  (exists result,
     gann now symbol Scenarios.close_only = Ok result /\
     keys result = gann_keys) /\
  volume_price now symbol Scenarios.close_only =
    Raise (ValueError "缺少必要的数据列: ['Open', 'High', 'Low', 'Volume']").
Proof.
  split.
  - eexists. split; reflexivity.
  - reflexivity.
Qed.

End Pipelines.


(* ================================================================== *)
(** * Properties of the stages *)

Import GannWheelStages.

(** ** Stable sorts *)

Lemma insert_by_In {A} (key : A -> Q) (x y : A) (l : list A) :
  In y (insert_by key x l) <-> y = x \/ In y l.
Proof.
  induction l as [|z l IH]; cbn.
  - intuition.
  - destruct (Qle_bool (key x) (key z)); cbn; [intuition|].
    rewrite IH. intuition.
Qed.

Lemma sorted_by_In {A} (key : A -> Q) (y : A) (l : list A) :
  In y (sorted_by key l) <-> In y l.
Proof.
  induction l as [|x l IH]; cbn; [tauto|].
  unfold sorted_by in IH. rewrite insert_by_In, IH. intuition.
Qed.

Lemma insert_by_length {A} (key : A -> Q) (x : A) (l : list A) :
  length (insert_by key x l) = S (length l).
Proof.
  induction l as [|z l IH]; cbn; [reflexivity|].
  destruct (Qle_bool (key x) (key z)); cbn; [reflexivity|now rewrite IH].
Qed.

Lemma sorted_by_length {A} (key : A -> Q) (l : list A) :
  length (sorted_by key l) = length l.
Proof.
  induction l as [|x l IH]; cbn; [reflexivity|].
  unfold sorted_by in IH. now rewrite insert_by_length, IH.
Qed.

Lemma insert_by_sorted {A} (key : A -> Q) (x : A) (l : list A) :
  StronglySorted (fun a b => key a <= key b) l ->
  StronglySorted (fun a b => key a <= key b) (insert_by key x l).
Proof.
  induction l as [|z l IH]; cbn; intros Hs.
  - constructor; constructor.
  - apply StronglySorted_inv in Hs. destruct Hs as [Hs Hz].
    destruct (Qle_bool (key x) (key z)) eqn:E.
    + apply Qle_bool_iff in E. constructor.
      * constructor; assumption.
      * constructor; [exact E|].
        apply Forall_forall. intros b Hb. rewrite Forall_forall in Hz.
        apply Qle_trans with (key z); [exact E|now apply Hz].
    + apply Qle_bool_false_iff in E. constructor; [now apply IH|].
      apply Forall_forall. intros b Hb. apply insert_by_In in Hb.
      destruct Hb as [->|Hb]; [now apply Qlt_le_weak|].
      rewrite Forall_forall in Hz. now apply Hz.
Qed.

Lemma sorted_by_sorted {A} (key : A -> Q) (l : list A) :
  StronglySorted (fun a b => key a <= key b) (sorted_by key l).
Proof.
  induction l as [|x l IH]; cbn; [constructor|].
  now apply insert_by_sorted.
Qed.

Lemma insert_by_desc_In {A} (key : A -> Q) (x y : A) (l : list A) :
  In y (insert_by_desc key x l) <-> y = x \/ In y l.
Proof.
  induction l as [|z l IH]; cbn.
  - intuition.
  - destruct (Qle_bool (key z) (key x)); cbn; [intuition|].
    rewrite IH. intuition.
Qed.

Lemma sorted_by_desc_In {A} (key : A -> Q) (y : A) (l : list A) :
  In y (sorted_by_desc key l) <-> In y l.
Proof.
  induction l as [|x l IH]; cbn; [tauto|].
  unfold sorted_by_desc in IH. rewrite insert_by_desc_In, IH. intuition.
Qed.

Lemma insert_by_desc_sorted {A} (key : A -> Q) (x : A) (l : list A) :
  StronglySorted (fun a b => key b <= key a) l ->
  StronglySorted (fun a b => key b <= key a) (insert_by_desc key x l).
Proof.
  induction l as [|z l IH]; cbn; intros Hs.
  - constructor; constructor.
  - apply StronglySorted_inv in Hs. destruct Hs as [Hs Hz].
    destruct (Qle_bool (key z) (key x)) eqn:E.
    + apply Qle_bool_iff in E. constructor.
      * constructor; assumption.
      * constructor; [exact E|].
        apply Forall_forall. intros b Hb. rewrite Forall_forall in Hz.
        apply Qle_trans with (key z); [now apply Hz|exact E].
    + apply Qle_bool_false_iff in E. constructor; [now apply IH|].
      apply Forall_forall. intros b Hb. apply insert_by_desc_In in Hb.
      destruct Hb as [->|Hb]; [now apply Qlt_le_weak|].
      rewrite Forall_forall in Hz. now apply Hz.
Qed.

Lemma sorted_by_desc_sorted {A} (key : A -> Q) (l : list A) :
  StronglySorted (fun a b => key b <= key a) (sorted_by_desc key l).
Proof.
  induction l as [|x l IH]; cbn; [constructor|].
  now apply insert_by_desc_sorted.
Qed.

(** The first element of a sorted list bounds all of them. *)
Lemma sorted_head_bounds {A} (R : A -> A -> Prop) (l : list A) (d : A) :
  (forall a, R a a) ->
  StronglySorted R l -> hd_error l = Some d ->
  forall c, In c l -> R d c.
Proof.
  intros Hrefl Hs Hd c Hc. destruct l as [|x l]; [discriminate|].
  injection Hd as ->. apply StronglySorted_inv in Hs. destruct Hs as [_ Hall].
  destruct Hc as [<-|Hc]; [apply Hrefl|].
  rewrite Forall_forall in Hall. now apply Hall.
Qed.

Lemma StronglySorted_firstn {A} (R : A -> A -> Prop) (n : nat) (l : list A) :
  StronglySorted R l -> StronglySorted R (firstn n l).
Proof.
  revert n. induction l as [|x l IH]; intros [|n] Hs; cbn; try constructor.
  - apply IH. now apply StronglySorted_inv in Hs.
  - apply StronglySorted_inv in Hs. destruct Hs as [_ Hall].
    apply Forall_firstn. exact Hall.
Qed.

Lemma In_firstn {A} (n : nat) (l : list A) (x : A) :
  In x (firstn n l) -> In x l.
Proof.
  revert n. induction l as [|y l IH]; intros [|n]; cbn; try tauto.
  intros [->|H]; [now left|right; now apply (IH n)].
Qed.

(** ** Time cycles *)

Lemma count_steps_le {A} (step : nat -> A -> nat) (l : list A) (start : nat) :
  (forall n x, step n x = n \/ step n x = S n) ->
  (start <= fold_left step l start <= start + length l)%nat.
Proof.
  intros Hstep. revert start. induction l as [|x l IH]; intros start; cbn; [lia|].
  specialize (IH (step start x)).
  destruct (Hstep start x) as [E|E]; rewrite E in *; lia.
Qed.

Lemma ratio_bounds (m n : nat) :
  (m <= n)%nat -> (1 <= n)%nat ->
  0 <= inject_Z (Z.of_nat m) / inject_Z (Z.of_nat n) <= 1.
Proof.
  intros Hmn Hn.
  assert (Hpos : 0 < inject_Z (Z.of_nat n)).
  { replace 0 with (inject_Z 0) by reflexivity. rewrite <- Zlt_Qlt. lia. }
  assert (Hm : 0 <= inject_Z (Z.of_nat m)).
  { replace 0 with (inject_Z 0) by reflexivity. rewrite <- Zle_Qle. lia. }
  assert (Hle : inject_Z (Z.of_nat m) <= inject_Z (Z.of_nat n)).
  { rewrite <- Zle_Qle. lia. }
  split.
  - apply Qle_shift_div_l; [exact Hpos|]. lra.
  - apply Qle_shift_div_r; [exact Hpos|]. lra.
Qed.

Lemma single_time_cycle_bounds (cfg : GannConfig) (data : list Bar)
    (highs lows : list Pivot) (cycle : Z) :
  0 <= ca_strength (_analyze_single_time_cycle cfg data highs lows cycle) <= 1 /\
  (ca_matches (_analyze_single_time_cycle cfg data highs lows cycle)
   <= length highs + length lows - 1)%nat.
Proof.
  unfold _analyze_single_time_cycle.
  destruct (length highs + length lows =? 0)%nat eqn:E.
  - cbn. split; [split; [apply Qle_refl|discriminate]|lia].
  - apply Nat.eqb_neq in E. cbn [ca_strength ca_matches].
    set (all_points := sorted_by _ (highs ++ lows)).
    assert (Hlen : length all_points = (length highs + length lows)%nat).
    { unfold all_points. now rewrite sorted_by_length, length_app. }
    pose proof (count_steps_le (cycle_match_step cfg cycle all_points)
                  (range 1 (length all_points)) 0) as Hcount.
    assert (Hstep : forall n x, cycle_match_step cfg cycle all_points n x = n \/
                                cycle_match_step cfg cycle all_points n x = S n).
    { intros n x. unfold cycle_match_step.
      destruct (Qle_bool _ _); [now right|now left]. }
    specialize (Hcount Hstep). unfold range in *.
    rewrite length_seq in Hcount.
    split; [|lia].
    apply ratio_bounds; lia.
Qed.

(** X8.  [_analyze_single_time_cycle]: whatever the pivots, the cycle and
    the tolerance, the strength of a cycle lies between 0 and 1, and the
    number of matching intervals is at most the number of intervals between
    consecutive pivots (one less than the number of pivots). *)
Theorem single_time_cycle_strength_bounds (cfg : GannConfig) (data : list Bar)
    (highs lows : list Pivot) (cycle : Z) :
  0 <= ca_strength (_analyze_single_time_cycle cfg data highs lows cycle) <= 1 /\
  (ca_matches (_analyze_single_time_cycle cfg data highs lows cycle)
   <= length highs + length lows - 1)%nat.
Proof. apply single_time_cycle_bounds. Qed.

(** X9.  [_analyze_time_cycles]: every cycle reported in [cycles_found] is
    one of the configured cycles and has a strength above 0.3 and at most
    1; [dominant_cycle] is [None] exactly when no cycle is reported, and
    otherwise it is a reported cycle whose strength no other reported cycle
    exceeds; at most three time windows are returned, each dated the cycle
    length after the last bar, for the first three reported cycles. *)
Theorem time_cycles_dominant_is_strongest (cfg : GannConfig)
    (time_cycles : list Z) (data : list Bar) :
  (forall c, In c (cycles_found (analyze_time_cycles_body cfg time_cycles data)) ->
     0.3 < ca_strength c <= 1 /\ In (ca_cycle c) time_cycles) /\
  (dominant_cycle (analyze_time_cycles_body cfg time_cycles data) = None <->
   cycles_found (analyze_time_cycles_body cfg time_cycles data) = []) /\
  (forall d, dominant_cycle (analyze_time_cycles_body cfg time_cycles data) = Some d ->
     In d (cycles_found (analyze_time_cycles_body cfg time_cycles data)) /\
     forall c, In c (cycles_found (analyze_time_cycles_body cfg time_cycles data)) ->
       ca_strength c <= ca_strength d) /\
  map (fun w => (tw_cycle w, tw_next_date w))
      (next_time_windows (analyze_time_cycles_body cfg time_cycles data)) =
    map (fun c => (ca_cycle c, (current_day data + ca_cycle c)%Z))
        (firstn 3 (cycles_found (analyze_time_cycles_body cfg time_cycles data))).
Proof.
  unfold analyze_time_cycles_body.
  destruct (_find_pivot_points data 5) as [highs lows].
  cbn [cycles_found dominant_cycle next_time_windows].
  set (found := sorted_by_desc ca_strength _).
  split; [|split; [|split]].
  - intros c Hc. unfold found in Hc. apply sorted_by_desc_In in Hc.
    apply in_flat_map in Hc. destruct Hc as (cycle & Hcycle & Hc).
    destruct (Qlt_bool 0.3 _) eqn:E; [|destruct Hc].
    destruct Hc as [<-|[]]. apply Qlt_bool_iff in E.
    split; [split; [exact E|]|].
    + apply (single_time_cycle_bounds cfg data highs lows cycle).
    + unfold _analyze_single_time_cycle.
      destruct (_ =? 0)%nat; exact Hcycle.
  - destruct found; cbn; split; intro H; (reflexivity || discriminate).
  - intros d Hd. split.
    + destruct found as [|x l]; [discriminate|]. injection Hd as ->. now left.
    + intros c Hc.
      apply (sorted_head_bounds (fun a b => ca_strength b <= ca_strength a) found d);
        [intro; apply Qle_refl|apply sorted_by_desc_sorted|exact Hd|exact Hc].
  - unfold _calculate_next_time_windows.
    destruct found as [|x l] eqn:Ef; [reflexivity|].
    rewrite map_map. reflexivity.
Qed.

(** ** Price levels *)

Lemma strength_touches_le (tolerance_range level : Q) (data : list Bar) (n m : nat) :
  Forall (fun row => Low row <= High row) data -> (n <= m)%nat ->
  (fold_left (fun (touches : nat) (row : Bar) =>
                if Qle_bool (Qabs (High row - level)) tolerance_range
                then S touches
                else if Qle_bool (Qabs (Low row - level)) tolerance_range
                then S touches
                else touches) data n
   <= fold_left (fun (touches : nat) (row : Bar) =>
                   if Qle_bool (Low row) (level + tolerance_range) &&
                      Qle_bool (level - tolerance_range) (High row)
                   then S touches else touches) data m)%nat.
Proof.
  intros Hrows. revert n m.
  induction Hrows as [|row data Hrow Hrows IH]; intros n m Hnm; cbn [fold_left];
    [exact Hnm|].
  apply IH.
  destruct (Qle_bool (Qabs (High row - level)) tolerance_range) eqn:EH.
  - apply Qle_bool_iff, Qabs_Qle_condition in EH.
    assert (E1 : Qle_bool (Low row) (level + tolerance_range) = true)
      by (apply Qle_bool_iff; lra).
    assert (E2 : Qle_bool (level - tolerance_range) (High row) = true)
      by (apply Qle_bool_iff; lra).
    rewrite E1, E2. cbn [andb]. lia.
  - destruct (Qle_bool (Qabs (Low row - level)) tolerance_range) eqn:EL.
    + apply Qle_bool_iff, Qabs_Qle_condition in EL.
      assert (E1 : Qle_bool (Low row) (level + tolerance_range) = true)
        by (apply Qle_bool_iff; lra).
      assert (E2 : Qle_bool (level - tolerance_range) (High row) = true)
        by (apply Qle_bool_iff; lra).
      rewrite E1, E2. cbn [andb]. lia.
    + destruct (_ && _); lia.
Qed.

(** X10.  [_calculate_price_level_strength], [_count_price_touches]: on a
    table that is not empty and whose bars have their low at or below their
    high, the strength of a level lies between 0 and 1, and strength times
    the number of bars never exceeds the touch count of the same level:
    every bar that adds to the strength is counted as a touch. *)
Theorem price_level_strength_within_touches (cfg : GannConfig) (data : list Bar)
    (level : Q) :
  data <> [] ->
  Forall (fun row => Low row <= High row) data ->
  0 <= _calculate_price_level_strength cfg data level <= 1 /\
  _calculate_price_level_strength cfg data level * inject_Z (Z.of_nat (length data))
    <= inject_Z (Z.of_nat (_count_price_touches cfg data level)).
Proof.
  intros Hne Hrows. unfold _calculate_price_level_strength, _count_price_touches.
  set (strength_step := fun (touches : nat) (row : Bar) => _).
  set (touch_step := fun (touches : nat) (row : Bar) => _).
  assert (Hlen : (1 <= length data)%nat) by (destruct data; [congruence|cbn; lia]).
  assert (Hstep : forall n x, strength_step n x = n \/ strength_step n x = S n).
  { intros n x. unfold strength_step.
    destruct (Qle_bool _ _); [now right|].
    destruct (Qle_bool _ _); [now right|now left]. }
  pose proof (count_steps_le strength_step data 0 Hstep) as Hcount.
  pose proof (strength_touches_le (level * tolerance cfg) level data 0 0 Hrows
                (Nat.le_refl 0)) as Hle.
  fold strength_step touch_step in Hle.
  assert (Hm : (fold_left strength_step data 0 <= length data)%nat) by lia.
  pose proof (ratio_bounds (fold_left strength_step data 0%nat) (length data)
                Hm Hlen) as [H0 H1].
  assert (Hpos : 0 < inject_Z (Z.of_nat (length data))).
  { replace 0 with (inject_Z 0) by reflexivity. rewrite <- Zlt_Qlt. lia. }
  split; [split|].
  - apply Q.min_glb; [exact H0|discriminate].
  - apply Q.le_min_r.
  - apply Qle_trans with (inject_Z (Z.of_nat (fold_left strength_step data 0%nat))).
    + apply Qle_trans with
        (inject_Z (Z.of_nat (fold_left strength_step data 0%nat))
         / inject_Z (Z.of_nat (length data)) * inject_Z (Z.of_nat (length data))).
      * apply Qmult_le_compat_r; [apply Q.le_min_l|now apply Qlt_le_weak].
      * rewrite Qmult_comm, Qmult_div_r; [apply Qle_refl|].
        intro E. rewrite E in Hpos. discriminate Hpos.
    + rewrite <- Zle_Qle. lia.
Qed.

(** X10, witness: the three bars of a sample table and the level 100. *)
Lemma price_level_strength_within_touches_witness :
  0 <= _calculate_price_level_strength default_gann_config Scenarios.calm_table 100 <= 1 /\
  _calculate_price_level_strength default_gann_config Scenarios.calm_table 100
    * inject_Z (Z.of_nat (length Scenarios.calm_table))
    <= inject_Z (Z.of_nat (_count_price_touches default_gann_config
                             Scenarios.calm_table 100)).
Proof.
  apply (price_level_strength_within_touches default_gann_config
           Scenarios.calm_table 100).
  - discriminate.
  - each_element; discriminate.
Defined.

(** The two variables of the position scan after the levels [seen]. *)
Lemma position_step_invariant (price : Q) (seen : list PriceCycle)
    (state : option PriceCycle * option PriceCycle) (x : PriceCycle) :
  greatest_below price seen (fst state) /\ least_above price seen (snd state) ->
  greatest_below price (seen ++ [x]) (fst (position_step price state x)) /\
  least_above price (seen ++ [x]) (snd (position_step price state x)).
Proof.
  destruct state as [ns nr]. cbn [fst snd]. intros [Hs Hr].
  assert (Hkeep_s : ~ pc_level x < price \/
                    (exists s, ns = Some s /\ pc_level x <= pc_level s) ->
                    greatest_below price (seen ++ [x]) ns).
  { intros Hx. destruct ns as [s|]; cbn in *.
    - destruct Hs as (Hin & Hlt & Hmax). split; [apply in_or_app; now left|].
      split; [exact Hlt|]. intros c Hc Hcl. apply in_app_or in Hc.
      destruct Hc as [Hc|[<-|[]]]; [now apply Hmax|].
      destruct Hx as [Hx|(s' & Es & Hx)]; [contradiction|].
      injection Es as <-. exact Hx.
    - intros c Hc. apply in_app_or in Hc. destruct Hc as [Hc|[<-|[]]]; [now apply Hs|].
      destruct Hx as [Hx|(s' & Es & _)]; [exact Hx|discriminate]. }
  assert (Hkeep_r : ~ price < pc_level x \/
                    (exists r, nr = Some r /\ pc_level r <= pc_level x) ->
                    least_above price (seen ++ [x]) nr).
  { intros Hx. destruct nr as [r|]; cbn in *.
    - destruct Hr as (Hin & Hlt & Hmin). split; [apply in_or_app; now left|].
      split; [exact Hlt|]. intros c Hc Hcl. apply in_app_or in Hc.
      destruct Hc as [Hc|[<-|[]]]; [now apply Hmin|].
      destruct Hx as [Hx|(r' & Er & Hx)]; [contradiction|].
      injection Er as <-. exact Hx.
    - intros c Hc. apply in_app_or in Hc. destruct Hc as [Hc|[<-|[]]]; [now apply Hr|].
      destruct Hx as [Hx|(r' & Er & _)]; [exact Hx|discriminate]. }
  unfold position_step.
  destruct (Qlt_bool (pc_level x) price) eqn:Elow.
  - apply Qlt_bool_iff in Elow.
    assert (Hnot : ~ price < pc_level x) by (intro; lra).
    destruct ns as [s|]; cbn [andb].
    + destruct (Qlt_bool (pc_level s) (pc_level x)) eqn:Ebetter; cbn [fst snd].
      * apply Qlt_bool_iff in Ebetter. split; [|apply Hkeep_r; now left].
        cbn in Hs |- *. destruct Hs as (Hin & Hlt & Hmax).
        split; [apply in_or_app; right; now left|]. split; [exact Elow|].
        intros c Hc Hcl. apply in_app_or in Hc.
        destruct Hc as [Hc|[<-|[]]]; [|apply Qle_refl].
        apply Qle_trans with (pc_level s); [now apply Hmax|now apply Qlt_le_weak].
      * assert (Ex : Qlt_bool price (pc_level x) = false).
        { destruct (Qlt_bool price (pc_level x)) eqn:E; [|reflexivity].
          apply Qlt_bool_iff in E. contradiction. }
        rewrite Ex. cbn [andb fst snd].
        split; [|apply Hkeep_r; now left].
        apply Hkeep_s. right. exists s. split; [reflexivity|].
        apply Qnot_lt_le. intro H. apply Qlt_bool_iff in H. congruence.
    + cbn [fst snd]. split; [|apply Hkeep_r; now left].
      cbn in Hs |- *. split; [apply in_or_app; right; now left|].
      split; [exact Elow|]. intros c Hc Hcl. apply in_app_or in Hc.
      destruct Hc as [Hc|[<-|[]]]; [|apply Qle_refl].
      exfalso. now apply (Hs c Hc).
  - assert (Hnot : ~ pc_level x < price).
    { intro H. apply Qlt_bool_iff in H. congruence. }
    cbn [andb].
    destruct (Qlt_bool price (pc_level x)) eqn:Ehigh; cbn [andb].
    + apply Qlt_bool_iff in Ehigh.
      destruct nr as [r|].
      * destruct (Qlt_bool (pc_level x) (pc_level r)) eqn:Ebetter; cbn [fst snd].
        -- apply Qlt_bool_iff in Ebetter. split; [apply Hkeep_s; now left|].
           cbn in Hr |- *. destruct Hr as (Hin & Hlt & Hmin).
           split; [apply in_or_app; right; now left|]. split; [exact Ehigh|].
           intros c Hc Hcl. apply in_app_or in Hc.
           destruct Hc as [Hc|[<-|[]]]; [|apply Qle_refl].
           apply Qle_trans with (pc_level r); [now apply Qlt_le_weak|now apply Hmin].
        -- split; [apply Hkeep_s; now left|].
           apply Hkeep_r. right. exists r. split; [reflexivity|].
           apply Qnot_lt_le. intro H. apply Qlt_bool_iff in H. congruence.
      * cbn [fst snd]. split; [apply Hkeep_s; now left|].
        cbn in Hr |- *. split; [apply in_or_app; right; now left|].
        split; [exact Ehigh|]. intros c Hc Hcl. apply in_app_or in Hc.
        destruct Hc as [Hc|[<-|[]]]; [|apply Qle_refl].
        exfalso. now apply (Hr c Hc).
    + cbn [fst snd]. split; [apply Hkeep_s; now left|].
      apply Hkeep_r. left. intro H. apply Qlt_bool_iff in H. congruence.
Qed.

Lemma position_fold_invariant (price : Q) (rest seen : list PriceCycle)
    (state : option PriceCycle * option PriceCycle) :
  greatest_below price seen (fst state) /\ least_above price seen (snd state) ->
  greatest_below price (seen ++ rest)
    (fst (fold_left (position_step price) rest state)) /\
  least_above price (seen ++ rest)
    (snd (fold_left (position_step price) rest state)).
Proof.
  revert seen state. induction rest as [|x rest IH]; intros seen state H; cbn.
  - now rewrite app_nil_r.
  - replace (seen ++ x :: rest) with ((seen ++ [x]) ++ rest)
      by (now rewrite <- app_assoc).
    apply IH. now apply position_step_invariant.
Qed.

(** X11.  [_analyze_current_price_position]: for any list of price levels,
    [nearest_support] is the dearest level strictly below the last close
    and [nearest_resistance] the cheapest level strictly above it, whatever
    the type written on the level; each is [None] exactly when there is no
    level on that side. *)
Theorem nearest_levels_bracket_price (data : list Bar) (price_cycles : list PriceCycle) :
  greatest_below (current_close data) price_cycles
    (pos_nearest_support (_analyze_current_price_position data price_cycles)) /\
  least_above (current_close data) price_cycles
    (pos_nearest_resistance (_analyze_current_price_position data price_cycles)).
Proof.
  unfold _analyze_current_price_position.
  pose proof (position_fold_invariant (current_close data) price_cycles []
                (None, None)) as H.
  destruct (fold_left _ price_cycles (None, None)) as [ns nr].
  cbn [pos_nearest_support pos_nearest_resistance fst snd app] in *.
  apply H. split; intros c [].
Qed.

(** ** The Gann square *)

Lemma square_position_loop_bounds (price : Q) (previous : option SquareLevel)
    (levels : list SquareLevel) :
  match previous with Some lower => sq_price lower <= price | None => True end ->
  0 <= sp_position_pct (square_position_loop price previous levels) < 1 /\
  sp_current_price (square_position_loop price previous levels) = price /\
  within_interval (square_position_loop price previous levels).
Proof.
  revert previous. induction levels as [|level rest IH]; intros previous Hprev;
    cbn [square_position_loop].
  - cbn. repeat split; (apply Qle_refl || reflexivity).
  - destruct (Qlt_bool price (sq_price level)) eqn:E.
    + apply Qlt_bool_iff in E. destruct previous as [lower|].
      * unfold within_interval. cbn. split; [|split; [reflexivity|split; assumption]].
        assert (Hpos : 0 < sq_price level - sq_price lower) by lra.
        split.
        -- apply Qle_shift_div_l; [exact Hpos|]. lra.
        -- apply Qlt_shift_div_r; [exact Hpos|]. lra.
      * cbn. repeat split; (apply Qle_refl || reflexivity).
    + apply IH. cbn. apply Qnot_lt_le. intro H. apply Qlt_bool_iff in H. congruence.
Qed.

(** X12.  [_analyze_square_position]: for any list of square levels and any
    price, the reported [position_pct] is at least 0 and strictly below 1.
    When an interval is reported, the price lies at or above its lower level
    and strictly below its upper level, and the division in the formula is
    by a positive number; when none is reported (no level above the price,
    or the first level already above it) the position is 0. *)
Theorem square_position_within_unit (current_price : Q)
    (square_levels : list SquareLevel) :
  0 <= sp_position_pct (_analyze_square_position current_price square_levels) < 1 /\
  sp_current_price (_analyze_square_position current_price square_levels)
    = current_price /\
  within_interval (_analyze_square_position current_price square_levels).
Proof.
  unfold _analyze_square_position. now apply square_position_loop_bounds.
Qed.

(** ** Angle lines at the last bar *)

Lemma angle_support_step_invariant (price : Q) (day : Z) (seen : list AngleLine)
    (best : option CurrentAngle) (x : AngleLine) :
  nearest_line_below price day seen best ->
  nearest_line_below price day (seen ++ [x]) (angle_support_step price day best x).
Proof.
  intros Hbest.
  assert (Hkeep : (drawn_before low day x -> line_price_on x day < price ->
                   exists b, best = Some b /\ line_price_on x day <= cur_price b) ->
                  nearest_line_below price day (seen ++ [x]) best).
  { intros Hx. destruct best as [b|]; cbn in *.
    - destruct Hbest as (Hin & Hdrawn & Hprice & Hdist & Hlt & Hmax).
      repeat split; try assumption; try (now destruct Hdrawn).
      + apply in_or_app. now left.
      + intros line Hline Hd Hl. apply in_app_or in Hline.
        destruct Hline as [Hline|[<-|[]]]; [now apply Hmax|].
        destruct (Hx Hd Hl) as (b' & Eb & Hle). injection Eb as <-. exact Hle.
    - intros line Hline Hd Hl. apply in_app_or in Hline.
      destruct Hline as [Hline|[<-|[]]]; [now apply (Hbest line)|].
      destruct (Hx Hd Hl) as (b' & Eb & _). discriminate. }
  unfold angle_support_step.
  destruct (al_point_type x) eqn:Etype.
  - apply Hkeep. intros [Hd _]. congruence.
  - destruct (al_start_date x <? day)%Z eqn:Eday.
    + apply Z.ltb_lt in Eday.
      destruct (Qlt_bool (line_price_on x day) price) eqn:Ebelow.
      * apply Qlt_bool_iff in Ebelow.
        destruct best as [b|].
        -- destruct (Qlt_bool (price - line_price_on x day) (cur_distance b)) eqn:Ebetter.
           ++ apply Qlt_bool_iff in Ebetter. cbn in Hbest |- *.
              destruct Hbest as (Hin & Hdrawn & Hprice & Hdist & Hlt & Hmax).
              rewrite Hdist in Ebetter.
              repeat split; try assumption; try reflexivity.
              ** apply in_or_app. right. now left.
              ** intros line Hline Hd Hl. apply in_app_or in Hline.
                 destruct Hline as [Hline|[<-|[]]]; [|apply Qle_refl].
                 apply Qle_trans with (cur_price b); [now apply Hmax|lra].
           ++ apply Hkeep. intros _ _. exists b. split; [reflexivity|].
              cbn in Hbest. destruct Hbest as (_ & _ & _ & Hdist & _ & _).
              rewrite Hdist in Ebetter.
              assert (~ price - line_price_on x day < price - cur_price b).
              { intro H. apply Qlt_bool_iff in H. congruence. }
              lra.
        -- cbn in Hbest |- *.
           repeat split; try assumption; try reflexivity.
           ** apply in_or_app. right. now left.
           ** intros line Hline Hd Hl. apply in_app_or in Hline.
              destruct Hline as [Hline|[<-|[]]]; [|apply Qle_refl].
              exfalso. now apply (Hbest line).
      * apply Hkeep. intros _ Hl. apply Qlt_bool_iff in Hl. congruence.
    + apply Hkeep. intros [_ Hd] _. apply Z.ltb_lt in Hd. congruence.
Qed.

Lemma angle_resistance_step_invariant (price : Q) (day : Z) (seen : list AngleLine)
    (best : option CurrentAngle) (x : AngleLine) :
  nearest_line_above price day seen best ->
  nearest_line_above price day (seen ++ [x]) (angle_resistance_step price day best x).
Proof.
  intros Hbest.
  assert (Hkeep : (drawn_before high day x -> price < line_price_on x day ->
                   exists b, best = Some b /\ cur_price b <= line_price_on x day) ->
                  nearest_line_above price day (seen ++ [x]) best).
  { intros Hx. destruct best as [b|]; cbn in *.
    - destruct Hbest as (Hin & Hdrawn & Hprice & Hdist & Hlt & Hmax).
      repeat split; try assumption; try (now destruct Hdrawn).
      + apply in_or_app. now left.
      + intros line Hline Hd Hl. apply in_app_or in Hline.
        destruct Hline as [Hline|[<-|[]]]; [now apply Hmax|].
        destruct (Hx Hd Hl) as (b' & Eb & Hle). injection Eb as <-. exact Hle.
    - intros line Hline Hd Hl. apply in_app_or in Hline.
      destruct Hline as [Hline|[<-|[]]]; [now apply (Hbest line)|].
      destruct (Hx Hd Hl) as (b' & Eb & _). discriminate. }
  unfold angle_resistance_step.
  destruct (al_point_type x) eqn:Etype.
  - destruct (al_start_date x <? day)%Z eqn:Eday.
    + apply Z.ltb_lt in Eday.
      destruct (Qlt_bool price (line_price_on x day)) eqn:Eabove.
      * apply Qlt_bool_iff in Eabove.
        destruct best as [b|].
        -- destruct (Qlt_bool (line_price_on x day - price) (cur_distance b)) eqn:Ebetter.
           ++ apply Qlt_bool_iff in Ebetter. cbn in Hbest |- *.
              destruct Hbest as (Hin & Hdrawn & Hprice & Hdist & Hlt & Hmax).
              rewrite Hdist in Ebetter.
              repeat split; try assumption; try reflexivity.
              ** apply in_or_app. right. now left.
              ** intros line Hline Hd Hl. apply in_app_or in Hline.
                 destruct Hline as [Hline|[<-|[]]]; [|apply Qle_refl].
                 apply Qle_trans with (cur_price b); [lra|now apply Hmax].
           ++ apply Hkeep. intros _ _. exists b. split; [reflexivity|].
              cbn in Hbest. destruct Hbest as (_ & _ & _ & Hdist & _ & _).
              rewrite Hdist in Ebetter.
              assert (~ line_price_on x day - price < cur_price b - price).
              { intro H. apply Qlt_bool_iff in H. congruence. }
              lra.
        -- cbn in Hbest |- *.
           repeat split; try assumption; try reflexivity.
           ** apply in_or_app. right. now left.
           ** intros line Hline Hd Hl. apply in_app_or in Hline.
              destruct Hline as [Hline|[<-|[]]]; [|apply Qle_refl].
              exfalso. now apply (Hbest line).
      * apply Hkeep. intros _ Hl. apply Qlt_bool_iff in Hl. congruence.
    + apply Hkeep. intros [_ Hd] _. apply Z.ltb_lt in Hd. congruence.
  - apply Hkeep. intros [Hd _]. congruence.
Qed.

Lemma fold_left_invariant {A S} (Inv : list A -> S -> Prop) (step : S -> A -> S) :
  (forall seen state x, Inv seen state -> Inv (seen ++ [x]) (step state x)) ->
  forall rest seen state, Inv seen state ->
    Inv (seen ++ rest) (fold_left step rest state).
Proof.
  intros Hstep rest. induction rest as [|x rest IH]; intros seen state H; cbn.
  - now rewrite app_nil_r.
  - replace (seen ++ x :: rest) with ((seen ++ [x]) ++ rest)
      by (now rewrite <- app_assoc).
    apply IH. now apply Hstep.
Qed.

Lemma current_angle_lines_spec (data : list Bar) (lines : list AngleLine) :
  nearest_line_below (current_close data) (current_day data) lines
    (_find_current_angle_support data lines) /\
  nearest_line_above (current_close data) (current_day data) lines
    (_find_current_angle_resistance data lines).
Proof.
  split.
  - unfold _find_current_angle_support.
    apply (fold_left_invariant
             (nearest_line_below (current_close data) (current_day data))
             (angle_support_step (current_close data) (current_day data))
             (angle_support_step_invariant _ _) lines [] None).
    intros line [].
  - unfold _find_current_angle_resistance.
    apply (fold_left_invariant
             (nearest_line_above (current_close data) (current_day data))
             (angle_resistance_step (current_close data) (current_day data))
             (angle_resistance_step_invariant _ _) lines [] None).
    intros line [].
Qed.

(** X13.  [_find_current_angle_support], [_find_current_angle_resistance]:
    the support returned is a line drawn from a low before the last bar
    whose price on the day of the last bar, by calendar days, is strictly
    below the last close, and no other such line runs nearer to the close;
    there is none exactly when no line from a low runs below the close.  The
    resistance is the mirror image among the lines drawn from highs. *)
Theorem current_angle_lines_are_nearest (data : list Bar) (lines : list AngleLine) :
  nearest_line_below (current_close data) (current_day data) lines
    (_find_current_angle_support data lines) /\
  nearest_line_above (current_close data) (current_day data) lines
    (_find_current_angle_resistance data lines).
Proof. apply current_angle_lines_spec. Qed.

(** ** Key levels *)

Lemma StronglySorted_impl {A} (R R' : A -> A -> Prop) (l : list A) :
  (forall a b, R a b -> R' a b) -> StronglySorted R l -> StronglySorted R' l.
Proof.
  intros Himpl Hs. induction Hs as [|a l Hs IH Hall]; constructor; [exact IH|].
  apply Forall_forall. intros b Hb. rewrite Forall_forall in Hall.
  apply Himpl. now apply Hall.
Qed.

Lemma hd_error_firstn {A} (n : nat) (l : list A) :
  hd_error (firstn (S n) l) = hd_error l.
Proof. destruct l; reflexivity. Qed.

Lemma firstn_length_le {A} (n : nat) (l : list A) : (length (firstn n l) <= n)%nat.
Proof. rewrite length_firstn. lia. Qed.

Lemma StronglySorted_app_cross {A} (R : A -> A -> Prop) (l1 l2 : list A) :
  StronglySorted R (l1 ++ l2) -> forall a b, In a l1 -> In b l2 -> R a b.
Proof.
  induction l1 as [|x l1 IH]; cbn; intros Hs a b Ha Hb; [destruct Ha|].
  apply StronglySorted_inv in Hs. destruct Hs as [Hs Hx].
  destruct Ha as [<-|Ha]; [|now apply IH].
  rewrite Forall_forall in Hx. apply Hx. apply in_or_app. now right.
Qed.

(** Of a list sorted by [key] and cut at [n], an element of the list is
    either kept or no nearer than any of the [n] kept. *)
Lemma firstn_sorted_by_complete {A} (key : A -> Q) (n : nat) (l : list A) (x : A) :
  In x l ->
  In x (firstn n (sorted_by key l)) \/
  (length (firstn n (sorted_by key l)) = n /\
   forall y, In y (firstn n (sorted_by key l)) -> key y <= key x).
Proof.
  intros Hx. apply (sorted_by_In key) in Hx.
  pose proof (sorted_by_sorted key l) as Hs.
  rewrite <- (firstn_skipn n (sorted_by key l)) in Hx, Hs.
  apply in_app_or in Hx. destruct Hx as [Hx|Hx]; [now left|]. right. split.
  - rewrite length_firstn. apply Nat.min_l.
    destruct (Nat.le_gt_cases n (length (sorted_by key l))) as [Hle|Hgt]; [exact Hle|].
    rewrite skipn_all2 in Hx by lia. destruct Hx.
  - intros y Hy. exact (StronglySorted_app_cross _ _ _ Hs y x Hy Hx).
Qed.

(** X14.  [_calculate_key_levels]: whatever the table, the tolerance, the
    square-root function and the order in which the interpreter lists a
    set, the key supports are records of the clustering of the candidate
    levels that lie strictly below the last close, and the key resistances
    records of it that lie strictly above (a level equal to the close is in
    neither).  Each list has at most five entries, ordered by distance from
    the close, nearest first, and they are the nearest: a clustered level
    below the close that is not a key support is no nearer than any of the
    five key supports, and likewise above.  [strongest_support] and
    [strongest_resistance] are the first entries of the two lists, that is
    the nearest levels, whatever their strength. *)
Theorem key_levels_nearest_first (math_sqrt : Q -> Q)
    (list_set : list string -> list string) (cfg : GannConfig) (data : list Bar) :
  let r := calculate_key_levels_body math_sqrt list_set cfg data in
  let clustered :=
    _merge_similar_levels_in list_set (tolerance cfg)
      (candidate_levels math_sqrt cfg data) in
  let price := current_close data in
  (forall s, In s (key_supports r) -> In s clustered /\ m_price s < price) /\
  (forall s, In s (key_resistances r) -> In s clustered /\ price < m_price s) /\
  (forall m, In m clustered -> m_price m < price ->
     In m (key_supports r) \/
     (length (key_supports r) = 5%nat /\
      forall s, In s (key_supports r) -> m_price m <= m_price s)) /\
  (forall m, In m clustered -> price < m_price m ->
     In m (key_resistances r) \/
     (length (key_resistances r) = 5%nat /\
      forall s, In s (key_resistances r) -> m_price s <= m_price m)) /\
  StronglySorted (fun a b => m_price b <= m_price a) (key_supports r) /\
  StronglySorted (fun a b => m_price a <= m_price b) (key_resistances r) /\
  (length (key_supports r) <= 5)%nat /\
  (length (key_resistances r) <= 5)%nat /\
  strongest_support r = hd_error (key_supports r) /\
  strongest_resistance r = hd_error (key_resistances r).
Proof.
  intros r clustered price. unfold r, calculate_key_levels_body.
  cbn [key_supports key_resistances strongest_support strongest_resistance].
  change (_find_historical_key_levels cfg data
          ++ _calculate_gann_price_levels math_sqrt cfg data
          ++ _calculate_fibonacci_levels cfg data)
    with (candidate_levels math_sqrt cfg data).
  fold clustered price.
  split; [|split; [|split; [|split; [|split; [|split; [|split; [|split; [|split]]]]]]]].
  - intros s Hs. apply In_firstn in Hs.
    apply sorted_by_In, filter_In in Hs. destruct Hs as [Hin Hs].
    split; [exact Hin|now apply Qlt_bool_iff in Hs].
  - intros s Hs. apply In_firstn in Hs.
    apply sorted_by_In, filter_In in Hs. destruct Hs as [Hin Hs].
    split; [exact Hin|now apply Qlt_bool_iff in Hs].
  - intros m Hm Hbelow.
    destruct (firstn_sorted_by_complete (fun x => price - m_price x) 5
                (filter (fun level => Qlt_bool (m_price level) price) clustered) m)
      as [Hin|[Hlen Hnear]].
    + apply filter_In. split; [exact Hm|now apply Qlt_bool_iff].
    + now left.
    + right. split; [exact Hlen|]. intros s Hs. specialize (Hnear s Hs).
      cbn beta in Hnear. lra.
  - intros m Hm Habove.
    destruct (firstn_sorted_by_complete (fun x => m_price x - price) 5
                (filter (fun level => Qlt_bool price (m_price level)) clustered) m)
      as [Hin|[Hlen Hnear]].
    + apply filter_In. split; [exact Hm|now apply Qlt_bool_iff].
    + now left.
    + right. split; [exact Hlen|]. intros s Hs. specialize (Hnear s Hs).
      cbn beta in Hnear. lra.
  - apply StronglySorted_firstn.
    apply (StronglySorted_impl
             (fun a b => price - m_price a <= price - m_price b));
      [intros a b H; lra|apply sorted_by_sorted].
  - apply StronglySorted_firstn.
    apply (StronglySorted_impl
             (fun a b => m_price a - price <= m_price b - price));
      [intros a b H; lra|apply sorted_by_sorted].
  - apply firstn_length_le.
  - apply firstn_length_le.
  - now rewrite hd_error_firstn.
  - now rewrite hd_error_firstn.
Qed.

(** ** Resonance *)

Lemma consecutive_differences_sum (f : nat -> Z) (n : nat) (acc : Z) :
  fold_left Z.add (map (fun i => (f (i - 1)%nat - f i)%Z) (seq 1 n)) acc
  = (acc + f 0%nat - f n)%Z.
Proof.
  induction n as [|n IH].
  - cbn. lia.
  - rewrite seq_S, map_app, fold_left_app, IH. cbn.
    replace (n - 0)%nat with n by lia. lia.
Qed.

Lemma nth_last_element {A} (l : list A) (d : A) :
  nth (length l - 1) l d = last l d.
Proof.
  induction l as [|x l IH]; [reflexivity|].
  destruct l as [|y l]; [reflexivity|].
  cbn [length last] in *. rewrite <- IH.
  replace (S (S (length l)) - 1)%nat with (S (S (length l) - 1)) by lia.
  reflexivity.
Qed.

Lemma py_int_ratio (a : Z) (p : positive) :
  py_int (inject_Z a / inject_Z (Zpos p)) = Z.quot a (Zpos p).
Proof.
  unfold py_int, Qdiv, Qmult, Qinv, inject_Z. cbn.
  now rewrite Z.mul_1_r.
Qed.

Lemma predict_next_resonance_some (data : list Bar)
    (resonance_points : list ResonancePoint) (n : nat) :
  length resonance_points = S (S n) ->
  _predict_next_resonance data resonance_points =
    let interval :=
      Z.quot (rp_date (hd no_resonance resonance_points)
              - rp_date (last resonance_points no_resonance))
             (Z.of_nat (S n)) in
    Some (mkNextResonance (current_day data + interval)%Z interval
            (current_close data * (1 + 0.1)) (current_close data * (1 - 0.1))
            (Qmin (inject_Z (Z.of_nat (S (S n))) / 10) 1)).
Proof.
  intros El. unfold _predict_next_resonance, range. rewrite El.
  replace (S (S n) <? 2)%nat with false by (symmetry; apply Nat.ltb_ge; lia).
  replace (S (S n) - 1)%nat with (S n) by lia.
  set (f := fun i => rp_date (nth i resonance_points no_resonance)).
  change (map _ (seq 1 (S n)))
    with (map (fun i => (f (i - 1)%nat - f i)%Z) (seq 1 (S n))).
  assert (Hsum : fold_left Z.add
                   (map (fun i => (f (i - 1)%nat - f i)%Z) (seq 1 (S n))) 0%Z
                 = (rp_date (hd no_resonance resonance_points)
                    - rp_date (last resonance_points no_resonance))%Z).
  { rewrite consecutive_differences_sum. unfold f.
    rewrite <- (nth_last_element resonance_points no_resonance), El.
    replace (S (S n) - 1)%nat with (S n) by lia.
    destruct resonance_points; [discriminate|]. cbn [nth hd]. lia. }
  assert (Hlen : length (map (fun i => (f (i - 1)%nat - f i)%Z) (seq 1 (S n))) = S n)
    by (now rewrite length_map, length_seq).
  destruct (map (fun i => (f (i - 1)%nat - f i)%Z) (seq 1 (S n))) as [|x l] eqn:Em;
    [discriminate Hlen|].
  rewrite Hsum, Hlen. cbv zeta.
  replace (Z.of_nat (S n)) with (Zpos (Pos.of_succ_nat n))
    by (now rewrite Zpos_P_of_succ_nat, Nat2Z.inj_succ).
  now rewrite py_int_ratio.
Qed.

(** X15.  [_predict_next_resonance]: there is no prediction exactly when
    fewer than two resonance points are given.  Otherwise the interval
    between consecutive points telescopes: [days_ahead] is the date of the
    first point minus the date of the last one, divided by the number of
    points less one and truncated towards zero (so it is negative when the
    first point is the older one), the predicted date is that many days
    after the last bar, and the confidence lies above 0 and at most 1. *)
Theorem next_resonance_from_first_and_last (data : list Bar)
    (resonance_points : list ResonancePoint) :
  (_predict_next_resonance data resonance_points = None <->
   (length resonance_points < 2)%nat) /\
  forall r, _predict_next_resonance data resonance_points = Some r ->
    days_ahead r =
      Z.quot (rp_date (hd no_resonance resonance_points)
              - rp_date (last resonance_points no_resonance))
             (Z.of_nat (length resonance_points) - 1) /\
    predicted_date r = (current_day data + days_ahead r)%Z /\
    0 < nr_confidence r <= 1.
Proof.
  destruct (length resonance_points) as [|[|n]] eqn:El.
  - unfold _predict_next_resonance. rewrite El. cbn.
    split; [split; [lia|reflexivity]|discriminate].
  - unfold _predict_next_resonance. rewrite El. cbn.
    split; [split; [lia|reflexivity]|discriminate].
  - rewrite (predict_next_resonance_some data resonance_points n El). cbv zeta.
    split; [split; [discriminate|lia]|].
    intros r [= <-]. cbn [days_ahead predicted_date nr_confidence].
    replace (Z.of_nat (S (S n)) - 1)%Z with (Z.of_nat (S n)) by lia.
    split; [reflexivity|]. split; [reflexivity|].
    split.
    + apply Q.min_glb_lt; [|reflexivity].
      apply Qlt_shift_div_l; [reflexivity|].
      replace (0 * 10) with (inject_Z 0) by reflexivity. rewrite <- Zlt_Qlt. lia.
    + apply Q.le_min_r.
Qed.

(** ** Predictions *)

Lemma insert_by_desc_head {A} (key : A -> Q) (x : A) (l : list A) :
  Forall (fun y => key y <= key x) l -> insert_by_desc key x l = x :: l.
Proof.
  intros Hall. destruct l as [|y l]; [reflexivity|]. cbn.
  apply Forall_inv in Hall. apply Qle_bool_iff in Hall. now rewrite Hall.
Qed.

Lemma filter_insert_by_desc {A} (key : A -> Q) (P : A -> bool) (x : A) (l : list A) :
  StronglySorted (fun a b => key b <= key a) l ->
  filter P (insert_by_desc key x l) =
    if P x then insert_by_desc key x (filter P l) else filter P l.
Proof.
  induction l as [|z l IH]; intros Hs; cbn.
  - destruct (P x); reflexivity.
  - apply StronglySorted_inv in Hs. destruct Hs as [Hs Hz].
    destruct (Qle_bool (key z) (key x)) eqn:E; cbn.
    + apply Qle_bool_iff in E. destruct (P x) eqn:Px; [|reflexivity].
      symmetry. apply insert_by_desc_head.
      destruct (P z).
      * constructor; [exact E|].
        apply Forall_forall. intros y Hy. apply filter_In in Hy. destruct Hy as [Hy _].
        rewrite Forall_forall in Hz. apply Qle_trans with (key z); [now apply Hz|exact E].
      * apply Forall_forall. intros y Hy. apply filter_In in Hy. destruct Hy as [Hy _].
        rewrite Forall_forall in Hz. apply Qle_trans with (key z); [now apply Hz|exact E].
    + rewrite (IH Hs). destruct (P z) eqn:Pz; destruct (P x) eqn:Px; cbn;
        try reflexivity.
      now rewrite E.
Qed.

Lemma filter_sorted_by_desc {A} (key : A -> Q) (P : A -> bool) (l : list A) :
  filter P (sorted_by_desc key l) = sorted_by_desc key (filter P l).
Proof.
  induction l as [|x l IH]; [reflexivity|]. cbn [sorted_by_desc fold_right filter].
  rewrite filter_insert_by_desc by apply sorted_by_desc_sorted.
  fold (sorted_by_desc key l). rewrite IH.
  destruct (P x); reflexivity.
Qed.

Lemma price_target_fold_idle (l : list GannPrediction) (state : Q * Q) :
  fold_left (price_target_step _current_price) l state = state.
Proof.
  revert state. induction l as [|p l IH]; intros state; [reflexivity|].
  cbn [fold_left]. rewrite <- (IH state) at 2. f_equal.
  unfold price_target_step. destruct state as [u d].
  destruct (gp_target_price p); [|reflexivity].
  now rewrite andb_false_r.
Qed.

Lemma time_cycle_predictions_idle (time_analysis : TimeAnalysis) :
  filter counts_up (_predict_by_time_cycles time_analysis) = [] /\
  filter counts_down (_predict_by_time_cycles time_analysis) = [].
Proof.
  unfold _predict_by_time_cycles.
  induction (next_time_windows time_analysis) as [|w l [IHu IHd]]; [split; reflexivity|].
  cbn. split; assumption.
Qed.

(** X16.  [_combine_predictions]: time-cycle predictions never bear on the
    trend.  Combined with any price and angle predictions, the predictions
    of [_predict_by_time_cycles] leave [up_strength], [down_strength],
    [trend_strength], [overall_trend] and [direction] exactly as they are
    without them, however strong the cycles are; the branch that would
    judge targets against [_current_price] changes nothing either, the
    attribute being unset. *)
Theorem time_cycle_predictions_never_vote (time_analysis : TimeAnalysis)
    (price_pred angle_pred : list GannPrediction) :
  let with_cycles :=
    _combine_predictions (_predict_by_time_cycles time_analysis) price_pred angle_pred in
  let without_cycles := _combine_predictions [] price_pred angle_pred in
  up_strength with_cycles = up_strength without_cycles /\
  down_strength with_cycles = down_strength without_cycles /\
  trend_strength with_cycles = trend_strength without_cycles /\
  overall_trend with_cycles = overall_trend without_cycles /\
  cp_direction with_cycles = cp_direction without_cycles /\
  up_strength without_cycles
    = Qsum (map gp_strength
              (filter counts_up (sorted_by_desc gp_strength (price_pred ++ angle_pred)))).
Proof.
  intros with_cycles without_cycles.
  assert (Hcombine : forall time_pred,
            filter counts_up time_pred = [] -> filter counts_down time_pred = [] ->
            let r := _combine_predictions time_pred price_pred angle_pred in
            let up := Qsum (map gp_strength
                         (filter counts_up
                            (sorted_by_desc gp_strength (price_pred ++ angle_pred)))) in
            let down := Qsum (map gp_strength
                         (filter counts_down
                            (sorted_by_desc gp_strength (price_pred ++ angle_pred)))) in
            up_strength r = up /\ down_strength r = down /\
            trend_strength r = Qmax up down /\
            (overall_trend r, cp_direction r) =
              (if Qlt_bool (down * 1.2) up then ("bullish", "上涨")
               else if Qlt_bool (up * 1.2) down then ("bearish", "下跌")
               else ("neutral", "neutral"))).
  { intros time_pred Hu Hd r up down. unfold r, _combine_predictions.
    rewrite !filter_sorted_by_desc, !filter_app, Hu, Hd. cbn [app].
    rewrite <- !filter_app, <- !filter_sorted_by_desc. fold up down.
    set (guard := _ && _ && _).
    assert (Hstate : (if guard
                      then fold_left (price_target_step _current_price)
                             (sorted_by_desc gp_strength
                                (time_pred ++ price_pred ++ angle_pred)) (up, down)
                      else (up, down)) = (up, down)).
    { destruct guard; [apply price_target_fold_idle|reflexivity]. }
    rewrite Hstate.
    destruct (Qlt_bool (down * 1.2) up); [repeat split|].
    destruct (Qlt_bool (up * 1.2) down); repeat split. }
  destruct (time_cycle_predictions_idle time_analysis) as [Hu Hd].
  destruct (Hcombine (_predict_by_time_cycles time_analysis) Hu Hd)
    as (U1 & D1 & T1 & O1).
  destruct (Hcombine [] eq_refl eq_refl) as (U0 & D0 & T0 & O0).
  fold with_cycles in U1, D1, T1, O1. fold without_cycles in U0, D0, T0, O0.
  rewrite <- O0 in O1. injection O1 as O1 C1.
  rewrite U1, D1, T1, U0, D0, T0. repeat split; assumption.
Qed.

(* ================================================================== *)
(** * Properties of the trend and the trading signals *)

Import VolumePriceStages.

(** ** Trend *)

Lemma volume_trend_directions (data : list Bar) (vt : VolumeTrend) :
  _calculate_volume_trend data = Ok vt ->
  volume_direction vt = "increasing" \/ volume_direction vt = "decreasing" \/
  volume_direction vt = "stable".
Proof.
  unfold _calculate_volume_trend.
  destruct (if (5 <=? length data)%nat then _ else _) as [recent|e]; cbn [bind];
    [|discriminate].
  intros [= <-]. cbn [volume_direction].
  destruct (Qlt_bool 0.2 _); [now left|].
  destruct (Qlt_bool _ (-0.2)); [right; now left|right; now right].
Qed.

Lemma price_trend_directions (data : list Bar) :
  short_direction (_calculate_price_trend data) = "up" \/
  short_direction (_calculate_price_trend data) = "down" \/
  short_direction (_calculate_price_trend data) = "sideways".
Proof.
  unfold _calculate_price_trend. cbn [short_direction].
  destruct (Qlt_bool 0.02 _); [now left|].
  destruct (Qlt_bool _ (-0.02)); [right; now left|right; now right].
Qed.

(** X17.  [_analyze_volume_price_trend]: on a table of one to five rows
    the stage succeeds and its verdict is fixed, whatever the prices and
    volumes: the short trend is 0 and its direction sideways, the
    consistency is neutral with score 0.5, the sustainability is low, the
    strength level is weak and the overall trend is sideways. *)
Theorem short_table_trend_is_sideways (data : list Bar) :
  (1 <= length data <= 5)%nat ->
  exists r, analyze_volume_price_trend_body data = Ok r /\
    short_trend (ta_price_trend r) = 0 /\
    short_direction (ta_price_trend r) = "sideways" /\
    consistency (ta_trend_consistency r) = "neutral" /\
    consistency_score (ta_trend_consistency r) = 0.5 /\
    sustainability (ta_trend_sustainability r) = "low" /\
    strength_level (ta_trend_strength r) = "weak" /\
    ta_overall_trend r = "sideways".
Proof.
  intros Hlen. unfold analyze_volume_price_trend_body.
  assert (Hprice : _calculate_price_trend data
                   = mkPriceTrend 0 (close_change data 21) (close_change data 61)
                       "sideways" (Qabs 0)).
  { assert (H6 : close_change data 6 = 0).
    { unfold close_change.
      now replace (6 <=? length data)%nat with false
        by (symmetry; apply Nat.leb_gt; lia). }
    unfold _calculate_price_trend. rewrite H6. reflexivity. }
  rewrite Hprice.
  destruct (_calculate_volume_trend data) as [vt|e] eqn:Evt.
  - cbn [bind]. eexists. split; [reflexivity|].
    cbn [ta_price_trend ta_trend_consistency ta_trend_sustainability
         ta_trend_strength ta_overall_trend short_trend short_direction].
    repeat split.
    unfold _calculate_trend_strength. cbn [strength_level short_trend].
    set (vs := Qmin _ 1.0).
    assert (Hvs : vs <= 1).
    { apply Qle_trans with 1.0; [unfold vs; apply Q.le_min_r|discriminate]. }
    assert (H3 : Qlt_bool 3.0 (Qabs 0 * 100 * 0.7 + vs * 0.3) = false).
    { destruct (Qlt_bool 3.0 _) eqn:E; [|reflexivity].
      apply Qlt_bool_iff in E. change (Qabs 0) with 0 in E. lra. }
    assert (H1 : Qlt_bool 1.0 (Qabs 0 * 100 * 0.7 + vs * 0.3) = false).
    { destruct (Qlt_bool 1.0 _) eqn:E; [|reflexivity].
      apply Qlt_bool_iff in E. change (Qabs 0) with 0 in E. lra. }
    now rewrite H3, H1.
  - exfalso. unfold _calculate_volume_trend in Evt.
    destruct (5 <=? length data)%nat; [discriminate Evt|].
    destruct data as [|b data]; [cbn in Hlen; lia|]. discriminate Evt.
Qed.

(** X17, witness: a table of three bars. *)
Lemma short_table_trend_is_sideways_witness :
  exists r, analyze_volume_price_trend_body Scenarios.calm_table = Ok r /\
    short_trend (ta_price_trend r) = 0 /\
    short_direction (ta_price_trend r) = "sideways" /\
    consistency (ta_trend_consistency r) = "neutral" /\
    consistency_score (ta_trend_consistency r) = 0.5 /\
    sustainability (ta_trend_sustainability r) = "low" /\
    strength_level (ta_trend_strength r) = "weak" /\
    ta_overall_trend r = "sideways".
Proof.
  apply (short_table_trend_is_sideways Scenarios.calm_table). cbn. lia.
Defined.

(** X18.  [_analyze_trend_consistency], [_predict_trend_sustainability],
    [_determine_overall_trend], [_score_trend_consistency]: in a result of
    the trend stage the sustainability is high exactly when the overall
    trend is a strong uptrend (price up on increasing volume); a strong
    downtrend (price down on decreasing volume) has moderate
    sustainability, and every other trend has low sustainability.  The
    trend score that enters the comprehensive score is 100, 80 or at most
    50 accordingly. *)
Theorem sustainability_follows_overall_trend (data : list Bar) (r : TrendAnalysis) :
  analyze_volume_price_trend_body data = Ok r ->
  (ta_overall_trend r = "strong_uptrend" /\
   sustainability (ta_trend_sustainability r) = "high" /\
   _score_trend_consistency (trend_data_of (Some r)) == 100) \/
  (ta_overall_trend r = "strong_downtrend" /\
   sustainability (ta_trend_sustainability r) = "moderate" /\
   _score_trend_consistency (trend_data_of (Some r)) == 80) \/
  (In (ta_overall_trend r) ["weak_uptrend"; "weak_downtrend"; "sideways"] /\
   sustainability (ta_trend_sustainability r) = "low" /\
   _score_trend_consistency (trend_data_of (Some r)) <= 50).
Proof.
  unfold analyze_volume_price_trend_body.
  destruct (_calculate_volume_trend data) as [vt|e] eqn:Evt; cbn [bind];
    [|discriminate].
  intros [= <-].
  cbn [ta_overall_trend ta_trend_sustainability trend_data_of option_map
       ta_trend_consistency _score_trend_consistency trend_consistency].
  unfold _determine_overall_trend, _predict_trend_sustainability,
    _analyze_trend_consistency.
  destruct (price_trend_directions data) as [Hp|[Hp|Hp]];
    destruct (volume_trend_directions data vt Evt) as [Hv|[Hv|Hv]];
    rewrite Hp, Hv; cbn;
    first [ left; repeat split; reflexivity
          | right; left; repeat split; reflexivity
          | right; right; split; [tauto|split; [reflexivity|discriminate]] ].
Qed.

(** X18, witness: a table of three bars. *)
Lemma sustainability_follows_overall_trend_witness :
  exists r, analyze_volume_price_trend_body Scenarios.calm_table = Ok r /\
    ((ta_overall_trend r = "strong_uptrend" /\
      sustainability (ta_trend_sustainability r) = "high" /\
      _score_trend_consistency (trend_data_of (Some r)) == 100) \/
     (ta_overall_trend r = "strong_downtrend" /\
      sustainability (ta_trend_sustainability r) = "moderate" /\
      _score_trend_consistency (trend_data_of (Some r)) == 80) \/
     (In (ta_overall_trend r) ["weak_uptrend"; "weak_downtrend"; "sideways"] /\
      sustainability (ta_trend_sustainability r) = "low" /\
      _score_trend_consistency (trend_data_of (Some r)) <= 50)).
Proof.
  destruct (analyze_volume_price_trend_body Scenarios.calm_table) as [r|e] eqn:E;
    [|vm_compute in E; discriminate E].
  exists r. split; [reflexivity|].
  exact (sustainability_follows_overall_trend Scenarios.calm_table r E).
Defined.

(** ** Volume runs *)

Lemma forallb_range4 (P : nat -> bool) :
  forallb P (range 0 4) = true -> P 0%nat = true /\ P 1%nat = true /\
                                  P 2%nat = true /\ P 3%nat = true.
Proof.
  cbn. rewrite !andb_true_iff. tauto.
Qed.

(** X19.  [_identify_volume_decline_pattern],
    [_identify_volume_increase_pattern]: every decline pattern has a
    strength above 0.3 and at most 1, every increase pattern a strength
    above 0.5 and at most 2, and no five-bar window is reported both as a
    decline and as an increase, whatever the volumes. *)
Theorem volume_runs_exclusive_and_bounded (data : list Bar) :
  (forall p, In p (_identify_volume_decline_pattern data) ->
     pattern_type p = "volume_decline" /\ 0.3 < pattern_strength p <= 1) /\
  (forall p, In p (_identify_volume_increase_pattern data) ->
     pattern_type p = "volume_increase" /\ 0.5 < pattern_strength p <= 2) /\
  (forall i, decline_at data i = [] \/ increase_at data i = []).
Proof.
  split; [|split].
  - intros p Hp. unfold _identify_volume_decline_pattern in Hp.
    apply in_flat_map in Hp. destruct Hp as (i & _ & Hp).
    unfold decline_at in Hp.
    destruct (forallb _ _); [|destruct Hp].
    destruct (Qlt_bool 0.3 _) eqn:E; [|destruct Hp].
    destruct Hp as [<-|[]]. apply Qlt_bool_iff in E. cbn.
    split; [reflexivity|]. split.
    + apply Q.min_glb_lt; [exact E|reflexivity].
    + apply Qle_trans with 1.0; [apply Q.le_min_r|discriminate].
  - intros p Hp. unfold _identify_volume_increase_pattern in Hp.
    apply in_flat_map in Hp. destruct Hp as (i & _ & Hp).
    unfold increase_at in Hp.
    destruct (forallb _ _); [|destruct Hp].
    destruct (Qlt_bool 0.5 _) eqn:E; [|destruct Hp].
    destruct Hp as [<-|[]]. apply Qlt_bool_iff in E. cbn.
    split; [reflexivity|]. split.
    + apply Q.min_glb_lt; [exact E|reflexivity].
    + apply Qle_trans with 2.0; [apply Q.le_min_r|discriminate].
  - intros i. unfold decline_at, increase_at.
    set (v := recent_volumes_at data i).
    destruct (forallb (fun j => Qle_bool (nth (j + 1) v 0) (nth j v 0)) (range 0 4))
      eqn:Edown; [|now left].
    destruct (forallb (fun j => Qle_bool (nth j v 0) (nth (j + 1) v 0)) (range 0 4))
      eqn:Eup; [|now right].
    apply forallb_range4 in Edown, Eup. cbn [Nat.add] in Edown, Eup.
    destruct Edown as (D0 & D1 & D2 & D3). destruct Eup as (U0 & U1 & U2 & U3).
    apply Qle_bool_iff in D0, D1, D2, D3, U0, U1, U2, U3.
    assert (Hlast : from_end v 1 == nth 0 v 0).
    { unfold from_end.
      assert (Hlen : (length v <= 5)%nat).
      { unfold v, recent_volumes_at. rewrite length_firstn. lia. }
      destruct v as [|a [|b [|c [|d [|e [|f v']]]]]]; cbn in *; try lra; lia. }
    left.
    destruct (Qlt_bool 0.3 _) eqn:E; [|reflexivity].
    apply Qlt_bool_iff in E. exfalso.
    assert (Hzero : (nth 0 v 0 - from_end v 1) / nth 0 v 0 == 0).
    { rewrite Hlast. unfold Qdiv.
      setoid_replace (nth 0 v 0 - nth 0 v 0) with 0 by ring. ring. }
    rewrite Hzero in E. discriminate E.
Qed.

(** ** Trading signals *)

Lemma last_In_nonempty {A} (l : list A) (d : A) : l <> [] -> In (last l d) l.
Proof.
  induction l as [|x l IH]; [congruence|]. intros _.
  destruct l as [|y l]; [now left|]. right. apply IH. discriminate.
Qed.

Lemma current_strongest_signal_spec (signals : list TradingSignal) :
  (_get_current_strongest_signal signals = None <-> signals = []) /\
  forall s, _get_current_strongest_signal signals = Some s ->
    let newest := signal_date (last signals (mkTradingSignal 0 "" "" 0 0)) in
    In s signals /\ (newest - 5 <= signal_date s)%Z /\
    forall t, In t signals -> (newest - 5 <= signal_date t)%Z ->
      signal_score t <= signal_score s.
Proof.
  unfold _get_current_strongest_signal.
  destruct signals as [|s0 rest]; [split; [tauto|discriminate]|].
  set (signals := s0 :: rest).
  set (newest := signal_date (last signals _)).
  set (recent := filter _ signals).
  assert (Hlast : In (last signals (mkTradingSignal 0 "" "" 0 0)) recent).
  { apply filter_In. split; [apply last_In_nonempty; discriminate|].
    apply Z.leb_le. fold newest. lia. }
  destruct recent as [|r0 recent'] eqn:Er; [destruct Hlast|].
  rewrite <- Er in *. clear Hlast.
  pose proof (sorted_by_desc_sorted signal_score recent) as Hsorted.
  split.
  - split; [|discriminate]. intros Hnone. exfalso.
    destruct (sorted_by_desc signal_score recent) as [|x l] eqn:Es; [|discriminate].
    assert (Hin : In r0 (sorted_by_desc signal_score recent)).
    { apply sorted_by_desc_In. rewrite Er. now left. }
    rewrite Es in Hin. destruct Hin.
  - intros s Hs.
    assert (Hin : In s recent).
    { apply (sorted_by_desc_In signal_score).
      destruct (sorted_by_desc signal_score recent); [discriminate|].
      injection Hs as ->. now left. }
    unfold recent in Hin. apply filter_In in Hin. destruct Hin as [Hin Hdate].
    apply Z.leb_le in Hdate.
    split; [exact Hin|]. split; [exact Hdate|].
    intros t Ht Htd.
    apply (sorted_head_bounds (fun a b => signal_score b <= signal_score a)
             (sorted_by_desc signal_score recent) s);
      [intro; apply Qle_refl|exact Hsorted|exact Hs|].
    apply sorted_by_desc_In. apply filter_In. split; [exact Ht|].
    now apply Z.leb_le.
Qed.

(** X20.  [_get_current_strongest_signal]: the result is [None] exactly
    when the list is empty (the second test for an empty list can never
    succeed, since the last signal is always within five days of itself).
    Otherwise the result is one of the signals dated no more than five days
    before the last signal of the list, and none of those has a larger
    product of strength and confidence. *)
Theorem current_strongest_signal_is_recent_maximum (signals : list TradingSignal) :
  (_get_current_strongest_signal signals = None <-> signals = []) /\
  forall s, _get_current_strongest_signal signals = Some s ->
    let newest := signal_date (last signals (mkTradingSignal 0 "" "" 0 0)) in
    In s signals /\ (newest - 5 <= signal_date s)%Z /\
    forall t, In t signals -> (newest - 5 <= signal_date t)%Z ->
      signal_score t <= signal_score s.
Proof. apply current_strongest_signal_spec. Qed.

(** X21.  [_generate_trading_signals]: the stage falls back to the empty
    dict exactly when the divergence entry is a result whose
    [current_divergence] is Python's [None]; with no divergence entry, or
    with a status, it returns its signals.  In particular, on a table in
    which the divergence stage finds no divergence at all, every trading
    signal of the other generators is lost. *)
Theorem trading_signals_lost_without_divergence (cfg : Config) (data : list Bar)
    (relation_data : option RelationData) (pattern_data : option (list Pattern))
    (abnormal_data : option (list AbnormalEvent)) :
  (forall divergence_data,
     _generate_trading_signals data relation_data divergence_data pattern_data
       abnormal_data = None <->
     exists dd, divergence_data = Some dd /\ current_divergence dd = None) /\
  (_detect_top_divergence cfg (_find_price_extremes data high 5) = [] ->
   _detect_bottom_divergence cfg (_find_price_extremes data low 5) = [] ->
   _generate_trading_signals data relation_data (_analyze_divergence cfg data)
     pattern_data abnormal_data = None).
Proof.
  assert (Hiff : forall divergence_data,
     _generate_trading_signals data relation_data divergence_data pattern_data
       abnormal_data = None <->
     exists dd, divergence_data = Some dd /\ current_divergence dd = None).
  { intros divergence_data.
    unfold _generate_trading_signals, generate_trading_signals_body.
    destruct divergence_data as [dd|]; cbn [_generate_divergence_signals].
    - destruct (current_divergence dd) as [cd|] eqn:Ecd.
      + split; [|intros (dd' & [= <-] & H); congruence].
        intros H. exfalso. revert H.
        destruct (has_recent_divergence cd);
          [destruct (latest_divergence cd) as [latest|];
           [destruct (d_type latest); destruct (_ <=? 10)%Z|]|];
          cbn [bind]; destruct (_filter_and_optimize_signals _); discriminate.
      + cbn. split; [intros _; now exists dd|reflexivity].
    - cbn [bind]. destruct (_filter_and_optimize_signals _).
      split; [discriminate|]. intros (dd & H & _). discriminate. }
  split; [exact Hiff|].
  intros Htop Hbottom.
  destruct (no_divergence_no_status cfg data Htop Hbottom) as (dd & Hdd & Hnone).
  apply Hiff. exists dd. now split.
Qed.

(** *** Deduplication *)

Lemma same_date_and_type_iff (a b : TradingSignal) :
  same_date_and_type a b = true <-> signal_key a = signal_key b.
Proof.
  unfold same_date_and_type, signal_key.
  rewrite andb_true_iff, Z.eqb_eq, String.eqb_eq.
  split; [intros [-> ->]; reflexivity|intros [= -> ->]; split; reflexivity].
Qed.

Lemma seen_test_iff (seen : list (Z * string)) (x : TradingSignal) :
  existsb (fun k => (fst k =? fst (signal_date x, signal_type x))%Z &&
                    String.eqb (snd k) (snd (signal_date x, signal_type x))) seen
    = true <-> In (signal_key x) seen.
Proof.
  rewrite existsb_exists. unfold signal_key. cbn [fst snd]. split.
  - intros ([d t] & Hin & H). cbn in H.
    apply andb_true_iff in H. destruct H as [Hd Ht].
    apply Z.eqb_eq in Hd. apply String.eqb_eq in Ht. now subst.
  - intros Hin. exists (signal_date x, signal_type x). split; [exact Hin|].
    cbn. now rewrite Z.eqb_refl, String.eqb_refl.
Qed.

(** How the inner loop relates an entry [f] of the list to the entry [g]
    that takes its place. *)
Lemma replace_if_stronger_related (x : TradingSignal) (filtered : list TradingSignal) :
  NoDup (map signal_key filtered) ->
  Forall2 (fun f g =>
             signal_key g = signal_key f /\
             ((g = f /\ (signal_key f = signal_key x ->
                         signal_strength x <= signal_strength f)) \/
              (g = x /\ signal_key f = signal_key x /\
               signal_strength f < signal_strength x)))
          filtered (replace_if_stronger filtered x).
Proof.
  induction filtered as [|f rest IH]; intros Hnd; cbn [replace_if_stronger];
    [constructor|].
  cbn [map] in Hnd. apply NoDup_cons_iff in Hnd. destruct Hnd as [Hf Hnd].
  destruct (same_date_and_type f x) eqn:E.
  - apply same_date_and_type_iff in E. constructor.
    + destruct (Qlt_bool (signal_strength f) (signal_strength x)) eqn:Es.
      * apply Qlt_bool_iff in Es. split; [now symmetry|]. right. now repeat split.
      * split; [reflexivity|]. left. split; [reflexivity|]. intros _.
        apply Qnot_lt_le. intro H. apply Qlt_bool_iff in H. congruence.
    + clear IH. induction rest as [|r rest IHr]; constructor.
      * split; [reflexivity|]. left. split; [reflexivity|]. intros Hr.
        exfalso. apply Hf. cbn. left. congruence.
      * apply IHr.
        -- intro H. apply Hf. cbn. now right.
        -- cbn in Hnd. now apply NoDup_cons_iff in Hnd.
  - constructor; [|now apply IH].
    split; [reflexivity|]. left. split; [reflexivity|]. intros Hk.
    apply same_date_and_type_iff in Hk. congruence.
Qed.

Lemma Forall2_In_l {A B} (R : A -> B -> Prop) (l : list A) (l' : list B) (a : A) :
  Forall2 R l l' -> In a l -> exists b, In b l' /\ R a b.
Proof.
  induction 1 as [|x y l l' Hxy H IH]; intros Hin; [destruct Hin|].
  destruct Hin as [<-|Hin]; [exists y; split; [now left|exact Hxy]|].
  destruct (IH Hin) as (b & Hb & Hab). exists b. split; [now right|exact Hab].
Qed.

Lemma Forall2_In_r {A B} (R : A -> B -> Prop) (l : list A) (l' : list B) (b : B) :
  Forall2 R l l' -> In b l' -> exists a, In a l /\ R a b.
Proof.
  induction 1 as [|x y l l' Hxy H IH]; intros Hin; [destruct Hin|].
  destruct Hin as [<-|Hin]; [exists x; split; [now left|exact Hxy]|].
  destruct (IH Hin) as (a & Ha & Hab). exists a. split; [now right|exact Hab].
Qed.

Lemma Forall2_map_eq {A B C} (R : A -> B -> Prop) (f : A -> C) (g : B -> C)
    (l : list A) (l' : list B) :
  (forall a b, R a b -> g b = f a) -> Forall2 R l l' -> map g l' = map f l.
Proof.
  intros HR. induction 1 as [|x y l l' Hxy H IH]; [reflexivity|].
  cbn. now rewrite (HR x y Hxy), IH.
Qed.

(** The state of the deduplication after the signals [done]. *)
Lemma deduplicate_step_invariant (done : list TradingSignal)
    (seen : list (Z * string)) (filtered : list TradingSignal) (x : TradingSignal) :
  (seen = map signal_key filtered /\
   NoDup seen /\
   StronglySorted Z.le (map fst seen) /\
   (forall f, In f filtered -> In f done) /\
   (forall f, In f filtered -> forall t, In t done ->
      signal_key t = signal_key f -> signal_strength t <= signal_strength f) /\
   (forall t, In t done -> In (signal_key t) seen)) ->
  Forall (fun d => (d <= signal_date x)%Z) (map fst seen) ->
  let state := deduplicate_step (seen, filtered) x in
  fst state = map signal_key (snd state) /\
  NoDup (fst state) /\
  StronglySorted Z.le (map fst (fst state)) /\
  (forall f, In f (snd state) -> In f (done ++ [x])) /\
  (forall f, In f (snd state) -> forall t, In t (done ++ [x]) ->
     signal_key t = signal_key f -> signal_strength t <= signal_strength f) /\
  (forall t, In t (done ++ [x]) -> In (signal_key t) (fst state)).
Proof.
  intros (Hseen & Hnd & Hsorted & Hin & Hmax & Hrep) Hdates.
  unfold deduplicate_step.
  destruct (existsb _ seen) eqn:E; cbn [fst snd].
  - apply seen_test_iff in E.
    assert (Hnd' : NoDup (map signal_key filtered)) by (now rewrite <- Hseen).
    pose proof (replace_if_stronger_related x filtered Hnd') as Hrel.
    assert (Hkeys : map signal_key (replace_if_stronger filtered x)
                    = map signal_key filtered).
    { apply (Forall2_map_eq _ _ _ _ _ (fun a b H => proj1 H) Hrel). }
    repeat split.
    + now rewrite Hkeys.
    + exact Hnd.
    + exact Hsorted.
    + intros g Hg. destruct (Forall2_In_r _ _ _ g Hrel Hg) as (f & Hf & _ & Hcase).
      apply in_or_app.
      destruct Hcase as [[-> _]|[-> _]]; [left; now apply Hin|right; now left].
    + intros g Hg t Ht Hk.
      destruct (Forall2_In_r _ _ _ g Hrel Hg) as (f & Hf & Hkey & Hcase).
      apply in_app_or in Ht. destruct Ht as [Ht|[<-|[]]].
      * apply Qle_trans with (signal_strength f).
        -- apply (Hmax f Hf t Ht). congruence.
        -- destruct Hcase as [[-> _]|[-> [_ Hlt]]];
             [apply Qle_refl|now apply Qlt_le_weak].
      * destruct Hcase as [[-> Hle]|[-> _]]; [|apply Qle_refl].
        apply Hle. congruence.
    + intros t Ht. apply in_app_or in Ht.
      destruct Ht as [Ht|[<-|[]]]; [now apply Hrep|exact E].
  - assert (Hnew : ~ In (signal_key x) seen).
    { intro H. apply seen_test_iff in H. congruence. }
    repeat split.
    + now rewrite map_app, Hseen.
    + apply NoDup_app; [exact Hnd|constructor; [intros []|constructor]|].
      intros k Hk [<-|[]]. contradiction.
    + rewrite map_app. apply StronglySorted_snoc; assumption.
    + intros f Hf. apply in_app_or in Hf. apply in_or_app.
      destruct Hf as [Hf|Hf]; [left; now apply Hin|now right].
    + intros f Hf t Ht Hk. apply in_app_or in Hf, Ht.
      destruct Hf as [Hf|[<-|[]]]; destruct Ht as [Ht|[<-|[]]].
      * now apply (Hmax f Hf t Ht).
      * exfalso. apply Hnew. rewrite Hk, Hseen. now apply in_map.
      * exfalso. apply Hnew. rewrite <- Hk. now apply Hrep.
      * apply Qle_refl.
    + intros t Ht. apply in_app_or in Ht. apply in_or_app.
      destruct Ht as [Ht|[<-|[]]]; [left; now apply Hrep|right; now left].
Qed.

Lemma deduplicate_fold_invariant (rest done : list TradingSignal)
    (seen : list (Z * string)) (filtered : list TradingSignal) :
  (seen = map signal_key filtered /\
   NoDup seen /\
   StronglySorted Z.le (map fst seen) /\
   (forall f, In f filtered -> In f done) /\
   (forall f, In f filtered -> forall t, In t done ->
      signal_key t = signal_key f -> signal_strength t <= signal_strength f) /\
   (forall t, In t done -> In (signal_key t) seen)) ->
  StronglySorted (fun a b => (signal_date a <= signal_date b)%Z) rest ->
  (forall t u, In t done -> In u rest -> (signal_date t <= signal_date u)%Z) ->
  let state := fold_left deduplicate_step rest (seen, filtered) in
  fst state = map signal_key (snd state) /\
  NoDup (fst state) /\
  StronglySorted Z.le (map fst (fst state)) /\
  (forall f, In f (snd state) -> In f (done ++ rest)) /\
  (forall f, In f (snd state) -> forall t, In t (done ++ rest) ->
     signal_key t = signal_key f -> signal_strength t <= signal_strength f) /\
  (forall t, In t (done ++ rest) -> In (signal_key t) (fst state)).
Proof.
  revert done seen filtered.
  induction rest as [|x rest IH]; intros done seen filtered Hinv Hsorted Hbefore;
    cbn [fold_left].
  - cbn [fst snd]. now rewrite app_nil_r.
  - apply StronglySorted_inv in Hsorted. destruct Hsorted as [Hsorted Hx].
    assert (Hdates : Forall (fun d => (d <= signal_date x)%Z) (map fst seen)).
    { destruct Hinv as (Hseen & _ & _ & Hin & _).
      apply Forall_forall. intros d Hd. rewrite Hseen, map_map in Hd.
      apply in_map_iff in Hd. destruct Hd as (f & <- & Hf). cbn.
      apply Hbefore; [now apply Hin|now left]. }
    pose proof (deduplicate_step_invariant done seen filtered x Hinv Hdates) as Hstep.
    cbv zeta in Hstep.
    destruct (deduplicate_step (seen, filtered) x) as [seen' filtered'].
    cbn [fst snd] in Hstep.
    replace (done ++ x :: rest) with ((done ++ [x]) ++ rest)
      by (now rewrite <- app_assoc).
    apply IH; [exact Hstep|exact Hsorted|].
    intros t u Ht Hu. apply in_app_or in Ht. destruct Ht as [Ht|[<-|[]]].
    + apply Hbefore; [exact Ht|now right].
    + rewrite Forall_forall in Hx. now apply Hx.
Qed.

Lemma NoDup_map_filter {A B} (f : A -> B) (P : A -> bool) (l : list A) :
  NoDup (map f l) -> NoDup (map f (filter P l)).
Proof.
  induction l as [|x l IH]; cbn; intros Hnd; [constructor|].
  apply NoDup_cons_iff in Hnd. destruct Hnd as [Hx Hnd].
  destruct (P x); cbn; [|now apply IH].
  constructor; [|now apply IH].
  intro H. apply Hx. apply in_map_iff in H. destruct H as (y & Hy & Hin).
  apply filter_In in Hin. apply in_map_iff. exists y. tauto.
Qed.

Lemma StronglySorted_filter {A} (R : A -> A -> Prop) (P : A -> bool) (l : list A) :
  StronglySorted R l -> StronglySorted R (filter P l).
Proof.
  induction 1 as [|x l Hs IH Hall]; cbn; [constructor|].
  destruct (P x); [|exact IH]. constructor; [exact IH|].
  apply Forall_forall. intros y Hy. apply filter_In in Hy.
  rewrite Forall_forall in Hall. now apply Hall.
Qed.

Lemma StronglySorted_map_inv {A B} (R : B -> B -> Prop) (f : A -> B) (l : list A) :
  StronglySorted R (map f l) -> StronglySorted (fun a b => R (f a) (f b)) l.
Proof.
  induction l as [|x l IH]; cbn; intros Hs; [constructor|].
  apply StronglySorted_inv in Hs. destruct Hs as [Hs Hall].
  constructor; [now apply IH|].
  apply Forall_forall. intros y Hy. rewrite Forall_forall in Hall.
  apply Hall. now apply in_map.
Qed.

Lemma filter_and_optimize_signals_spec (signals : list TradingSignal) :
  (forall s, In s (fst (_filter_and_optimize_signals signals)) <-> In s signals) /\
  StronglySorted (fun a b => (signal_date a <= signal_date b)%Z)
    (fst (_filter_and_optimize_signals signals)) /\
  NoDup (map signal_key (snd (_filter_and_optimize_signals signals))) /\
  StronglySorted (fun a b => (signal_date a <= signal_date b)%Z)
    (snd (_filter_and_optimize_signals signals)) /\
  forall s, In s (snd (_filter_and_optimize_signals signals)) ->
    In s signals /\ passes_thresholds s /\ strongest_of_its_kind signals s.
Proof.
  unfold _filter_and_optimize_signals.
  destruct signals as [|s0 rest].
  { cbn. repeat split; try constructor; try tauto. }
  set (signals := s0 :: rest).
  set (sorted := sorted_by (fun x => inject_Z (signal_date x)) signals).
  cbn [fst snd].
  assert (Hsorted : StronglySorted (fun a b => (signal_date a <= signal_date b)%Z)
                      sorted).
  { apply (StronglySorted_impl
             (fun a b => inject_Z (signal_date a) <= inject_Z (signal_date b)));
      [intros a b H; rewrite Zle_Qle; exact H|apply sorted_by_sorted]. }
  pose proof (deduplicate_fold_invariant sorted [] [] []) as Hfold.
  cbv zeta in Hfold. cbn [app] in Hfold.
  destruct Hfold as (Hseen & Hnd & Hdates & Hin & Hmax & _).
  { repeat split; try constructor; intros ? []. }
  { exact Hsorted. }
  { intros t u []. }
  destruct (fold_left deduplicate_step sorted ([], [])) as [seen filtered].
  cbn [fst snd] in *.
  split; [intro s; apply sorted_by_In|].
  split; [exact Hsorted|].
  split.
  { apply NoDup_map_filter, NoDup_map_filter. now rewrite <- Hseen. }
  split.
  { apply StronglySorted_filter, StronglySorted_filter.
    rewrite Hseen, map_map in Hdates. cbn [signal_key fst] in Hdates.
    now apply StronglySorted_map_inv in Hdates. }
  intros s Hs. apply filter_In in Hs. destruct Hs as [Hs Hstrength].
  apply filter_In in Hs. destruct Hs as [Hs Hconfidence].
  apply Qle_bool_iff in Hstrength, Hconfidence.
  split; [apply (sorted_by_In (fun x => inject_Z (signal_date x))); now apply Hin|].
  split; [split; assumption|].
  intros t Ht Hsame. apply same_date_and_type_iff in Hsame.
  apply (Hmax s Hs t); [|exact Hsame].
  now apply (sorted_by_In (fun x => inject_Z (signal_date x))).
Qed.

(** X22.  [_filter_and_optimize_signals]: the list passed in is left
    sorted by date.  In the list returned no two signals have the same
    date and type, the signals are in ascending order of date, and each of
    them is one of the signals passed in, has a confidence of at least 0.5
    and a strength of at least 0.3, and is at least as strong as every
    signal passed in that has its date and type. *)
Theorem filtered_signals_distinct_and_strongest (signals : list TradingSignal) :
  (forall s, In s (fst (_filter_and_optimize_signals signals)) <-> In s signals) /\
  StronglySorted (fun a b => (signal_date a <= signal_date b)%Z)
    (fst (_filter_and_optimize_signals signals)) /\
  NoDup (map signal_key (snd (_filter_and_optimize_signals signals))) /\
  StronglySorted (fun a b => (signal_date a <= signal_date b)%Z)
    (snd (_filter_and_optimize_signals signals)) /\
  forall s, In s (snd (_filter_and_optimize_signals signals)) ->
    In s signals /\ passes_thresholds s /\ strongest_of_its_kind signals s.
Proof. apply filter_and_optimize_signals_spec. Qed.

(** *** The recommendation *)

(** X23.  [_generate_trading_signals], [_generate_recommendation]: when
    the stage succeeds, the recommended action is hold exactly when no
    signal survives the filter.  Otherwise the recommendation is drawn from
    one of the surviving signals: its confidence is the confidence of that
    signal, at least 0.5, and its risk level is low only if both the
    strength and the confidence of the signal exceed 0.8.  The signals
    reported under [all_signals] are in ascending order of date, the filter
    having sorted the list in place. *)
Theorem recommendation_follows_filtered_signals (data : list Bar)
    (relation_data : option RelationData) (divergence_data : option DivergenceData)
    (pattern_data : option (list Pattern))
    (abnormal_data : option (list AbnormalEvent)) (r : TradingSignals) :
  generate_trading_signals_body data relation_data divergence_data pattern_data
    abnormal_data = Ok r ->
  (action (recommendation r) = "hold" <-> filtered_signals r = []) /\
  (forall s, current_signal r = Some s ->
     In s (filtered_signals r) /\
     recommendation_confidence (recommendation r) = signal_confidence s /\
     0.5 <= signal_confidence s /\
     (risk_level (recommendation r) = "low" ->
      0.8 < signal_strength s /\ 0.8 < signal_confidence s)) /\
  StronglySorted (fun a b => (signal_date a <= signal_date b)%Z) (all_signals r).
Proof.
  unfold generate_trading_signals_body.
  destruct (_generate_divergence_signals data divergence_data) as [dsignals|e];
    cbn [bind]; [|discriminate].
  set (signals := _ ++ _).
  pose proof (filter_and_optimize_signals_spec signals)
    as (_ & Hall & _ & _ & Hfiltered).
  destruct (_filter_and_optimize_signals signals) as [sorted filtered].
  cbn [fst snd] in *.
  pose proof (current_strongest_signal_spec filtered) as [Hnone Hsome].
  intros [= <-].
  cbn [action recommendation filtered_signals current_signal all_signals
       recommendation_confidence risk_level].
  split; [|split; [|exact Hall]].
  - rewrite <- Hnone.
    destruct (_get_current_strongest_signal filtered) as [s|];
      [|split; reflexivity].
    split; [|discriminate]. unfold _generate_recommendation.
    destruct (String.eqb (signal_type s) "buy");
      destruct (_ && _); try discriminate;
      destruct (Qlt_bool 0.6 _); discriminate.
  - intros s Hs. rewrite Hs.
    destruct (Hsome s Hs) as (Hin & _).
    destruct (Hfiltered s Hin) as (_ & [Hconf _] & _).
    split; [exact Hin|].
    unfold _generate_recommendation.
    destruct (Qlt_bool 0.8 (signal_strength s)) eqn:Es;
      destruct (Qlt_bool 0.8 (signal_confidence s)) eqn:Ec;
      destruct (String.eqb (signal_type s) "buy");
      destruct (Qlt_bool 0.6 (signal_strength s));
      cbn [andb recommendation_confidence risk_level];
      (split; [reflexivity|split; [exact Hconf|]]);
      try discriminate;
      intros _; split; now apply Qlt_bool_iff.
Qed.

(** X23, witness: a relation signal alone, bought at medium risk. *)
Lemma recommendation_follows_filtered_signals_witness :
  exists r,
    generate_trading_signals_body Scenarios.calm_table (Some Scenarios.close_relation)
      None None None = Ok r /\
    action (recommendation r) = "buy" /\
    (action (recommendation r) = "hold" <-> filtered_signals r = []).
Proof.
  destruct (generate_trading_signals_body Scenarios.calm_table
              (Some Scenarios.close_relation) None None None) as [r|e] eqn:E;
    [|vm_compute in E; discriminate E].
  exists r. split; [reflexivity|]. split.
  - injection E as <-. vm_compute. reflexivity.
  - exact (proj1 (recommendation_follows_filtered_signals Scenarios.calm_table
                    (Some Scenarios.close_relation) None None None r E)).
Defined.

(* ================================================================== *)
(** * Properties of the synthesizer and of the report *)

Import PredictionReport.

(** X24.  [_calculate_time_sensitivity]: the validity of a prediction is
    between 2 and 21 days; with the volatility fixed it never shrinks as the
    confidence grows, and with the confidence fixed it never grows as the
    volatility grows. *)
Theorem validity_days_bounded_and_monotone (volatility : Q) (confidence : Z) :
  (2 <= validity_days volatility confidence <= 21)%Z /\
  (forall confidence', (confidence <= confidence')%Z ->
     (validity_days volatility confidence
      <= validity_days volatility confidence')%Z) /\
  (forall volatility', volatility <= volatility' ->
     (validity_days volatility' confidence
      <= validity_days volatility confidence)%Z).
Proof.
  split; [|split].
  - unfold validity_days.
    destruct (Qlt_bool 0.4 volatility); [|destruct (Qlt_bool 0.25 volatility)];
      destruct (80 <? confidence)%Z; try destruct (confidence <? 60)%Z;
      vm_compute; split; discriminate.
  - intros confidence' Hle. unfold validity_days.
    destruct (80 <? confidence)%Z eqn:E1; destruct (confidence <? 60)%Z eqn:E2;
      destruct (80 <? confidence')%Z eqn:E3; destruct (confidence' <? 60)%Z eqn:E4;
      try (apply Z.ltb_lt in E1); try (apply Z.ltb_ge in E1);
      try (apply Z.ltb_lt in E2); try (apply Z.ltb_ge in E2);
      try (apply Z.ltb_lt in E3); try (apply Z.ltb_ge in E3);
      try (apply Z.ltb_lt in E4); try (apply Z.ltb_ge in E4);
      try lia;
      (destruct (Qlt_bool 0.4 volatility); [|destruct (Qlt_bool 0.25 volatility)]);
      vm_compute; discriminate.
  - intros volatility' Hle. unfold validity_days.
    destruct (Qlt_bool 0.4 volatility) eqn:E1;
      destruct (Qlt_bool 0.25 volatility) eqn:E2;
      destruct (Qlt_bool 0.4 volatility') eqn:E3;
      destruct (Qlt_bool 0.25 volatility') eqn:E4;
      try (apply Qlt_bool_iff in E1); try (apply Qlt_bool_iff in E2);
      try (apply Qlt_bool_iff in E3); try (apply Qlt_bool_iff in E4);
      try (assert (~ 0.4 < volatility)
             by (let Hc := fresh in intro Hc; apply Qlt_bool_iff in Hc; congruence));
      try (assert (~ 0.25 < volatility)
             by (let Hc := fresh in intro Hc; apply Qlt_bool_iff in Hc; congruence));
      try (assert (~ 0.4 < volatility')
             by (let Hc := fresh in intro Hc; apply Qlt_bool_iff in Hc; congruence));
      try (assert (~ 0.25 < volatility')
             by (let Hc := fresh in intro Hc; apply Qlt_bool_iff in Hc; congruence));
      try (exfalso; lra);
      destruct (80 <? confidence)%Z; try destruct (confidence <? 60)%Z;
      vm_compute; discriminate.
Qed.

(** ** Merging and ranking *)

Lemma merge_into_related (merged merged' : list Prediction) (pred : Prediction) :
  merge_into merged pred = Some merged' ->
  Forall2 (fun a b => (b = a \/ b = pred) /\ (confidence a <= confidence b)%Z)
          merged merged' /\
  exists q, In q merged' /\ (confidence pred <= confidence q)%Z.
Proof.
  revert merged'. induction merged as [|existing rest IH]; intros merged' E;
    cbn [merge_into] in E; [discriminate|].
  destruct (Qlt_bool _ 0.015).
  - injection E as <-.
    assert (Hrest : Forall2 (fun a b => (b = a \/ b = pred) /\
                                        (confidence a <= confidence b)%Z) rest rest).
    { clear. induction rest; constructor; [split; [now left|lia]|assumption]. }
    destruct (confidence existing <? confidence pred)%Z eqn:Ec.
    + apply Z.ltb_lt in Ec. split.
      * constructor; [split; [now right|lia]|exact Hrest].
      * exists pred. split; [now left|lia].
    + apply Z.ltb_ge in Ec. split.
      * constructor; [split; [now left|lia]|exact Hrest].
      * exists existing. split; [now left|exact Ec].
  - destruct (merge_into rest pred) as [rest'|] eqn:Er; [|discriminate].
    injection E as <-. destruct (IH rest' eq_refl) as (Hrel & q & Hq & Hle).
    split.
    + constructor; [split; [now left|lia]|exact Hrel].
    + exists q. split; [now right|exact Hle].
Qed.

Lemma merge_fold_invariant (rest done acc : list Prediction) :
  (length acc <= length done)%nat ->
  (forall q, In q acc -> In q done) ->
  (forall p, In p done -> exists q, In q acc /\ (confidence p <= confidence q)%Z) ->
  (length (fold_left merge_step rest acc) <= length (done ++ rest))%nat /\
  (forall q, In q (fold_left merge_step rest acc) -> In q (done ++ rest)) /\
  (forall p, In p (done ++ rest) ->
     exists q, In q (fold_left merge_step rest acc) /\
               (confidence p <= confidence q)%Z).
Proof.
  revert done acc. induction rest as [|pred rest IH]; intros done acc Hlen Hin Hmax;
    cbn [fold_left].
  - rewrite app_nil_r. auto.
  - replace (done ++ pred :: rest) with ((done ++ [pred]) ++ rest)
      by (now rewrite <- app_assoc).
    apply IH; unfold merge_step.
    + rewrite length_app. cbn [length].
      destruct (merge_into acc pred) as [merged'|] eqn:E.
      * destruct (merge_into_related acc merged' pred E) as [Hrel _].
        apply Forall2_length in Hrel. lia.
      * rewrite length_app. cbn [length]. lia.
    + intros q Hq. apply in_or_app.
      destruct (merge_into acc pred) as [merged'|] eqn:E.
      * destruct (merge_into_related acc merged' pred E) as [Hrel _].
        destruct (Forall2_In_r _ _ _ q Hrel Hq) as (a & Ha & [Hq'|Hq'] & _).
        -- subst q. left. now apply Hin.
        -- subst q. right. now left.
      * apply in_app_or in Hq. destruct Hq as [Hq|Hq]; [left; now apply Hin|now right].
    + intros p Hp. apply in_app_or in Hp.
      destruct (merge_into acc pred) as [merged'|] eqn:E.
      * destruct (merge_into_related acc merged' pred E) as [Hrel Hpred].
        destruct Hp as [Hp|[<-|[]]]; [|exact Hpred].
        destruct (Hmax p Hp) as (a & Ha & Hle).
        destruct (Forall2_In_l _ _ _ a Hrel Ha) as (b & Hb & _ & Hab).
        exists b. split; [exact Hb|lia].
      * destruct Hp as [Hp|[<-|[]]].
        -- destruct (Hmax p Hp) as (a & Ha & Hle).
           exists a. split; [apply in_or_app; now left|exact Hle].
        -- exists pred. split; [apply in_or_app; right; now left|lia].
Qed.

Lemma merge_similar_predictions_spec (predictions : list Prediction) :
  (length (_merge_similar_predictions predictions) <= length predictions)%nat /\
  (forall q, In q (_merge_similar_predictions predictions) -> In q predictions) /\
  (forall p, In p predictions ->
     exists q, In q (_merge_similar_predictions predictions) /\
               (confidence p <= confidence q)%Z).
Proof.
  unfold _merge_similar_predictions.
  apply (merge_fold_invariant predictions [] []); [cbn; lia|intros q []|intros p []].
Qed.

(** X25.  [_merge_similar_predictions]: merging never adds a prediction
    and never invents one: the output is no longer than the input and each
    of its entries is an entry of the input; and it never loses the top of
    the ranking: for every input prediction some output prediction has at
    least its confidence. *)
Theorem merged_predictions_keep_the_most_confident (predictions : list Prediction) :
  (length (_merge_similar_predictions predictions) <= length predictions)%nat /\
  (forall q, In q (_merge_similar_predictions predictions) -> In q predictions) /\
  (forall p, In p predictions ->
     exists q, In q (_merge_similar_predictions predictions) /\
               (confidence p <= confidence q)%Z).
Proof. apply merge_similar_predictions_spec. Qed.

Lemma insert_by_confidence_desc_In (x y : Prediction) (l : list Prediction) :
  In y (insert_by_confidence_desc x l) <-> y = x \/ In y l.
Proof.
  induction l as [|z l IH]; cbn.
  - intuition.
  - destruct (confidence z <=? confidence x)%Z; cbn; [intuition|].
    rewrite IH. intuition.
Qed.

Lemma sorted_by_confidence_desc_In (y : Prediction) (l : list Prediction) :
  In y (sorted_by_confidence_desc l) <-> In y l.
Proof.
  induction l as [|x l IH]; cbn; [tauto|].
  unfold sorted_by_confidence_desc in IH.
  rewrite insert_by_confidence_desc_In, IH. intuition.
Qed.

Lemma sorted_by_confidence_desc_sorted (l : list Prediction) :
  StronglySorted (fun a b => (confidence b <= confidence a)%Z)
                 (sorted_by_confidence_desc l).
Proof.
  induction l as [|x l IH]; cbn; [constructor|].
  fold (sorted_by_confidence_desc l).
  induction IH as [|z s Hs IHs Hz]; cbn.
  - constructor; constructor.
  - destruct (confidence z <=? confidence x)%Z eqn:E.
    + apply Z.leb_le in E. constructor.
      * constructor; assumption.
      * constructor; [exact E|].
        apply Forall_forall. intros b Hb. rewrite Forall_forall in Hz.
        specialize (Hz b Hb). cbn in Hz. lia.
    + apply Z.leb_gt in E. constructor; [exact IHs|].
      apply Forall_forall. intros b Hb. apply insert_by_confidence_desc_In in Hb.
      destruct Hb as [->|Hb]; [lia|].
      rewrite Forall_forall in Hz. now apply Hz.
Qed.

(** X26.  [_calculate_key_price_levels]: whatever the inputs and the
    tangent function, the synthesizer returns at most twelve predictions,
    in descending order of confidence, each of them a prediction of one of
    the four candidate models; and the first of them has the highest
    confidence of all the candidates. *)
Theorem key_price_levels_ranked (gann_angle : Q -> Q -> Q) (tan : Q -> Q)
    (stats : Stats) (data : list Bar) (supports resistances : list KeyLevel)
    (current_signals : list Signal) :
  let candidates :=
    run tan (_calculate_gann_price_targets gann_angle stats data supports resistances)
    ++ _calculate_volume_price_targets stats data current_signals
    ++ _calculate_fibonacci_targets data
    ++ _calculate_support_resistance_targets stats data in
  let result :=
    run tan (_calculate_key_price_levels gann_angle stats data supports
               resistances current_signals) in
  (length result <= 12)%nat /\
  StronglySorted (fun a b => (confidence b <= confidence a)%Z) result /\
  (forall q, In q result -> In q candidates) /\
  (forall p, In p candidates ->
     exists q, hd_error result = Some q /\ (confidence p <= confidence q)%Z).
Proof.
  intros candidates result.
  unfold result, _calculate_key_price_levels. rewrite run_tbind. cbn [run].
  fold candidates.
  destruct (merge_similar_predictions_spec candidates) as (_ & Hin & Hmax).
  set (merged := _merge_similar_predictions candidates) in *.
  pose proof (sorted_by_confidence_desc_sorted merged) as Hsorted.
  split; [apply firstn_length_le|].
  split; [now apply StronglySorted_firstn|].
  split.
  - intros q Hq. apply In_firstn in Hq.
    apply (proj1 (sorted_by_confidence_desc_In _ _)) in Hq.
    now apply Hin.
  - intros p Hp. destruct (Hmax p Hp) as (m & Hm & Hle).
    apply (proj2 (sorted_by_confidence_desc_In _ _)) in Hm.
    destruct (sorted_by_confidence_desc merged) as [|q l] eqn:Es; [destruct Hm|].
    exists q. split; [reflexivity|].
    apply StronglySorted_inv in Hsorted. destruct Hsorted as [_ Hall].
    destruct Hm as [<-|Hm]; [exact Hle|].
    rewrite Forall_forall in Hall. specialize (Hall m Hm). cbn in Hall. lia.
Qed.

(* ================================================================== *)
(** * Further properties of the divergence analysis, the clustering and
      the pipelines *)

(** ** Divergences *)

Lemma fold_left_Forall_step {A B} (P : B -> Prop) (Q : A -> Prop)
    (step : list B -> A -> list B) (idxs : list A) (acc : list B) :
  (forall acc i, Q i -> Forall P acc -> Forall P (step acc i)) ->
  Forall Q idxs -> Forall P acc -> Forall P (fold_left step idxs acc).
Proof.
  intros Hstep Hidxs. revert acc.
  induction Hidxs as [|i idxs Hi Hidxs IH]; intros acc Hacc; cbn; [exact Hacc|].
  apply IH. now apply Hstep.
Qed.

Lemma range_Forall (a b : nat) : Forall (fun i => (a <= i < b)%nat) (range a b).
Proof. apply Forall_forall. intros i Hi. now apply in_range. Qed.

Lemma strength_above_when_less (cfg : Config) (current previous : Extreme) :
  0 < e_volume previous ->
  e_volume current < e_volume previous * (1 - divergence_threshold cfg) ->
  divergence_threshold cfg
    < Qabs ((e_volume current - e_volume previous) / e_volume previous).
Proof.
  intros Hpos Hless.
  set (x := (e_volume current - e_volume previous) / e_volume previous).
  assert (Hx : x < - divergence_threshold cfg).
  { unfold x. apply Qlt_shift_div_r; [exact Hpos|]. lra. }
  apply Qlt_le_trans with (- x); [lra|].
  rewrite <- Qabs_opp. apply Qle_Qabs.
Qed.

Lemma strength_above_when_more (cfg : Config) (current previous : Extreme) :
  0 < e_volume previous ->
  e_volume previous * (1 + divergence_threshold cfg) < e_volume current ->
  divergence_threshold cfg
    < Qabs ((e_volume current - e_volume previous) / e_volume previous).
Proof.
  intros Hpos Hmore.
  set (x := (e_volume current - e_volume previous) / e_volume previous).
  assert (Hx : divergence_threshold cfg < x).
  { unfold x. apply Qlt_shift_div_l; [exact Hpos|]. lra. }
  apply Qlt_le_trans with x; [exact Hx|apply Qle_Qabs].
Qed.

Lemma detect_top_as_detected (cfg : Config) (l : list Extreme) :
  Forall (fun e => 0 < e_volume e) l ->
  Forall (fun d => as_detected cfg d /\ divergence_threshold cfg < d_strength d)
         (_detect_top_divergence cfg l).
Proof.
  intros Hpos. unfold _detect_top_divergence.
  apply (fold_left_Forall_step _ (fun i => (1 <= i < length l)%nat));
    [|apply range_Forall|constructor].
  intros acc i Hi Hacc. unfold top_divergence_step.
  destruct (Qlt_bool (e_price _) (e_price _)) eqn:Ep; [|exact Hacc].
  destruct (Qlt_bool (e_volume _) _) eqn:Ev; [|exact Hacc].
  apply Qlt_bool_iff in Ep, Ev.
  apply Forall_app. split; [exact Hacc|]. constructor; [|constructor].
  rewrite Forall_forall in Hpos.
  assert (Hprev : 0 < e_volume (nth (i - 1) l no_extreme))
    by (apply Hpos, nth_In; lia).
  split; [split; assumption|].
  cbn [d_strength divergence_record]. now apply strength_above_when_less.
Qed.

Lemma detect_bottom_as_detected (cfg : Config) (l : list Extreme) :
  Forall (fun e => 0 < e_volume e) l ->
  Forall (fun d => as_detected cfg d /\ divergence_threshold cfg < d_strength d)
         (_detect_bottom_divergence cfg l).
Proof.
  intros Hpos. unfold _detect_bottom_divergence.
  apply (fold_left_Forall_step _ (fun i => (1 <= i < length l)%nat));
    [|apply range_Forall|constructor].
  intros acc i Hi Hacc. unfold bottom_divergence_step.
  destruct (Qlt_bool (e_price _) (e_price _)) eqn:Ep; [|exact Hacc].
  destruct (Qlt_bool _ (e_volume _)) eqn:Ev; [|exact Hacc].
  apply Qlt_bool_iff in Ep, Ev.
  apply Forall_app. split; [exact Hacc|]. constructor; [|constructor].
  rewrite Forall_forall in Hpos.
  assert (Hprev : 0 < e_volume (nth (i - 1) l no_extreme))
    by (apply Hpos, nth_In; lia).
  split; [split; assumption|].
  cbn [d_strength divergence_record]. now apply strength_above_when_more.
Qed.

Lemma extremes_positive_volume (data : list Bar) (t : ExtremeType) :
  Forall (fun b => 0 < Volume b) data ->
  Forall (fun e => 0 < e_volume e) (_find_price_extremes data t 5).
Proof.
  intros Hpos. apply Forall_forall. intros e He.
  apply find_price_extremes_inv in He. destruct He as (i & _ & Hi & ->).
  cbn [e_volume extreme_at].
  assert (Hvol : Forall (fun v => 0 < v) (map Volume data)).
  { apply Forall_forall. intros v Hv. apply in_map_iff in Hv.
    destruct Hv as (b & <- & Hb). rewrite Forall_forall in Hpos. now apply Hpos. }
  rewrite Forall_forall in Hvol. apply Hvol, nth_In. rewrite length_map. lia.
Qed.

Lemma sorted_by_date_Forall (P : Divergence -> Prop) (l : list Divergence) :
  Forall P l -> Forall P (sorted_by_date l).
Proof.
  induction 1 as [|x l Hx Hl IH]; cbn; [constructor|].
  fold (sorted_by_date l). clear Hl.
  induction IH as [|y s Hy Hs IHs]; cbn.
  - now constructor.
  - destruct (_ <=? _)%Z; repeat constructor; assumption.
Qed.

(** X2.  [_analyze_divergence], [_detect_top_divergence],
    [_detect_bottom_divergence]: on a table whose volumes are all positive,
    every divergence of a successful analysis records what was detected (a
    top divergence a higher high on a volume below [1 - threshold] times
    the previous one, a bottom divergence a lower low on a volume above
    [1 + threshold] times the previous one), and its strength exceeds the
    divergence threshold. *)
Theorem recorded_divergences_exceed_threshold (cfg : Config) (data : list Bar)
    (dd : DivergenceData) :
  Forall (fun b => 0 < Volume b) data ->
  _analyze_divergence cfg data = Some dd ->
  Forall (fun d => as_detected cfg d /\ divergence_threshold cfg < d_strength d)
         (divergences dd).
Proof.
  intros Hpos. unfold _analyze_divergence, analyze_divergence_body.
  destruct (_check_current_divergence_status data _); cbn; [|discriminate].
  intros [= <-]. cbn [divergences].
  apply sorted_by_date_Forall, Forall_app. split.
  - now apply detect_top_as_detected, extremes_positive_volume.
  - now apply detect_bottom_as_detected, extremes_positive_volume.
Qed.

(** X2, witness: sixty bars with two peaks, the second on half the volume. *)
Lemma recorded_divergences_exceed_threshold_witness :
  exists dd, _analyze_divergence default_config Scenarios.two_peaks60 = Some dd /\
    divergences dd <> [] /\
    Forall (fun d => as_detected default_config d /\
                     divergence_threshold default_config < d_strength d)
           (divergences dd).
Proof.
  destruct (_analyze_divergence default_config Scenarios.two_peaks60) as [dd|] eqn:E;
    [|vm_compute in E; discriminate E].
  exists dd. split; [reflexivity|]. split.
  - revert E. vm_compute. intros [= <-]. discriminate.
  - apply (recorded_divergences_exceed_threshold default_config
             Scenarios.two_peaks60 dd); [|exact E].
    apply Forall_forall. intros b Hb.
    unfold Scenarios.two_peaks60 in Hb.
    repeat (destruct Hb as [<-|Hb]; [reflexivity|]). destruct Hb.
Defined.

(** X3.  [_analyze_divergence], [_check_current_divergence_status]: on a
    table of fewer than thirty rows the analysis succeeds only if it finds
    no divergence at all, and then its [current_divergence] is Python's
    [None]; as soon as a divergence is found the look-up of the thirtieth
    date from the end raises and the stage returns the empty dict. *)
Theorem short_table_divergence_analysis (cfg : Config) (data : list Bar)
    (dd : DivergenceData) :
  (length data < 30)%nat ->
  _analyze_divergence cfg data = Some dd ->
  divergences dd = [] /\ current_divergence dd = None.
Proof.
  intros Hlen. unfold _analyze_divergence, analyze_divergence_body.
  set (found := sorted_by_date _).
  unfold _check_current_divergence_status.
  destruct found as [|d rest] eqn:Ef.
  - cbn. intros [= <-]. split; reflexivity.
  - unfold index_from_end at 1.
    replace (30 <=? length data)%nat with false
      by (symmetry; apply Nat.leb_gt; lia).
    cbn. discriminate.
Qed.

(** X3, witness: twelve identical bars. *)
Lemma short_table_divergence_analysis_witness :
  exists dd, _analyze_divergence default_config Scenarios.flat12 = Some dd /\
    divergences dd = [] /\ current_divergence dd = None.
Proof.
  destruct (_analyze_divergence default_config Scenarios.flat12) as [dd|] eqn:E;
    [|vm_compute in E; discriminate E].
  exists dd. split; [reflexivity|].
  apply (short_table_divergence_analysis default_config Scenarios.flat12 dd);
    [cbn; lia|exact E].
Defined.

(** ** The pipelines *)

Section PipelineOutcomes.

Variables tc pc ga gs rs kl : DataFrame -> Res PyVal.
Variable pr : DataFrame -> PyVal -> PyVal -> PyVal -> Res PyVal.

Variables bi rel dv pat co ab tr : DataFrame -> Res PyVal.
Variable sc : PyVal -> PyVal -> PyVal -> PyVal -> PyVal -> Res PyVal.
Variable sg : DataFrame -> PyVal -> PyVal -> PyVal -> PyVal -> PyVal -> Res PyVal.

(** X4.  [GannWheel.analyze_stock]: whatever its seven stages do, the only
    error the pipeline raises is the ValueError for an empty table; on every
    other table it returns a dict with its ten keys in order, whose
    [symbol] is the symbol passed in and whose [data_range] describes the
    table sorted by date. *)
Theorem gann_pipeline_raises_only_on_empty_table (now : Z) (symbol : string)
    (data : DataFrame) :
  match GannWheel.analyze_stock tc pc ga gs rs kl pr now symbol data with
  | Raise e => empty data = true /\ e = ValueError "股票数据为空"
  | Ok result =>
      empty data = false /\ keys result = gann_keys /\
      dict_get result "symbol" PNone = PStr symbol /\
      dict_get result "data_range" PNone = data_range (sort_index data)
  end.
Proof.
  unfold GannWheel.analyze_stock.
  destruct (empty data); [split; reflexivity|].
  repeat split.
Qed.

(** X5.  [VolumePriceAnalyzer.analyze_stock]: whatever its nine stages do,
    the pipeline raises exactly on an empty table and on a table that lacks
    one of Open, High, Low, Close, Volume, in both cases a ValueError; the
    second names the missing columns in that order.  On every other table
    it returns a dict with its twelve keys in order. *)
Theorem volume_price_pipeline_input_errors (now : Z) (symbol : string)
    (data : DataFrame) :
  match VolumePriceAnalyzer.analyze_stock bi rel dv pat co ab tr sc sg
          now symbol data with
  | Raise e =>
      (empty data = true /\ e = ValueError "股票数据为空") \/
      (empty data = false /\ has_required_columns data = false /\
       e = ValueError
             ("缺少必要的数据列: " ++
              repr_columns
                (filter (fun col => negb (existsb (String.eqb col) (columns data)))
                        required_columns))%string)
  | Ok result =>
      empty data = false /\ has_required_columns data = true /\
      keys result = volume_price_keys /\
      dict_get result "symbol" PNone = PStr symbol
  end.
Proof.
  unfold VolumePriceAnalyzer.analyze_stock.
  destruct (empty data); [left; split; reflexivity|].
  destruct (filter _ required_columns) as [|c missing] eqn:E.
  - apply missing_columns_nil in E. repeat split. exact E.
  - right. split; [reflexivity|]. split; [|reflexivity].
    destruct (has_required_columns data) eqn:H; [|reflexivity].
    apply missing_columns_nil in H. congruence.
Qed.

End PipelineOutcomes.

(** ** Two invocations *)














(** The order does show: the two levels of one price cluster into one
    record, whose original types come in the order of the interpreter. *)
Example original_types_follow_the_listing :
  map m_original_types
      (_merge_similar_levels_in Scenarios.in_order 0.02 Scenarios.twin_levels) =
    [["historical_high"; "pivot_high"]%string] /\
  map m_original_types
      (_merge_similar_levels_in Scenarios.in_reverse 0.02 Scenarios.twin_levels) =
    [["pivot_high"; "historical_high"]%string] /\
  map m_type
      (_merge_similar_levels_in Scenarios.in_reverse 0.02 Scenarios.twin_levels) =
    ["combined"%string].
Proof. repeat split. Qed.

Section Invocations.

Variables tc pc ga gs rs : DataFrame -> Res PyVal.
Variable pr : DataFrame -> PyVal -> PyVal -> PyVal -> Res PyVal.

Variables bi rel dv pat co ab tr : DataFrame -> Res PyVal.
Variable sc : PyVal -> PyVal -> PyVal -> PyVal -> PyVal -> Res PyVal.

(** The signal stage, in an interpreter that lists a set by the first
    argument. *)
Variable sg :
  (list string -> list string) ->
  DataFrame -> PyVal -> PyVal -> PyVal -> PyVal -> PyVal -> Res PyVal.




End Invocations.



(* ================================================================== *)
(** * Further properties of the Gann stages and of the score *)

(** ** Price cycles *)

Lemma fold_Qmax_ge (xs : list Q) (x : Q) : x <= fold_left Qmax xs x.
Proof.
  revert x. induction xs as [|y xs IH]; intros x; cbn; [apply Qle_refl|].
  apply Qle_trans with (Qmax x y); [apply Q.le_max_l|apply IH].
Qed.

Lemma fold_Qmin_le (xs : list Q) (x : Q) : fold_left Qmin xs x <= x.
Proof.
  revert x. induction xs as [|y xs IH]; intros x; cbn; [apply Qle_refl|].
  apply Qle_trans with (Qmin x y); [apply IH|apply Q.le_min_l].
Qed.

Lemma lowest_below_highest (data : list Bar) :
  data <> [] -> Forall (fun b => Low b <= High b) data ->
  lowest_low data <= highest_high data.
Proof.
  intros Hne Hrows. destruct data as [|b rest]; [congruence|].
  unfold lowest_low, highest_high. cbn [map].
  apply Forall_inv in Hrows.
  apply Qle_trans with (Low b); [apply fold_Qmin_le|].
  apply Qle_trans with (High b); [exact Hrows|apply fold_Qmax_ge].
Qed.

(** X6.  [_analyze_price_cycles]: on a table that is not empty and whose
    bars have their low at or below their high, at most ten key levels are
    reported, in descending order of strength, each with a strength above
    0.2 and at most 1.  A level is typed by its side of the centre of the
    range, not of the current price: a resistance is the centre plus half
    the range times one of the eight ratios and lies at or above the
    centre, a support is the centre minus that and lies at or below it. *)
Theorem price_cycle_levels_around_center (cfg : GannConfig) (data : list Bar) :
  data <> [] ->
  Forall (fun b => Low b <= High b) data ->
  let r := analyze_price_cycles_body cfg data in
  (length (pa_key_levels r) <= 10)%nat /\
  StronglySorted (fun a b => pc_strength b <= pc_strength a) (pa_key_levels r) /\
  forall c, In c (pa_key_levels r) ->
    0.2 < pc_strength c <= 1 /\
    In (pc_ratio c) price_cycle_ratios /\
    ((pc_type c = "resistance" /\
      pc_level c = pa_price_center r + pa_price_range r * pc_ratio c / 2 /\
      pa_price_center r <= pc_level c) \/
     (pc_type c = "support" /\
      pc_level c = pa_price_center r - pa_price_range r * pc_ratio c / 2 /\
      pc_level c <= pa_price_center r)).
Proof.
  intros Hne Hrows r. unfold r, analyze_price_cycles_body.
  cbn [pa_key_levels pa_price_center pa_price_range].
  pose proof (lowest_below_highest data Hne Hrows) as Hrange.
  set (price_range := highest_high data - lowest_low data).
  set (price_center := (highest_high data + lowest_low data) / 2).
  assert (Hpos : 0 <= price_range) by (unfold price_range; lra).
  split; [apply firstn_length_le|].
  split; [apply StronglySorted_firstn, sorted_by_desc_sorted|].
  intros c Hc. apply In_firstn in Hc.
  apply (proj1 (sorted_by_desc_In _ _ _)) in Hc.
  apply in_flat_map in Hc. destruct Hc as (pct & Hpct & Hc).
  assert (Hratio : 0 <= pct).
  { unfold price_cycle_ratios in Hpct.
    repeat (destruct Hpct as [<-|Hpct]; [discriminate|]). destruct Hpct. }
  assert (Hhalf : 0 <= price_range * pct / 2).
  { apply Qle_shift_div_l; [reflexivity|].
    setoid_replace (0 * 2) with 0 by ring. now apply Qmult_le_0_compat. }
  unfold price_cycles_at in Hc. apply in_app_or in Hc.
  destruct Hc as [Hc|Hc].
  - destruct (Qlt_bool 0.2 _) eqn:E; [|destruct Hc]. destruct Hc as [<-|[]].
    apply Qlt_bool_iff in E. cbn [pc_strength pc_ratio pc_type pc_level].
    split; [split; [exact E|apply Q.le_min_r]|]. split; [exact Hpct|].
    left. split; [reflexivity|]. split; [reflexivity|]. lra.
  - destruct (Qlt_bool 0.2 _) eqn:E; [|destruct Hc]. destruct Hc as [<-|[]].
    apply Qlt_bool_iff in E. cbn [pc_strength pc_ratio pc_type pc_level].
    split; [split; [exact E|apply Q.le_min_r]|]. split; [exact Hpct|].
    right. split; [reflexivity|]. split; [reflexivity|]. lra.
Qed.

(** X6, witness: a table of three bars. *)
Lemma price_cycle_levels_around_center_witness :
  (length (pa_key_levels (analyze_price_cycles_body default_gann_config
                            Scenarios.calm_table)) <= 10)%nat /\
  StronglySorted (fun a b => pc_strength b <= pc_strength a)
    (pa_key_levels (analyze_price_cycles_body default_gann_config
                      Scenarios.calm_table)) /\
  forall c, In c (pa_key_levels (analyze_price_cycles_body default_gann_config
                                   Scenarios.calm_table)) ->
    0.2 < pc_strength c <= 1 /\
    In (pc_ratio c) price_cycle_ratios /\
    ((pc_type c = "resistance" /\
      pc_level c =
        pa_price_center (analyze_price_cycles_body default_gann_config
                           Scenarios.calm_table)
        + pa_price_range (analyze_price_cycles_body default_gann_config
                            Scenarios.calm_table) * pc_ratio c / 2 /\
      pa_price_center (analyze_price_cycles_body default_gann_config
                         Scenarios.calm_table) <= pc_level c) \/
     (pc_type c = "support" /\
      pc_level c =
        pa_price_center (analyze_price_cycles_body default_gann_config
                           Scenarios.calm_table)
        - pa_price_range (analyze_price_cycles_body default_gann_config
                            Scenarios.calm_table) * pc_ratio c / 2 /\
      pc_level c <= pa_price_center (analyze_price_cycles_body default_gann_config
                                       Scenarios.calm_table))).
Proof.
  apply (price_cycle_levels_around_center default_gann_config Scenarios.calm_table).
  - discriminate.
  - each_element; discriminate.
Defined.

(** ** Angle lines *)

Lemma angle_line_fold_counts (cfg : GannConfig) (data : list Bar)
    (start_price slope : Q) (start_index : nat) (idxs : list nat)
    (state : nat * list LinePoint) :
  fst state = length (snd state) ->
  fst (fold_left (angle_line_step cfg data start_price slope start_index) idxs state)
    = length (snd (fold_left (angle_line_step cfg data start_price slope start_index)
                             idxs state)) /\
  (fst (fold_left (angle_line_step cfg data start_price slope start_index) idxs state)
   <= fst state + length idxs)%nat.
Proof.
  revert state. induction idxs as [|i rest IH]; intros state Hstate; cbn [fold_left].
  - split; [exact Hstate|cbn; lia].
  - destruct state as [touches line_points]. cbn [fst snd] in Hstate.
    unfold angle_line_step at 2 4 6. destruct (_ && _).
    + destruct (IH (S touches, line_points ++ [mkLinePoint (nth i (map date data) 0%Z)
                     (predicted_price start_price slope (i - start_index))
                     ((nth i (map High data) 0 + nth i (map Low data) 0) / 2)]))
        as [H1 H2].
      { cbn [fst snd]. rewrite length_app. cbn. lia. }
      split; [exact H1|]. cbn [fst length] in *. lia.
    + destruct (IH (touches, line_points) Hstate) as [H1 H2].
      split; [exact H1|]. cbn [fst length] in *. lia.
Qed.

Lemma angle_line_counts (tan : Q -> Q) (cfg : GannConfig)
    (data : list Bar) (start_date : Z) (start_price angle : Q)
    (point_type : ExtremeType) :
  let line :=
    run tan (_calculate_gann_angle_line cfg data start_date start_price angle
               point_type) in
  al_touches line = length (al_line_points line) /\
  (al_touches line
   <= length data - (get_loc_or_zero start_date (map date data) 0 + 1))%nat /\
  0 <= al_strength line < 1.
Proof.
  intros line. unfold line, _calculate_gann_angle_line. rewrite run_tbind.
  set (slope := run tan (angle_line_slope angle point_type)).
  set (start_index := get_loc_or_zero start_date (map date data) 0).
  pose proof (angle_line_fold_counts cfg data start_price slope start_index
                (range (start_index + 1) (length data)) (0%nat, []) eq_refl)
    as [Hlen Hle].
  destruct (fold_left _ _ (0%nat, [])) as [touches line_points].
  cbn [fst snd run al_touches al_line_points al_strength] in *.
  unfold range in Hle. rewrite length_seq in Hle.
  split; [exact Hlen|]. split; [lia|].
  destruct (0 <? length data - start_index)%nat eqn:E.
  - apply Nat.ltb_lt in E.
    assert (Hpos : 0 < inject_Z (Z.of_nat (length data - start_index))).
    { replace 0 with (inject_Z 0) by reflexivity. rewrite <- Zlt_Qlt. lia. }
    split.
    + apply Qle_shift_div_l; [exact Hpos|].
      setoid_replace (0 * inject_Z (Z.of_nat (length data - start_index))) with 0
        by ring.
      replace 0 with (inject_Z 0) by reflexivity. rewrite <- Zle_Qle. lia.
    + apply Qlt_shift_div_r; [exact Hpos|].
      setoid_replace (1 * inject_Z (Z.of_nat (length data - start_index)))
        with (inject_Z (Z.of_nat (length data - start_index))) by ring.
      rewrite <- Zlt_Qlt. lia.
  - split; [apply Qle_refl|reflexivity].
Qed.

(** X7.  [_calculate_gann_angle_line]: for every angle, origin and tangent
    function, the number of touches of a line is the number of its line
    points and is at most the number of bars after the origin, and its
    strength is at least 0 and strictly below 1: the bars after the origin
    are counted, but the division is by their number plus one. *)
Theorem angle_line_strength_below_one (tan : Q -> Q) (cfg : GannConfig)
    (data : list Bar) (start_date : Z) (start_price angle : Q)
    (point_type : ExtremeType) :
  let line :=
    run tan (_calculate_gann_angle_line cfg data start_date start_price angle
               point_type) in
  al_touches line = length (al_line_points line) /\
  (al_touches line
   <= length data - (get_loc_or_zero start_date (map date data) 0 + 1))%nat /\
  0 <= al_strength line < 1.
Proof. apply angle_line_counts. Qed.

(** ** The angle stage as a whole *)

Lemma In_last_n {A} (n : nat) (l : list A) (x : A) : In x (last_n n l) -> In x l.
Proof.
  unfold last_n. generalize (length l - n)%nat. intros k. revert l.
  induction k as [|k IH]; intros [|y l]; cbn; try tauto.
  intros H. right. now apply IH.
Qed.

Lemma angle_line_fields (tan : Q -> Q) (cfg : GannConfig) (data : list Bar)
    (start_date : Z) (start_price angle : Q) (point_type : ExtremeType) :
  let line :=
    run tan (_calculate_gann_angle_line cfg data start_date start_price angle
               point_type) in
  al_start_date line = start_date /\ al_start_price line = start_price /\
  al_angle line = angle /\ al_point_type line = point_type.
Proof.
  intros line. unfold line, _calculate_gann_angle_line. rewrite run_tbind.
  destruct (fold_left _ _ (0%nat, [])) as [touches line_points].
  cbn [run al_start_date al_start_price al_angle al_point_type].
  repeat split.
Qed.

Lemma lines_from_spec (tan : Q -> Q) (cfg : GannConfig) (data : list Bar)
    (t : ExtremeType) (points : list Pivot) (point : Pivot) (line : AngleLine) :
  In point points ->
  In line (run tan (lines_from cfg data t point)) ->
  0.3 < al_strength line < 1 /\ drawn_from cfg t points line.
Proof.
  intros Hpoint. unfold lines_from. rewrite run_tbind, run_tmap. cbn [run].
  intros H. apply filter_In in H. destruct H as [H Hstrong].
  apply in_map_iff in H. destruct H as (angle & <- & Hangle).
  apply Qlt_bool_iff in Hstrong.
  destruct (angle_line_counts tan cfg data (p_date point) (p_price point) angle t)
    as (_ & _ & _ & Hlt).
  destruct (angle_line_fields tan cfg data (p_date point) (p_price point) angle t)
    as (F1 & F2 & F3 & F4).
  split; [split; assumption|].
  split; [exact F4|]. split; [now rewrite F3|].
  exists point. repeat split; assumption.
Qed.

Lemma kept_lines_spec (tan : Q -> Q) (cfg : GannConfig) (data : list Bar)
    (t : ExtremeType) (points : list Pivot) (line : AngleLine) :
  In line (concat (run tan (tmap (lines_from cfg data t) (last_n 5 points)))) ->
  0.3 < al_strength line < 1 /\ drawn_from cfg t points line.
Proof.
  rewrite run_tmap. intros H. apply in_concat in H. destruct H as (ls & Hls & Hin).
  apply in_map_iff in Hls. destruct Hls as (point & <- & Hpoint).
  apply In_last_n in Hpoint. now apply (lines_from_spec tan cfg data t points point).
Qed.

Lemma analyze_gann_angles_run (tan : Q -> Q) (cfg : GannConfig) (data : list Bar) :
  run tan (analyze_gann_angles_body cfg data) =
    let lines :=
      sorted_by_desc al_strength
        (concat (run tan (tmap (lines_from cfg data high)
                            (last_n 5 (fst (_find_pivot_points data 5)))))
         ++ concat (run tan (tmap (lines_from cfg data low)
                               (last_n 5 (snd (_find_pivot_points data 5)))))) in
    mkAngleAnalysis (firstn 20 lines) (_find_current_angle_support data lines)
      (_find_current_angle_resistance data lines).
Proof.
  unfold analyze_gann_angles_body.
  destruct (_find_pivot_points data 5) as [highs lows]. cbn [fst snd].
  now rewrite !run_tbind.
Qed.

Lemma sorted_angle_lines_spec (tan : Q -> Q) (cfg : GannConfig) (data : list Bar)
    (line : AngleLine) :
  In line
    (sorted_by_desc al_strength
       (concat (run tan (tmap (lines_from cfg data high)
                           (last_n 5 (fst (_find_pivot_points data 5)))))
        ++ concat (run tan (tmap (lines_from cfg data low)
                              (last_n 5 (snd (_find_pivot_points data 5))))))) ->
  0.3 < al_strength line < 1 /\
  (drawn_from cfg high (fst (_find_pivot_points data 5)) line \/
   drawn_from cfg low (snd (_find_pivot_points data 5)) line).
Proof.
  intros H. apply sorted_by_desc_In in H. apply in_app_or in H.
  destruct H as [H|H]; apply kept_lines_spec in H; destruct H as [Hs Hd];
    (split; [exact Hs|]); [left|right]; exact Hd.
Qed.

(** X29.  [_analyze_gann_angles]: for every table and tangent function, the
    stage returns at most twenty lines, strongest first; each was drawn at
    one of the configured angles from a high or a low found by
    [_find_pivot_points], and has a strength above 0.3 and below 1.  The
    current support, when there is one, is such a line drawn from a low and
    runs below the last close on the last day; the current resistance is one
    drawn from a high and runs above it. *)
Theorem angle_stage_lines_from_pivots (tan : Q -> Q) (cfg : GannConfig)
    (data : list Bar) :
  let r := run tan (analyze_gann_angles_body cfg data) in
  let highs := fst (_find_pivot_points data 5) in
  let lows := snd (_find_pivot_points data 5) in
  (length (angle_lines r) <= 20)%nat /\
  StronglySorted (fun a b => al_strength b <= al_strength a) (angle_lines r) /\
  (forall line, In line (angle_lines r) ->
     0.3 < al_strength line < 1 /\
     (drawn_from cfg high highs line \/ drawn_from cfg low lows line)) /\
  (forall s, current_angle_support r = Some s ->
     0.3 < al_strength (cur_line_info s) < 1 /\
     drawn_from cfg low lows (cur_line_info s) /\
     cur_price s = line_price_on (cur_line_info s) (current_day data) /\
     cur_price s < current_close data) /\
  (forall s, current_angle_resistance r = Some s ->
     0.3 < al_strength (cur_line_info s) < 1 /\
     drawn_from cfg high highs (cur_line_info s) /\
     cur_price s = line_price_on (cur_line_info s) (current_day data) /\
     current_close data < cur_price s).
Proof.
  intros r highs lows. unfold r. rewrite analyze_gann_angles_run. cbn zeta.
  fold highs lows.
  set (lines := sorted_by_desc al_strength _).
  cbn [angle_lines current_angle_support current_angle_resistance].
  assert (Hlines : forall line, In line lines ->
            0.3 < al_strength line < 1 /\
            (drawn_from cfg high highs line \/ drawn_from cfg low lows line)).
  { intros line H. now apply (sorted_angle_lines_spec tan cfg data). }
  destruct (current_angle_lines_spec data lines) as [Hsup Hres].
  split; [apply firstn_length_le|].
  split; [apply StronglySorted_firstn, sorted_by_desc_sorted|].
  split; [intros line H; apply Hlines; now apply In_firstn in H|].
  split.
  - intros s E. rewrite E in Hsup. cbn in Hsup.
    destruct Hsup as (Hin & [Htype _] & Hprice & _ & Hbelow & _).
    destruct (Hlines _ Hin) as [Hs [Hd|Hd]].
    + destruct Hd as [Hhigh _]. congruence.
    + split; [exact Hs|]. split; [exact Hd|]. split; assumption.
  - intros s E. rewrite E in Hres. cbn in Hres.
    destruct Hres as (Hin & [Htype _] & Hprice & _ & Habove & _).
    destruct (Hlines _ Hin) as [Hs [Hd|Hd]].
    + split; [exact Hs|]. split; [exact Hd|]. split; assumption.
    + destruct Hd as [Hlow _]. congruence.
Qed.

(** ** The predictions of the Gann stages *)

Lemma insert_by_desc_length {A} (key : A -> Q) (x : A) (l : list A) :
  length (insert_by_desc key x l) = S (length l).
Proof.
  induction l as [|y l IH]; cbn; [reflexivity|].
  destruct (Qle_bool (key y) (key x)); cbn; [reflexivity|]. now rewrite IH.
Qed.

Lemma sorted_by_desc_length {A} (key : A -> Q) (l : list A) :
  length (sorted_by_desc key l) = length l.
Proof.
  induction l as [|x l IH]; cbn; [reflexivity|].
  rewrite insert_by_desc_length. unfold sorted_by_desc in IH. now rewrite IH.
Qed.

Lemma flat_map_length_le {A B} (f : A -> list B) (l : list A) :
  (forall x, length (f x) <= 1)%nat -> (length (flat_map f l) <= length l)%nat.
Proof.
  intros Hf. induction l as [|x l IH]; cbn; [lia|].
  rewrite length_app. specialize (Hf x). lia.
Qed.

Lemma combine_predictions_spec (time_pred price_pred angle_pred : list GannPrediction) :
  let sorted := sorted_by_desc gp_strength (time_pred ++ price_pred ++ angle_pred) in
  let r := _combine_predictions time_pred price_pred angle_pred in
  all_predictions r = firstn 10 sorted /\
  up_strength r = Qsum (map gp_strength (filter counts_up sorted)) /\
  down_strength r = Qsum (map gp_strength (filter counts_down sorted)) /\
  trend_strength r = Qmax (up_strength r) (down_strength r).
Proof.
  intros sorted r. unfold r, _combine_predictions. fold sorted.
  set (up := Qsum (map gp_strength (filter counts_up sorted))).
  set (down := Qsum (map gp_strength (filter counts_down sorted))).
  set (guard := _ && _ && _).
  assert (Hstate : (if guard
                    then fold_left (price_target_step _current_price) sorted (up, down)
                    else (up, down)) = (up, down)).
  { destruct guard; [apply price_target_fold_idle|reflexivity]. }
  rewrite Hstate.
  destruct (Qlt_bool (down * 1.2) up); [repeat split|].
  destruct (Qlt_bool (up * 1.2) down); repeat split.
Qed.

Lemma time_predictions_spec (cfg : GannConfig) (time_cycles : list Z)
    (data : list Bar) :
  let preds :=
    _predict_by_time_cycles (analyze_time_cycles_body cfg time_cycles data) in
  (length preds <= 3)%nat /\
  forall p, In p preds -> 0.2 < gp_strength p <= 1.
Proof.
  unfold _predict_by_time_cycles, analyze_time_cycles_body.
  destruct (_find_pivot_points data 5) as [highs lows].
  cbn [next_time_windows]. set (found := sorted_by_desc ca_strength _).
  assert (Hfound : forall c, In c found -> 0.3 < ca_strength c <= 1).
  { intros c Hc. unfold found in Hc. apply sorted_by_desc_In in Hc.
    apply in_flat_map in Hc. destruct Hc as (cycle & _ & Hc).
    destruct (Qlt_bool 0.3 _) eqn:E; [|destruct Hc].
    destruct Hc as [<-|[]]. apply Qlt_bool_iff in E.
    split; [exact E|apply (single_time_cycle_bounds cfg data highs lows cycle)]. }
  unfold _calculate_next_time_windows. destruct found as [|x l] eqn:Ef.
  - split; [cbn; lia|intros p []].
  - rewrite <- Ef in *. rewrite map_map. split.
    + rewrite length_map. apply firstn_length_le.
    + intros p Hp. apply in_map_iff in Hp. destruct Hp as (c & <- & Hc).
      apply In_firstn in Hc. cbn [gp_strength tw_strength].
      destruct (Hfound c Hc) as [Hlow Hhigh]. split; [lra|exact Hhigh].
Qed.

Lemma price_predictions_spec (cfg : GannConfig) (data : list Bar) :
  let preds := _predict_by_price_cycles data (analyze_price_cycles_body cfg data) in
  (length preds <= 5)%nat /\
  forall p, In p preds -> 0.2 < gp_strength p <= 1.
Proof.
  unfold _predict_by_price_cycles. split.
  - apply Nat.le_trans
      with (length (firstn 5 (pa_key_levels (analyze_price_cycles_body cfg data))));
      [|apply firstn_length_le].
    apply flat_map_length_le. intros level.
    destruct (_ && _); [cbn; lia|]. destruct (_ && _); cbn; lia.
  - intros p Hp. apply in_flat_map in Hp. destruct Hp as (level & Hlevel & Hp).
    assert (Hstrength : 0.2 < pc_strength level <= 1).
    { apply In_firstn in Hlevel. unfold analyze_price_cycles_body in Hlevel.
      cbn [pa_key_levels] in Hlevel. apply In_firstn in Hlevel.
      apply (proj1 (sorted_by_desc_In _ _ _)) in Hlevel.
      apply in_flat_map in Hlevel. destruct Hlevel as (pct & _ & Hc).
      unfold price_cycles_at in Hc. apply in_app_or in Hc.
      destruct Hc as [Hc|Hc];
        (destruct (Qlt_bool 0.2 _) eqn:E; [|destruct Hc]); destruct Hc as [<-|[]];
        apply Qlt_bool_iff in E; cbn [pc_strength];
        (split; [exact E|apply Q.le_min_r]). }
    destruct (_ && _); [destruct Hp as [<-|[]]; exact Hstrength|].
    destruct (_ && _); [destruct Hp as [<-|[]]; exact Hstrength|destruct Hp].
Qed.

Lemma angle_predictions_spec (tan : Q -> Q) (cfg : GannConfig) (data : list Bar) :
  let preds := _predict_by_gann_angles (run tan (analyze_gann_angles_body cfg data)) in
  (length preds <= 2)%nat /\
  forall p, In p preds -> 0.2 < gp_strength p <= 1.
Proof.
  unfold _predict_by_gann_angles. rewrite analyze_gann_angles_run. cbn zeta.
  set (lines := sorted_by_desc al_strength _).
  cbn [current_angle_support current_angle_resistance].
  destruct (current_angle_lines_spec data lines) as [Hsup Hres].
  assert (Hlines : forall line, In line lines -> 0.2 < al_strength line <= 1).
  { intros line H. apply (sorted_angle_lines_spec tan cfg data) in H.
    destruct H as [[Hlow Hhigh] _]. split; lra. }
  destruct (_find_current_angle_support data lines) as [s|];
    destruct (_find_current_angle_resistance data lines) as [t|];
    cbn in Hsup, Hres; (split; [cbn; lia|]); intros p Hp; cbn in Hp.
  - destruct Hp as [<-|[<-|[]]]; cbn [gp_strength]; apply Hlines;
      [apply Hsup|apply Hres].
  - destruct Hp as [<-|[]]. cbn [gp_strength]. apply Hlines, Hsup.
  - destruct Hp as [<-|[]]. cbn [gp_strength]. apply Hlines, Hres.
  - destruct Hp.
Qed.

Lemma combined_confidence_bounds (c : CombinedPrediction) :
  (forall p, In p (all_predictions c) -> 0.2 <= gp_strength p <= 1) ->
  0 <= trend_strength c ->
  match all_predictions c with
  | [] => _calculate_prediction_confidence c == 0
  | _ => 0.1 <= _calculate_prediction_confidence c <= 1
  end.
Proof.
  intros Hall Htrend. unfold _calculate_prediction_confidence.
  destruct (all_predictions c) as [|p l] eqn:E; [reflexivity|].
  set (preds := p :: l) in *.
  destruct (mean_bounds (map gp_strength preds) 0.2 1) as [Hlow _].
  { discriminate. }
  { intros x Hx. apply in_map_iff in Hx. destruct Hx as (q & <- & Hq).
    now apply Hall. }
  rewrite length_map in Hlow.
  set (avg := Qsum (map gp_strength preds) / inject_Z (Z.of_nat (length preds))) in *.
  split.
  - apply Q.min_glb; [|discriminate].
    apply Qle_shift_div_l; [reflexivity|]. lra.
  - apply Qle_trans with 1.0; [apply Q.le_min_r|discriminate].
Qed.

(** X30.  [_generate_predictions] on the results of the three stages it
    reads, for a table that is not empty: there are at most three
    time-cycle, five price-target and two angle predictions, each with a
    strength above 0.2 and at most 1, so that the cut of the combined list
    at ten never removes one: [all_predictions] holds them all, strongest
    first.  [confidence_level] is 0 when there is no prediction and is
    otherwise at least 0.1 and at most 1. *)
Theorem generated_predictions_confidence (tan : Q -> Q) (cfg : GannConfig)
    (time_cycles : list Z) (data : list Bar) :
  data <> [] ->
  let r :=
    generate_predictions_body data (analyze_time_cycles_body cfg time_cycles data)
      (analyze_price_cycles_body cfg data)
      (run tan (analyze_gann_angles_body cfg data)) in
  let generated := time_predictions r ++ price_predictions r ++ angle_predictions r in
  (length (time_predictions r) <= 3)%nat /\
  (length (price_predictions r) <= 5)%nat /\
  (length (angle_predictions r) <= 2)%nat /\
  (forall p, In p generated -> 0.2 < gp_strength p <= 1) /\
  all_predictions (combined_prediction r) = sorted_by_desc gp_strength generated /\
  (generated = [] -> confidence_level r == 0) /\
  (generated <> [] -> 0.1 <= confidence_level r <= 1).
Proof.
  intros _ r generated. unfold generated, r, generate_predictions_body.
  cbn [time_predictions price_predictions angle_predictions combined_prediction
       confidence_level].
  destruct (time_predictions_spec cfg time_cycles data) as [Ht St].
  destruct (price_predictions_spec cfg data) as [Hp Sp].
  destruct (angle_predictions_spec tan cfg data) as [Ha Sa].
  cbn zeta in Ht, St, Hp, Sp, Ha, Sa.
  set (t := _predict_by_time_cycles _) in *.
  set (p := _predict_by_price_cycles _ _) in *.
  set (a := _predict_by_gann_angles _) in *.
  destruct (combine_predictions_spec t p a) as (Eall & Eup & _ & Etrend).
  cbn zeta in Eall, Eup, Etrend.
  set (c := _combine_predictions t p a) in *.
  assert (Hgen : forall q, In q (t ++ p ++ a) -> 0.2 < gp_strength q <= 1).
  { intros q Hq. apply in_app_or in Hq. destruct Hq as [Hq|Hq]; [now apply St|].
    apply in_app_or in Hq. destruct Hq as [Hq|Hq]; [now apply Sp|now apply Sa]. }
  assert (Hcut : all_predictions c = sorted_by_desc gp_strength (t ++ p ++ a)).
  { rewrite Eall. apply firstn_all2.
    rewrite sorted_by_desc_length, !length_app. lia. }
  assert (Hconf : match all_predictions c with
                  | [] => _calculate_prediction_confidence c == 0
                  | _ => 0.1 <= _calculate_prediction_confidence c <= 1
                  end).
  { apply combined_confidence_bounds.
    - intros q Hq. rewrite Hcut in Hq. apply sorted_by_desc_In in Hq.
      destruct (Hgen q Hq) as [Hlow Hhigh]. split; [lra|exact Hhigh].
    - rewrite Etrend. apply Qle_trans with (up_strength c); [|apply Q.le_max_l].
      rewrite Eup.
      destruct (fold_Qplus_bounds
                  (map gp_strength
                     (filter counts_up (sorted_by_desc gp_strength (t ++ p ++ a))))
                  0 1 0) as [Hlow _].
      { intros x Hx. apply in_map_iff in Hx. destruct Hx as (q & <- & Hq).
        apply filter_In in Hq. destruct Hq as [Hq _]. apply sorted_by_desc_In in Hq.
        destruct (Hgen q Hq) as [Hl Hh]. split; [lra|exact Hh]. }
      unfold Qsum. lra. }
  split; [exact Ht|]. split; [exact Hp|]. split; [exact Ha|].
  split; [exact Hgen|]. split; [exact Hcut|].
  rewrite Hcut in Hconf. split.
  - intros E. rewrite E in Hconf. exact Hconf.
  - intros Hne. destruct (sorted_by_desc gp_strength (t ++ p ++ a)) as [|q l] eqn:E;
      [|exact Hconf].
    exfalso. apply Hne. apply length_zero_iff_nil.
    rewrite <- (sorted_by_desc_length gp_strength), E. reflexivity.
Qed.

(** X30, witness: a table of three bars, with the tangent replaced by the
    constant 1. *)
Lemma generated_predictions_confidence_witness :
  let r :=
    generate_predictions_body Scenarios.calm_table
      (analyze_time_cycles_body default_gann_config default_time_cycles
         Scenarios.calm_table)
      (analyze_price_cycles_body default_gann_config Scenarios.calm_table)
      (run (fun _ => 1)
           (analyze_gann_angles_body default_gann_config Scenarios.calm_table)) in
  let generated := time_predictions r ++ price_predictions r ++ angle_predictions r in
  (length (time_predictions r) <= 3)%nat /\
  (length (price_predictions r) <= 5)%nat /\
  (length (angle_predictions r) <= 2)%nat /\
  (forall p, In p generated -> 0.2 < gp_strength p <= 1) /\
  all_predictions (combined_prediction r) = sorted_by_desc gp_strength generated /\
  (generated = [] -> confidence_level r == 0) /\
  (generated <> [] -> 0.1 <= confidence_level r <= 1).
Proof.
  apply (generated_predictions_confidence (fun _ => 1) default_gann_config
           default_time_cycles Scenarios.calm_table).
  discriminate.
Defined.

(** ** The Gann square, next levels *)

Lemma Qdiv_nonneg (a b : Q) : 0 <= a -> 0 <= b -> 0 <= a / b.
Proof.
  intros Ha Hb. unfold Qdiv. apply Qmult_le_0_compat; [exact Ha|].
  now apply Qinv_le_0_compat.
Qed.

Lemma inject_nat_nonneg (n : nat) : 0 <= inject_Z (Z.of_nat n).
Proof. replace 0 with (inject_Z 0) by reflexivity. rewrite <- Zle_Qle. lia. Qed.

Lemma Qle_div_mult (a b c : Q) : 0 < c -> a <= b / c -> a * c <= b.
Proof.
  intros Hc H. apply Qle_trans with (b / c * c).
  - apply Qmult_le_compat_r; [exact H|now apply Qlt_le_weak].
  - rewrite Qmult_comm, Qmult_div_r; [apply Qle_refl|].
    intro E. rewrite E in Hc. discriminate Hc.
Qed.

Lemma Qdiv_le_mult (a b c : Q) : 0 < c -> b / c <= a -> b <= a * c.
Proof.
  intros Hc H. apply Qle_trans with (b / c * c).
  - rewrite Qmult_comm, Qmult_div_r; [apply Qle_refl|].
    intro E. rewrite E in Hc. discriminate Hc.
  - apply Qmult_le_compat_r; [exact H|now apply Qlt_le_weak].
Qed.

(** X27.  [_analyze_gann_square], [_calculate_next_square_levels]: with a
    positive last close, at most five next levels are reported, nearest
    first; each is a level of the square whose price is within 20% of the
    close, an up level at least 1% above it and a down level at least 1%
    below it.  The strength of the square lies between 0 and 1. *)
Theorem square_next_levels_near_price (math_sqrt : Q -> Q) (cfg : GannConfig)
    (data : list Bar) :
  0 < current_close data ->
  let r := analyze_gann_square_body math_sqrt cfg data in
  (length (next_levels r) <= 5)%nat /\
  StronglySorted (fun a b => nl_distance a <= nl_distance b) (next_levels r) /\
  (forall n, In n (next_levels r) ->
     In (nl_square_info n) (square_levels r) /\
     nl_price n = sq_price (nl_square_info n) /\
     0.8 * current_close data <= nl_price n <= 1.2 * current_close data /\
     ((nl_direction n = "up" /\ 1.01 * current_close data <= nl_price n) \/
      (nl_direction n = "down" /\ nl_price n <= 0.99 * current_close data))) /\
  0 <= square_strength r <= 1.
Proof.
  intros Hpos r. unfold r, analyze_gann_square_body.
  cbn [next_levels square_levels square_strength].
  set (price := current_close data) in *.
  set (levels := _calculate_gann_square_levels math_sqrt _).
  unfold _calculate_next_square_levels.
  split; [apply firstn_length_le|].
  split; [apply StronglySorted_firstn, sorted_by_sorted|].
  split.
  - intros n Hn. apply In_firstn in Hn.
    apply (proj1 (sorted_by_In _ _ _)) in Hn.
    apply in_flat_map in Hn. destruct Hn as (level & Hlevel & Hn).
    destruct (Qle_bool 0.01 _) eqn:E1; [|destruct Hn].
    destruct (Qle_bool _ 0.2) eqn:E2; [|destruct Hn].
    destruct Hn as [<-|[]]. cbn [nl_square_info nl_price nl_direction].
    apply Qle_bool_iff in E1, E2.
    pose proof (Qle_div_mult _ _ _ Hpos E1) as Hlow.
    pose proof (Qdiv_le_mult _ _ _ Hpos E2) as Hhigh.
    apply Qabs_Qle_condition in Hhigh.
    split; [exact Hlevel|]. split; [reflexivity|].
    split; [split; lra|].
    destruct (Qlt_bool price (sq_price level)) eqn:Edir.
    + apply Qlt_bool_iff in Edir. left. split; [reflexivity|].
      rewrite Qabs_pos in Hlow by lra. lra.
    + right. split; [reflexivity|].
      assert (Hle : sq_price level <= price).
      { apply Qnot_lt_le. intro H. apply Qlt_bool_iff in H. congruence. }
      rewrite Qabs_neg in Hlow by lra. lra.
  - unfold _calculate_square_strength. split.
    + apply Q.min_glb; [|discriminate].
      apply Qdiv_nonneg; [|apply inject_nat_nonneg].
      apply Qdiv_nonneg; apply inject_nat_nonneg.
    + apply Q.le_min_r.
Qed.

(** X27, witness: a table that closes at 100, with 10 for every square
    root. *)
Lemma square_next_levels_near_price_witness :
  0 < current_close Scenarios.calm_table /\
  (length (next_levels (analyze_gann_square_body Scenarios.root_of_100 default_gann_config
                          Scenarios.calm_table)) <= 5)%nat /\
  StronglySorted (fun a b => nl_distance a <= nl_distance b)
    (next_levels (analyze_gann_square_body Scenarios.root_of_100 default_gann_config
                    Scenarios.calm_table)) /\
  0 <= square_strength (analyze_gann_square_body Scenarios.root_of_100 default_gann_config
                          Scenarios.calm_table) <= 1.
Proof.
  assert (Hpos : 0 < current_close Scenarios.calm_table) by reflexivity.
  destruct (square_next_levels_near_price Scenarios.root_of_100 default_gann_config
              Scenarios.calm_table Hpos) as (Hlen & Hsorted & _ & Hstrength).
  exact (conj Hpos (conj Hlen (conj Hsorted Hstrength))).
Defined.

(** ** The comprehensive score, path by path *)

(** X28.  [_calculate_comprehensive_score]: the score is between 0 and 100
    on every path.  The result lacks its individual scores (the [except]
    branch was taken) exactly when the divergence entry is a result whose
    [current_divergence] is Python's [None]; then the score is 50 and the
    rating C.  On every other input the rating is the one the cutoffs give
    for the score. *)
Theorem comprehensive_score_paths (analysis_result : AnalysisResult) :
  0 <= comprehensive_score (_calculate_comprehensive_score analysis_result) <= 100 /\
  (individual_scores (_calculate_comprehensive_score analysis_result) = None <->
   exists dd, divergence_analysis analysis_result = Some dd /\
              current_divergence dd = None) /\
  (individual_scores (_calculate_comprehensive_score analysis_result) = None ->
   comprehensive_score (_calculate_comprehensive_score analysis_result) = 50 /\
   rating (_calculate_comprehensive_score analysis_result) = "C") /\
  (individual_scores (_calculate_comprehensive_score analysis_result) <> None ->
   rating (_calculate_comprehensive_score analysis_result) =
     _get_comprehensive_rating
       (comprehensive_score (_calculate_comprehensive_score analysis_result))).
Proof.
  unfold _calculate_comprehensive_score, comprehensive_score_body,
    _score_divergence_risk.
  destruct (divergence_analysis analysis_result) as [dd|].
  - destruct (current_divergence dd) as [cd|] eqn:Ecd.
    + destruct (has_recent_divergence cd); cbn;
        (split; [apply clamp_bounds|]);
        (split; [split; [discriminate|intros (dd' & [= <-] & H); congruence]|]);
        (split; [discriminate|reflexivity]).
    + cbn. split; [split; discriminate|].
      split; [split; [intros _; now exists dd|reflexivity]|].
      split; [intros _; split; reflexivity|congruence].
  - cbn. split; [apply clamp_bounds|].
    split; [split; [discriminate|intros (dd & H & _); discriminate]|].
    split; [discriminate|reflexivity].
Qed.
